(** * AI Goal Mentor: the goal-decomposition core

    A shallow embedding of [models.py] (the Goal / Subgoal / Task / Subtask
    hierarchy) and of [langgraph_decomposer.py] (the four-node decomposition
    graph and the tree renderer), with the properties of the specification
    stated and proved over it.

    Python values that the code never constrains (everything read out of a
    model reply, everything passed through [from_dict]) are kept as dynamic
    values [pyval]; truthiness, [or], [dict.get], subscripting and iteration
    follow CPython.  A [str] is held as the bytes of its UTF-8 encoding and
    is iterated, measured and indexed by code point. *)

From Stdlib Require Import ZArith String Ascii List PrimFloat Uint63 Floats.
From stdpp Require Import base gmap strings list pretty.

Local Open Scope string_scope.
Local Open Scope list_scope.

(** ** Dynamic values *)

Set Warnings "-register-all".

(** The keys of a [PDict] are pairwise distinct, as those of a [dict]. *)
Inductive pyval : Type :=
| PNone
| PBool (b : bool)
| PInt (z : Z)
| PFloat (f : float)
| PStr (s : string)
| PList (l : list pyval)
| PDict (d : list (string * pyval)).

(** [bool(v)]: the truth value used by [if v], [v or w], [not v], [all]. *)
Definition truthy (v : pyval) : bool :=
  match v with
  | PNone => false
  | PBool b => b
  | PInt z => negb (Z.eqb z 0)
  | PFloat f => negb (PrimFloat.eqb f PrimFloat.zero)
  | PStr s => negb (String.eqb s "")
  | PList l => match l with [] => false | _ => true end
  | PDict d => match d with [] => false | _ => true end
  end.

(** [a or b] *)
Definition py_or (a b : pyval) : pyval := if truthy a then a else b.

(** [type(v).__name__] *)
Definition type_name (v : pyval) : string :=
  match v with
  | PNone => "NoneType"
  | PBool _ => "bool"
  | PInt _ => "int"
  | PFloat _ => "float"
  | PStr _ => "str"
  | PList _ => "list"
  | PDict _ => "dict"
  end.

(** [v == s] for a string literal [s]: only a [str] equals a [str]. *)
Definition py_eq_str (v : pyval) (s : string) : bool :=
  match v with
  | PStr s' => String.eqb s' s
  | _ => false
  end.

(** ** Exceptions and results *)

Inductive exn_kind : Type :=
| KeyError | IndexError | TypeError | ValueError | AttributeError
| JSONDecodeError | ServiceError | GraphRecursionError.

(** An exception object: its class and [str(e)]. Every class here derives
    from [Exception], hence is caught by [except Exception]. *)
Record exn : Type := Exn { exn_kind_of : exn_kind; exn_str : string }.

Inductive result (A : Type) : Type :=
| Ok (a : A)
| Raise (e : exn).
Arguments Ok {A} a.
Arguments Raise {A} e.

Definition is_ok {A} (r : result A) : bool :=
  match r with Ok _ => true | Raise _ => false end.

(** ** Dictionary and sequence primitives *)

Fixpoint assoc (k : string) (d : list (string * pyval)) : option pyval :=
  match d with
  | [] => None
  | (k', v) :: d' => if String.eqb k' k then Some v else assoc k d'
  end.

Definition no_get (v : pyval) : exn :=
  Exn AttributeError ("'" +:+ type_name v +:+ "' object has no attribute 'get'").

(** [data.get(k, default)] *)
Definition py_get (data : pyval) (k : string) (default : pyval) : result pyval :=
  match data with
  | PDict d => Ok (match assoc k d with Some v => v | None => default end)
  | _ => Raise (no_get data)
  end.

Definition not_subscriptable (v : pyval) : exn :=
  Exn TypeError
    (match v with
     | PStr _ => "string indices must be integers, not 'str'"
     | PList _ => "list indices must be integers or slices, not str"
     | _ => "'" +:+ type_name v +:+ "' object is not subscriptable"
     end).

(** [data[k]] for a string key [k] *)
Definition py_getitem (data : pyval) (k : string) : result pyval :=
  match data with
  | PDict d =>
      match assoc k d with
      | Some v => Ok v
      | None => Raise (Exn KeyError ("'" +:+ k +:+ "'"))
      end
  | _ => Raise (not_subscriptable data)
  end.

(** A byte that continues a UTF-8 sequence ([10xxxxxx]). *)
Definition is_continuation (c : ascii) : bool :=
  Nat.leb 128 (nat_of_ascii c) && Nat.ltb (nat_of_ascii c) 192.

(** The code points of a text, each as the bytes that encode it. *)
Fixpoint code_points (s : string) : list string :=
  match s with
  | EmptyString => []
  | String c s' =>
      let rest := code_points s' in
      match s', rest with
      | String c' _, p :: ps =>
          if is_continuation c' then String c p :: ps
          else String c EmptyString :: rest
      | _, _ => String c EmptyString :: rest
      end
  end.

(** The one-character strings a [str] yields when iterated. *)
Definition chars (s : string) : list pyval := map PStr (code_points s).

Definition not_iterable (v : pyval) : exn :=
  Exn TypeError ("'" +:+ type_name v +:+ "' object is not iterable").

(** [for x in v]: the items a [for] loop or comprehension visits. *)
Definition py_iter (v : pyval) : result (list pyval) :=
  match v with
  | PList l => Ok l
  | PStr s => Ok (chars s)
  | PDict d => Ok (map (fun kv => PStr (fst kv)) d)
  | _ => Raise (not_iterable v)
  end.

(** [len(v)] *)
Definition py_len (v : pyval) : result nat :=
  match v with
  | PList l => Ok (length l)
  | PStr s => Ok (length (code_points s))
  | PDict d => Ok (length d)
  | _ => Raise (Exn TypeError ("object of type '" +:+ type_name v +:+ "' has no len()"))
  end.

(** [v[i]] for a non-negative integer index [i] on a value that has a length. *)
Definition py_index (v : pyval) (i : nat) : result pyval :=
  match v with
  | PList l =>
      match l !! i with
      | Some x => Ok x
      | None => Raise (Exn IndexError "list index out of range")
      end
  | PStr s =>
      match chars s !! i with
      | Some x => Ok x
      | None => Raise (Exn IndexError "string index out of range")
      end
  | PDict _ => Raise (Exn KeyError (pretty i))
  | _ => Raise (Exn TypeError ("'" +:+ type_name v +:+ "' object is not subscriptable"))
  end.

(** ** The runtime outside the repository

    What the code obtains from the Python runtime and from its collaborators:
    identifiers, the clock, the ISO-8601 codec of [datetime], the completion
    service, the JSON parser and number formatting.  Each source of fresh
    values is a stream indexed by the number of calls made so far. *)

Class Runtime : Type := {
  datetime : Type;
  (** [str(uuid.uuid4())] at the k-th call *)
  uuid4 : nat -> string;
  (** [datetime.now()] at the k-th call *)
  now : nat -> datetime;
  (** [d.isoformat()] *)
  isoformat : datetime -> string;
  (** [datetime.fromisoformat(v)] *)
  fromisoformat : pyval -> result datetime;
  (** [llm.invoke(prompt).content] at the k-th call, or the exception raised;
      the reply is whatever the service answers to the prompt of that call *)
  llm_invoke : nat -> result string;
  (** [json.loads(text)] *)
  json_loads : string -> result pyval;
  (** [repr(v)] of a float, list or dict *)
  py_repr : pyval -> string;
  (** [format(x, ".0f")] *)
  format_0f : float -> string;
  (** [str(e)] of the [GraphRecursionError] of the graph library *)
  recursion_text : string;
}.

(** Calls made so far to the three streams. *)
Record world : Type := World {
  uuid_calls : nat;
  now_calls : nat;
  llm_calls : nat;
}.

(** Computations over a state [S] that may raise; the state reached when an
    exception is raised is kept, as an [except] clause sees it. *)
Definition ST (S A : Type) : Type := S -> result A * S.

Definition ret {S A} (a : A) : ST S A := fun s => (Ok a, s).

Definition bind {S A B} (m : ST S A) (k : A -> ST S B) : ST S B :=
  fun s =>
    match m s with
    | (Ok a, s') => k a s'
    | (Raise e, s') => (Raise e, s')
    end.

Definition lift {S A} (r : result A) : ST S A := fun s => (r, s).

(** [try: m  except Exception as e: h e] *)
Definition try_except {S A} (m : ST S A) (h : exn -> ST S A) : ST S A :=
  fun s =>
    match m s with
    | (Ok a, s') => (Ok a, s')
    | (Raise e, s') => h e s'
    end.

(** Entity construction reads the identifier stream and the clock. *)
Abbreviation M := (ST world).

Notation "'let*' x ':=' m 'in' k" := (bind m (fun x => k))
  (at level 10, x pattern, m at level 100, k at level 200).

Fixpoint mapM {S A B} (f : A -> ST S B) (l : list A) : ST S (list B) :=
  match l with
  | [] => ret []
  | x :: l' => let* y := f x in let* ys := mapM f l' in ret (y :: ys)
  end.

(** [for x in l: acc = f acc x] *)
Fixpoint foldM {S A B} (f : B -> A -> ST S B) (acc : B) (l : list A) : ST S B :=
  match l with
  | [] => ret acc
  | x :: l' => let* acc' := f acc x in foldM f acc' l'
  end.

(** [sum(xs)] of integers *)
Definition py_sum (xs : list nat) : nat := foldl Nat.add 0 xs.

(** [float(n)] of a length or count (exact below 2^53) *)
Definition float_of_nat (n : nat) : float :=
  PrimFloat.of_uint63 (Uint63.of_Z (Z.of_nat n)).

(** [(a / b) * 100] on integers: true division, then a float product *)
Definition ratio_percent (a b : nat) : float :=
  PrimFloat.mul (PrimFloat.div (float_of_nat a) (float_of_nat b)) (float_of_nat 100).

Section WithRuntime.
Context {R : Runtime}.

Definition fresh_uuid : M pyval :=
  fun w => (Ok (PStr (uuid4 (uuid_calls w))),
            World (S (uuid_calls w)) (now_calls w) (llm_calls w)).

Definition datetime_now : M datetime :=
  fun w => (Ok (now (now_calls w)),
            World (uuid_calls w) (S (now_calls w)) (llm_calls w)).

(** [given or str(uuid.uuid4())] *)
Definition id_or_fresh (given : pyval) : M pyval :=
  if truthy given then ret given else fresh_uuid.

(** [str(v)], as an f-string field renders it *)
Definition py_str (v : pyval) : string :=
  match v with
  | PStr s => s
  | PNone => "None"
  | PBool true => "True"
  | PBool false => "False"
  | PInt z => pretty z
  | _ => py_repr v
  end.
End WithRuntime.

(** ** Entity model ([models.py]) *)

Module Subtask.
Record t : Type := mk {
  id : pyval;
  parent_task_id : pyval;
  description : pyval;
  done : pyval;
}.

Section Ops.
Context {R : Runtime}.

Definition __init__ (description parent_task_id done subtask_id : pyval) : M t :=
  let* i := id_or_fresh subtask_id in
  ret (mk i parent_task_id description done).

Definition to_dict (self : t) : pyval :=
  PDict [ ("id", id self);
          ("parent_task_id", parent_task_id self);
          ("description", description self);
          ("done", done self) ].

Definition from_dict (data : pyval) : M t :=
  let* d := lift (py_getitem data "description") in
  let* p := lift (py_getitem data "parent_task_id") in
  let* dn := lift (py_get data "done" (PBool false)) in
  let* i := lift (py_get data "id" PNone) in
  __init__ d p dn i.
End Ops.
End Subtask.

Module Task.
Record t : Type := mk {
  id : pyval;
  parent_subgoal_id : pyval;
  parent_goal_id : pyval;
  task : pyval;
  due : pyval;
  started : pyval;
  done : pyval;
  subtasks : list Subtask.t;
  counted : pyval;
  estimated_minutes : pyval;
}.

Section Ops.
Context {R : Runtime}.

Definition __init__ (task parent_subgoal_id parent_goal_id due started done : pyval)
    (subtasks : option (list Subtask.t)) (counted estimated_minutes task_id : pyval)
    : M t :=
  let* i := id_or_fresh task_id in
  ret (mk i parent_subgoal_id parent_goal_id task
          (py_or due (PStr "None")) started done
          (match subtasks with Some (x :: l) => x :: l | _ => [] end)
          counted estimated_minutes).

(** [self.add_subtask(description)]: the task after the append, and the
    subtask returned. *)
Definition add_subtask (self : t) (description : pyval) : M (t * Subtask.t) :=
  let* st := Subtask.__init__ description (id self) (PBool false) PNone in
  ret (mk (id self) (parent_subgoal_id self) (parent_goal_id self) (task self)
          (due self) (started self) (done self) (subtasks self ++ [st])
          (counted self) (estimated_minutes self), st).

Definition get_completion_percentage (self : t) : float :=
  match subtasks self with
  | [] => if truthy (done self) then 100%float else 0%float
  | _ =>
      let completed :=
        py_sum (map (fun _ => 1) (filter (fun st => truthy (Subtask.done st) = true)
                                         (subtasks self))) in
      ratio_percent completed (length (subtasks self))
  end.

Definition to_dict (self : t) : pyval :=
  PDict [ ("id", id self);
          ("parent_subgoal_id", parent_subgoal_id self);
          ("parent_goal_id", parent_goal_id self);
          ("task", task self);
          ("due", due self);
          ("started", started self);
          ("done", done self);
          ("subtasks", PList (map Subtask.to_dict (subtasks self)));
          ("counted", counted self);
          ("estimated_minutes", estimated_minutes self) ].

Definition from_dict (data : pyval) : M t :=
  let* raw := lift (py_get data "subtasks" (PList [])) in
  let* items := lift (py_iter raw) in
  let* sts := mapM Subtask.from_dict items in
  let* tk := lift (py_getitem data "task") in
  let* psg := lift (py_getitem data "parent_subgoal_id") in
  let* pg := lift (py_getitem data "parent_goal_id") in
  let* du := lift (py_get data "due" PNone) in
  let* stt := lift (py_get data "started" (PBool false)) in
  let* dn := lift (py_get data "done" (PBool false)) in
  let* cn := lift (py_get data "counted" (PBool false)) in
  let* em := lift (py_get data "estimated_minutes" PNone) in
  let* i := lift (py_get data "id" PNone) in
  __init__ tk psg pg du stt dn (Some sts) cn em i.
End Ops.
End Task.

Module Subgoal.
Record t : Type := mk {
  id : pyval;
  parent_goal_id : pyval;
  title : pyval;
  level : pyval;
  tasks : list Task.t;
  status : pyval;
}.

Definition set_status (self : t) (s : pyval) : t :=
  mk (id self) (parent_goal_id self) (title self) (level self) (tasks self) s.

Section Ops.
Context {R : Runtime}.

Definition __init__ (title parent_goal_id level : pyval) (tasks : option (list Task.t))
    (status subgoal_id : pyval) : M t :=
  let* i := id_or_fresh subgoal_id in
  ret (mk i parent_goal_id title level
          (match tasks with Some (x :: l) => x :: l | _ => [] end) status).

(** [self.add_task(task_description, due, estimated_minutes)]: the subgoal
    after the append, and the task returned. *)
Definition add_task (self : t) (task_description due estimated_minutes : pyval)
    : M (t * Task.t) :=
  let* tk := Task.__init__ task_description (id self) (parent_goal_id self) due
               (PBool false) (PBool false) None (PBool false) estimated_minutes PNone in
  ret (mk (id self) (parent_goal_id self) (title self) (level self)
          (tasks self ++ [tk]) (status self), tk).

Definition get_completion_percentage (self : t) : float :=
  match tasks self with
  | [] => 0%float
  | _ =>
      let completed :=
        py_sum (map (fun _ => 1) (filter (fun tk => truthy (Task.done tk) = true)
                                         (tasks self))) in
      ratio_percent completed (length (tasks self))
  end.

Definition update_status (self : t) : t :=
  match tasks self with
  | [] => set_status self (PStr "active")
  | _ =>
      if forallb (fun tk => truthy (Task.done tk)) (tasks self)
      then set_status self (PStr "completed")
      else if existsb (fun tk => truthy (Task.started tk)) (tasks self)
      then set_status self (PStr "active")
      else set_status self (PStr "active")
  end.

Definition to_dict (self : t) : pyval :=
  PDict [ ("id", id self);
          ("parent_goal_id", parent_goal_id self);
          ("title", title self);
          ("level", level self);
          ("tasks", PList (map Task.to_dict (tasks self)));
          ("status", status self) ].

Definition from_dict (data : pyval) : M t :=
  let* raw := lift (py_get data "tasks" (PList [])) in
  let* items := lift (py_iter raw) in
  let* tks := mapM Task.from_dict items in
  let* ti := lift (py_getitem data "title") in
  let* pg := lift (py_getitem data "parent_goal_id") in
  let* lv := lift (py_get data "level" (PInt 1)) in
  let* stt := lift (py_get data "status" (PStr "active")) in
  let* i := lift (py_get data "id" PNone) in
  __init__ ti pg lv (Some tks) stt i.
End Ops.
End Subgoal.

Module Goal.
Record t {R : Runtime} : Type := mk {
  id : pyval;
  title : pyval;
  description : pyval;
  subgoals : list Subgoal.t;
  status : pyval;
  category : pyval;
  created_at : datetime;
  confidence : pyval;
  rationale : pyval;
}.

Section Ops.
Context {R : Runtime}.

Definition set_subgoals (self : t) (sgs : list Subgoal.t) : t :=
  mk R (id self) (title self) (description self) sgs (status self) (category self)
     (created_at self) (confidence self) (rationale self).

Definition set_status (self : t) (s : pyval) : t :=
  mk R (id self) (title self) (description self) (subgoals self) s (category self)
     (created_at self) (confidence self) (rationale self).

Definition __init__ (title description : pyval) (subgoals : option (list Subgoal.t))
    (status category : pyval) (created_at : option datetime)
    (goal_id confidence rationale : pyval) : M t :=
  let* i := id_or_fresh goal_id in
  let* c := match created_at with Some d => ret d | None => datetime_now end in
  ret (mk R i title description
          (match subgoals with Some (x :: l) => x :: l | _ => [] end)
          status category c confidence rationale).

(** [self.add_subgoal(title, level)]: the goal after the append, and the
    subgoal returned. *)
Definition add_subgoal (self : t) (title level : pyval) : M (t * Subgoal.t) :=
  let* sg := Subgoal.__init__ title (id self) level None (PStr "active") PNone in
  ret (set_subgoals self (subgoals self ++ [sg]), sg).

Definition get_total_tasks (self : t) : nat :=
  py_sum (map (fun sg => length (Subgoal.tasks sg)) (subgoals self)).

Definition get_completed_tasks (self : t) : nat :=
  py_sum (map (fun sg =>
                 py_sum (map (fun _ => 1)
                           (filter (fun tk => truthy (Task.done tk) = true)
                                   (Subgoal.tasks sg))))
              (subgoals self)).

Definition get_completion_percentage (self : t) : float :=
  match subgoals self with
  | [] => 0%float
  | _ =>
      let total_tasks := get_total_tasks self in
      if Nat.eqb total_tasks 0 then 0%float
      else ratio_percent (get_completed_tasks self) total_tasks
  end.

Definition update_status (self : t) : t :=
  match subgoals self with
  | [] => set_status self (PStr "active")
  | _ =>
      let sgs := map Subgoal.update_status (subgoals self) in
      let self := set_subgoals self sgs in
      if forallb (fun sg => py_eq_str (Subgoal.status sg) "completed") sgs
      then set_status self (PStr "completed")
      else if existsb (fun sg => py_eq_str (Subgoal.status sg) "active") sgs
      then set_status self (PStr "active")
      else set_status self (PStr "active")
  end.

Definition to_dict (self : t) : pyval :=
  PDict [ ("id", id self);
          ("title", title self);
          ("description", description self);
          ("subgoals", PList (map Subgoal.to_dict (subgoals self)));
          ("status", status self);
          ("category", category self);
          ("created_at", PStr (isoformat (created_at self)));
          ("confidence", confidence self);
          ("rationale", rationale self) ].

(** [k in data] where [data] is known to be a dict *)
Definition has_key (k : string) (data : pyval) : bool :=
  match data with
  | PDict d => match assoc k d with Some _ => true | None => false end
  | _ => false
  end.

Definition from_dict (data : pyval) : M t :=
  let* raw := lift (py_get data "subgoals" (PList [])) in
  let* items := lift (py_iter raw) in
  let* sgs := mapM Subgoal.from_dict items in
  (* [data] is a dict from here on: [data.get] above did not raise *)
  let* created :=
    (if has_key "created_at" data
     then let* v := lift (py_getitem data "created_at") in
          let* d := lift (fromisoformat v) in
          ret (Some d)
     else ret None) in
  let* ti := lift (py_getitem data "title") in
  let* de := lift (py_get data "description" (PStr "")) in
  let* stt := lift (py_get data "status" (PStr "active")) in
  let* ca := lift (py_get data "category" (PStr "Academics")) in
  let* i := lift (py_get data "id" PNone) in
  let* co := lift (py_get data "confidence" (PInt 5)) in
  let* ra := lift (py_get data "rationale" (PStr "")) in
  __init__ ti de (Some sgs) stt ca created i co ra.
End Ops.
End Goal.

Section Flatten.
Context {R : Runtime}.

(** One legacy record, in key order. *)
Definition legacy_task (goal : Goal.t) (subgoal : Subgoal.t) (task : Task.t) : pyval :=
  let subtask_strings := map Subtask.description (Task.subtasks task) in
  PDict [ ("task", PStr (py_str (Subgoal.title subgoal) +:+ ": " +:+ py_str (Task.task task)));
          ("due", Task.due task);
          ("started", Task.started task);
          ("done", Task.done task);
          ("subtasks", PList subtask_strings);
          ("counted", Task.counted task);
          ("_goal_id", Goal.id goal);
          ("_subgoal_id", Subgoal.id subgoal);
          ("_task_id", Task.id task) ].

Definition flatten_goal_to_legacy_tasks (goal : Goal.t) : list pyval :=
  concat (map (fun subgoal => map (legacy_task goal subgoal) (Subgoal.tasks subgoal))
              (Goal.subgoals goal)).
End Flatten.

(** ** Text primitives used on a model reply *)

(** ASCII white space, as [str.strip()] removes it (tab to carriage return,
    the four separators 28 to 31, and the space). *)
Definition is_space (c : ascii) : bool :=
  let n := nat_of_ascii c in
  (Nat.leb 9 n && Nat.leb n 13) || (Nat.leb 28 n && Nat.leb n 32).

Fixpoint lstrip (s : string) : string :=
  match s with
  | String c s' => if is_space c then lstrip s' else s
  | EmptyString => EmptyString
  end.

(** [s.strip()] *)
Definition strip (s : string) : string :=
  String.rev (lstrip (String.rev (lstrip s))).

Fixpoint find_first (c : ascii) (s : string) : option nat :=
  match s with
  | EmptyString => None
  | String a s' => if Ascii.eqb a c then Some 0 else option_map S (find_first c s')
  end.

Fixpoint find_last (c : ascii) (s : string) : option nat :=
  match s with
  | EmptyString => None
  | String a s' =>
      match find_last c s' with
      | Some i => Some (S i)
      | None => if Ascii.eqb a c then Some 0 else None
      end
  end.

Definition substring_not_found : exn := Exn ValueError "substring not found".

(** [s.index(c)] for a one-character [c] *)
Definition str_index (s : string) (c : ascii) : result nat :=
  match find_first c s with Some i => Ok i | None => Raise substring_not_found end.

(** [s.rindex(c)] for a one-character [c] *)
Definition str_rindex (s : string) (c : ascii) : result nat :=
  match find_last c s with Some i => Ok i | None => Raise substring_not_found end.

(** [s[i:j]] for [0 <= i] and [0 <= j] *)
Definition slice (s : string) (i j : nat) : string := substring i (j - i) s.

(** ** Decomposition pipeline ([langgraph_decomposer.py]) *)

Section Pipeline.
Context {R : Runtime}.

(** All keys of the state dictionary are set by [initial_state] and none is
    ever removed, so the state is a record.  The cursor starts at 0 and is
    only ever incremented: a natural number. *)
Record DecompositionState : Type := mkState {
  goal_text : string;
  category : string;
  user_feedback : list string;
  parsed_goal_title : pyval;
  parsed_goal_description : pyval;
  subgoals_list : pyval;
  current_subgoal_index : nat;
  generated_tasks : gmap string pyval;
  confidence : pyval;
  rationale : pyval;
  final_goal : option Goal.t;
  error : string;
}.

Definition set_parsed_goal_title (v : pyval) (s : DecompositionState) :=
  mkState (goal_text s) (category s) (user_feedback s) v (parsed_goal_description s)
    (subgoals_list s) (current_subgoal_index s) (generated_tasks s) (confidence s)
    (rationale s) (final_goal s) (error s).
Definition set_parsed_goal_description (v : pyval) (s : DecompositionState) :=
  mkState (goal_text s) (category s) (user_feedback s) (parsed_goal_title s) v
    (subgoals_list s) (current_subgoal_index s) (generated_tasks s) (confidence s)
    (rationale s) (final_goal s) (error s).
Definition set_subgoals_list (v : pyval) (s : DecompositionState) :=
  mkState (goal_text s) (category s) (user_feedback s) (parsed_goal_title s)
    (parsed_goal_description s) v (current_subgoal_index s) (generated_tasks s)
    (confidence s) (rationale s) (final_goal s) (error s).
Definition set_current_subgoal_index (v : nat) (s : DecompositionState) :=
  mkState (goal_text s) (category s) (user_feedback s) (parsed_goal_title s)
    (parsed_goal_description s) (subgoals_list s) v (generated_tasks s)
    (confidence s) (rationale s) (final_goal s) (error s).
Definition set_generated_tasks (v : gmap string pyval) (s : DecompositionState) :=
  mkState (goal_text s) (category s) (user_feedback s) (parsed_goal_title s)
    (parsed_goal_description s) (subgoals_list s) (current_subgoal_index s) v
    (confidence s) (rationale s) (final_goal s) (error s).
Definition set_confidence (v : pyval) (s : DecompositionState) :=
  mkState (goal_text s) (category s) (user_feedback s) (parsed_goal_title s)
    (parsed_goal_description s) (subgoals_list s) (current_subgoal_index s)
    (generated_tasks s) v (rationale s) (final_goal s) (error s).
Definition set_rationale (v : pyval) (s : DecompositionState) :=
  mkState (goal_text s) (category s) (user_feedback s) (parsed_goal_title s)
    (parsed_goal_description s) (subgoals_list s) (current_subgoal_index s)
    (generated_tasks s) (confidence s) v (final_goal s) (error s).
Definition set_final_goal (v : option Goal.t) (s : DecompositionState) :=
  mkState (goal_text s) (category s) (user_feedback s) (parsed_goal_title s)
    (parsed_goal_description s) (subgoals_list s) (current_subgoal_index s)
    (generated_tasks s) (confidence s) (rationale s) v (error s).
Definition set_error (v : string) (s : DecompositionState) :=
  mkState (goal_text s) (category s) (user_feedback s) (parsed_goal_title s)
    (parsed_goal_description s) (subgoals_list s) (current_subgoal_index s)
    (generated_tasks s) (confidence s) (rationale s) (final_goal s) v.

(** A node runs over the pipeline state, which it mutates in place, and
    over the streams of the runtime. *)
Abbreviation Node := (ST (DecompositionState * world)).

Definition get_state : Node DecompositionState := fun sw => (Ok (fst sw), sw).

Definition modify (f : DecompositionState -> DecompositionState) : Node unit :=
  fun sw => (Ok tt, (f (fst sw), snd sw)).

Definition in_world {A} (m : M A) : Node A :=
  fun sw => let (r, w') := m (snd sw) in (r, (fst sw, w')).

(** [llm.invoke(prompt)] followed by [.content] *)
Definition llm_call : Node string :=
  fun sw =>
    let w := snd sw in
    (llm_invoke (llm_calls w),
     (fst sw, World (uuid_calls w) (now_calls w) (S (llm_calls w)))).

(** The four lines every stage opens its [try] block with: call the
    service, strip the reply, cut from the first opening brace to the last
    closing brace, and parse the cut. *)
Definition invoke_json : Node pyval :=
  let* content := llm_call in
  let raw := strip content in
  let* i := lift (str_index raw "{"%char) in
  let* j := lift (str_rindex raw "}"%char) in
  let json_text := slice raw i (j + 1) in
  lift (json_loads json_text).

Definition parse_goal_node : Node unit :=
  try_except
    (let* data := invoke_json in
     let* state := get_state in
     let* v := lift (py_get data "title" (PStr (goal_text state))) in
     let* _ := modify (set_parsed_goal_title v) in
     let* v := lift (py_get data "description" (PStr "")) in
     let* _ := modify (set_parsed_goal_description v) in
     let* v := lift (py_get data "confidence" (PInt 0)) in
     let* _ := modify (set_confidence v) in
     let* v := lift (py_get data "rationale" (PStr "")) in
     modify (set_rationale v))
    (fun e =>
       let* state := get_state in
       let* _ := modify (set_parsed_goal_title (PStr (goal_text state))) in
       let* _ := modify (set_parsed_goal_description (PStr "")) in
       modify (set_error ("Parse error: " +:+ exn_str e))).

Definition decompose_to_subgoals_node : Node unit :=
  try_except
    (let* data := invoke_json in
     let* v := lift (py_get data "subgoals" (PList [])) in
     let* _ := modify (set_subgoals_list v) in
     let* _ := modify (set_current_subgoal_index 0) in
     let* _ := modify (set_generated_tasks ∅) in
     let* v := lift (py_get data "confidence" (PInt 0)) in
     let* _ := modify (set_confidence v) in
     let* v := lift (py_get data "rationale" (PStr "")) in
     modify (set_rationale v))
    (fun e =>
       let* _ := modify (set_subgoals_list (PList [])) in
       modify (set_error ("Subgoal decomposition error: " +:+ exn_str e))).

(** [f"subgoal_{i}"] *)
Definition subgoal_key (i : nat) : string := "subgoal_" +:+ pretty i.

Definition generate_tasks_for_subgoal_node : Node unit :=
  let* state := get_state in
  let* n := lift (py_len (subgoals_list state)) in
  if Nat.leb n (current_subgoal_index state) then ret tt
  else
    let* current_subgoal :=
      lift (py_index (subgoals_list state) (current_subgoal_index state)) in
    let* subgoal_title := lift (py_get current_subgoal "title" (PStr "")) in
    let* subgoal_desc := lift (py_get current_subgoal "description" (PStr "")) in
    try_except
      (let* data := invoke_json in
       let* state := get_state in
       let key := subgoal_key (current_subgoal_index state) in
       let* v := lift (py_get data "tasks" (PList [])) in
       let* _ := modify (fun s => set_generated_tasks (<[key := v]> (generated_tasks s)) s) in
       let* v := lift (py_get data "confidence" (PInt 0)) in
       let* _ := modify (set_confidence v) in
       let* v := lift (py_get data "rationale" (PStr "")) in
       let* _ := modify (set_rationale v) in
       modify (fun s => set_current_subgoal_index (current_subgoal_index s + 1) s))
      (fun e => modify (set_error ("Task generation error: " +:+ exn_str e))).

Definition should_continue_task_generation : Node string :=
  let* state := get_state in
  let* n := lift (py_len (subgoals_list state)) in
  if Nat.ltb (current_subgoal_index state) n then ret "continue" else ret "finalize".

(** The object a factory returned is the last element of its owner's
    list; a later mutation through the returned reference shows there. *)
Definition with_last_task (sg : Subgoal.t) (tk : Task.t) : Subgoal.t :=
  Subgoal.mk (Subgoal.id sg) (Subgoal.parent_goal_id sg) (Subgoal.title sg)
    (Subgoal.level sg) (removelast (Subgoal.tasks sg) ++ [tk]) (Subgoal.status sg).

Definition with_last_subgoal (g : Goal.t) (sg : Subgoal.t) : Goal.t :=
  Goal.set_subgoals g (removelast (Goal.subgoals g) ++ [sg]).

(** Body of [for task_data in tasks_data] *)
Definition build_task (subgoal : Subgoal.t) (task_data : pyval) : M Subgoal.t :=
  let* td := lift (py_get task_data "task" (PStr "Unnamed task")) in
  let* em := lift (py_get task_data "estimated_minutes" (PInt 10)) in
  let* added := Subgoal.add_task subgoal td PNone em in
  let subgoal1 := fst added in
  let task := snd added in
  let* raw := lift (py_get task_data "subtasks" (PList [])) in
  let* descs := lift (py_iter raw) in
  let* task' :=
    foldM (fun tk d => let* added := Task.add_subtask tk d in ret (fst added)) task descs in
  ret (with_last_task subgoal1 task').

(** Body of [for i, subgoal_data in enumerate(state["subgoals_list"])] *)
Definition build_subgoal (state : DecompositionState) (goal : Goal.t)
    (entry : nat * pyval) : M Goal.t :=
  let '(i, subgoal_data) := entry in
  let* ti := lift (py_get subgoal_data "title" (PStr ("Subgoal " +:+ pretty (i + 1)))) in
  let* added := Goal.add_subgoal goal ti (PInt 1) in
  let goal1 := fst added in
  let subgoal := snd added in
  let tasks_data :=
    match generated_tasks state !! subgoal_key i with
    | Some v => v
    | None => PList []
    end in
  let* items := lift (py_iter tasks_data) in
  let* subgoal' := foldM build_task subgoal items in
  ret (with_last_subgoal goal1 subgoal').

Definition build_goal (state : DecompositionState) : M Goal.t :=
  let* goal := Goal.__init__ (parsed_goal_title state) (parsed_goal_description state)
                 None (PStr "active") (PStr (category state)) None PNone
                 (confidence state) (rationale state) in
  let* stubs := lift (py_iter (subgoals_list state)) in
  foldM (build_subgoal state) goal (imap (fun i x => (i, x)) stubs).

Definition finalize_goal_node : Node unit :=
  try_except
    (let* state := get_state in
     let* goal := in_world (build_goal state) in
     modify (set_final_goal (Some goal)))
    (fun e => modify (set_error ("Finalization error: " +:+ exn_str e))).

(** *** The graph of [create_decomposition_graph] *)

Inductive node : Type :=
| parse_goal | decompose_to_subgoals | generate_tasks | finalize | END.

(** One node run, followed by the edge leaving it. *)
Definition graph_step (n : node) : Node node :=
  match n with
  | parse_goal => let* _ := parse_goal_node in ret decompose_to_subgoals
  | decompose_to_subgoals => let* _ := decompose_to_subgoals_node in ret generate_tasks
  | generate_tasks =>
      let* _ := generate_tasks_for_subgoal_node in
      let* edge := should_continue_task_generation in
      if String.eqb edge "continue" then ret generate_tasks else ret finalize
  | finalize => let* _ := finalize_goal_node in ret END
  | END => ret END
  end.

Fixpoint graph_steps (k : nat) (n : node) : Node node :=
  match k with
  | 0 => ret n
  | S k' => let* n' := graph_step n in graph_steps k' n'
  end.

(** What the graph library raises when a run uses up its steps. *)
Definition recursion_error : exn := Exn GraphRecursionError recursion_text.

(** [graph.invoke]: node runs until [END] is reached or a node raises.  The
    library bounds a run: [budget] is the number of node runs it allows, and
    a run that has not reached [END] by then ends in its
    [GraphRecursionError].  The source passes no configuration (line 337),
    so the budget is the one the library's default recursion limit gives. *)
Fixpoint graph_invoke (budget : nat) (n : node) : Node unit :=
  fun sw =>
    match n with
    | END => (Ok tt, sw)
    | _ =>
        match budget with
        | 0 => (Raise recursion_error, sw)
        | S budget' =>
            match graph_step n sw with
            | (Ok n', sw') => graph_invoke budget' n' sw'
            | (Raise e, sw') => (Raise e, sw')
            end
        end
    end.

Definition initial_state (goal_text category : string) (user_feedback : list string)
    : DecompositionState :=
  mkState goal_text category user_feedback (PStr "") (PStr "") (PList []) 0 ∅
    (PInt 5) (PStr "") None "".

Definition decompose_goal_with_langgraph (budget : nat) (goal_text category : string)
    (user_feedback : list string) : M (option Goal.t) :=
  fun w =>
    match graph_invoke budget parse_goal
            (initial_state goal_text category user_feedback, w) with
    | (Ok _, (result, w')) => (Ok (final_goal result), w')
    | (Raise e, (_, w')) => (Raise e, w')
    end.

(** *** Tree rendering *)

Definition newline : string := String (ascii_of_nat 10) EmptyString.

(** [sep.join(lines)] *)
Fixpoint join (sep : string) (lines : list string) : string :=
  match lines with
  | [] => ""
  | [l] => l
  | l :: rest => l +:+ sep +:+ join sep rest
  end.

Definition mark (v : pyval) : string := if truthy v then "✅" else "⬜".

Definition subtask_line (is_last_task : bool) (n k : nat) (subtask : Subtask.t) : string :=
  let is_last_subtask := Nat.eqb k n in
  let subtask_prefix :=
    if is_last_task
    then (if is_last_subtask then "     └─" else "     ├─")
    else (if is_last_subtask then "  │  │  └─" else "  │  │  ├─") in
  subtask_prefix +:+ " " +:+ mark (Subtask.done subtask) +:+ " "
    +:+ py_str (Subtask.description subtask).

Definition task_lines (n j : nat) (task : Task.t) : list string :=
  let is_last_task := Nat.eqb j n in
  let task_prefix := if is_last_task then "  │  └─" else "  │  ├─" in
  (task_prefix +:+ " " +:+ mark (Task.done task) +:+ " " +:+ py_str (Task.task task)
     +:+ " (" +:+ py_str (Task.estimated_minutes task) +:+ "min)")
  :: imap (fun k st => subtask_line is_last_task (length (Task.subtasks task)) (k + 1) st)
          (Task.subtasks task).

Definition subgoal_lines (i : nat) (subgoal : Subgoal.t) : list string :=
  ("  ├─ 🔹 " +:+ py_str (Subgoal.title subgoal) +:+ " ("
     +:+ pretty (length (Subgoal.tasks subgoal)) +:+ " tasks)")
  :: concat (imap (fun j tk => task_lines (length (Subgoal.tasks subgoal)) (j + 1) tk)
                  (Subgoal.tasks subgoal)).

Definition visualize_lines (goal : Goal.t) : list string :=
  ("🎯 " +:+ py_str (Goal.title goal) +:+ " ["
     +:+ format_0f (Goal.get_completion_percentage goal) +:+ "% complete]")
  :: concat (imap (fun i sg => subgoal_lines (i + 1) sg) (Goal.subgoals goal)).

Definition visualize_goal_tree (goal : Goal.t) : string :=
  join newline (visualize_lines goal).
End Pipeline.


Abbreviation Node := (ST (DecompositionState * world)).

(** * Vocabulary of the statements *)

(** The subtasks of a task that are marked done. *)
Definition done_subtasks (t : Task.t) : list Subtask.t :=
  filter (fun st => truthy (Subtask.done st) = true) (Task.subtasks t).

(** The tasks of a subgoal whose own flag is set. *)
Definition done_tasks (sg : Subgoal.t) : list Task.t :=
  filter (fun tk => truthy (Task.done tk) = true) (Subgoal.tasks sg).

(** The percentage in the words of the specification, [100 * (done / total)]:
    the true division of the two counts, then the product with 100, both in
    binary64. *)
Definition percent_of (done total : nat) : float :=
  PrimFloat.mul 100%float
    (PrimFloat.div (PrimFloat.of_uint63 (Uint63.of_Z (Z.of_nat done)))
                   (PrimFloat.of_uint63 (Uint63.of_Z (Z.of_nat total)))).

Definition task_with_done (t : Task.t) (d : pyval) : Task.t :=
  Task.mk (Task.id t) (Task.parent_subgoal_id t) (Task.parent_goal_id t) (Task.task t)
    (Task.due t) (Task.started t) d (Task.subtasks t) (Task.counted t)
    (Task.estimated_minutes t).


(** Every task of every subgoal has its own flag set. *)
Definition all_leaf_tasks_done {R : Runtime} (g : Goal.t) : bool :=
  forallb (fun sg => forallb (fun tk => truthy (Task.done tk)) (Subgoal.tasks sg))
          (Goal.subgoals g).

Definition nonempty {A} (l : list A) : bool :=
  match l with [] => false | _ => true end.

(** ** A sample runtime, for closed examples

    Identifiers and timestamps are numbered; a timestamp is its own ISO
    text; the completion service answers from [replies]; the JSON parser
    knows the three replies of the scenario of the specification (goal
    "Prepare for Nov 2 exam", three subgoals, two tasks each). *)

Definition decode_error : exn :=
  Exn JSONDecodeError "Expecting value: line 1 column 1 (char 0)".

Definition sample_task_reply (name : string) (minutes : Z) : pyval :=
  PDict [ ("task", PStr name); ("estimated_minutes", PInt minutes);
          ("subtasks", PList [PStr "open the notes"; PStr "set a timer"]) ].

Definition sample_json (text : string) : result pyval :=
  if String.eqb text "{parse}" then
    Ok (PDict [ ("title", PStr "Prepare for Nov 2 exam");
                ("description", PStr "Be ready for the exam");
                ("confidence", PInt 8);
                ("rationale", PStr "Clear and dated") ])
  else if String.eqb text "{split}" then
    Ok (PDict [ ("subgoals",
                 PList [ PDict [("title", PStr "Review material"); ("description", PStr "a")];
                         PDict [("title", PStr "Practice problems"); ("description", PStr "b")];
                         PDict [("title", PStr "Rest/prep"); ("description", PStr "c")] ]);
                ("confidence", PInt 8);
                ("rationale", PStr "Clear and dated") ])
  else if String.eqb text "{tasks}" then
    Ok (PDict [ ("tasks", PList [ sample_task_reply "first" 15; sample_task_reply "second" 20 ]);
                ("confidence", PInt 8);
                ("rationale", PStr "Clear and dated") ])
  else Raise decode_error.

Definition sample_runtime (replies : nat -> result string) : Runtime :=
  {| datetime := string;
     uuid4 := fun k => "uuid-" +:+ pretty k;
     now := fun k => "2025-11-02T09:00:0" +:+ pretty k;
     isoformat := fun d => d;
     fromisoformat := fun v =>
       match v with
       | PStr s => Ok s
       | _ => Raise (Exn TypeError "fromisoformat: argument must be str")
       end;
     llm_invoke := replies;
     json_loads := sample_json;
     py_repr := fun _ => "?";
     format_0f := fun _ => "0";
     recursion_text := "Recursion limit reached without hitting a stop condition" |}.

(** The service answers every stage with a well-formed reply. *)
Definition good_replies (k : nat) : result string :=
  match k with
  | 0 => Ok "Here you go: {parse} "
  | 1 => Ok "{split}"
  | _ => Ok "  {tasks}"
  end.

(** The service answers with text that holds no JSON object. *)
Definition prose_replies (k : nat) : result string := Ok "I cannot help with that".

Definition w0 : world := World 0 0 0.

Definition sample_subtask (done : bool) : Subtask.t :=
  Subtask.mk (PStr "st") (PStr "t") (PStr "read a page") (PBool done).

Definition sample_task (done : bool) (subtasks : list Subtask.t) : Task.t :=
  Task.mk (PStr "t") (PStr "sg") (PStr "g") (PStr "read chapter 1") (PStr "None")
    (PBool false) (PBool done) subtasks (PBool false) (PInt 15).

Definition sample_subgoal (title : string) (tasks : list Task.t) : Subgoal.t :=
  Subgoal.mk (PStr "sg") (PStr "g") (PStr title) (PInt 1) tasks (PStr "active").

Definition sample_goal (category : string) (subgoals : list Subgoal.t)
    : @Goal.t (sample_runtime good_replies) :=
  Goal.mk (sample_runtime good_replies) (PStr "g") (PStr "Prepare for Nov 2 exam")
    (PStr "") subgoals (PStr "active") (PStr category) "2025-11-02T09:00:00"
    (PInt 8) (PStr "").

(** ** Well-formed entities

    An entity as its constructor leaves it: the identifier is a non-empty
    value (given or freshly generated), and the due label of a task is
    non-empty (given, or the sentinel). *)

Definition subtask_wf (st : Subtask.t) : bool := truthy (Subtask.id st).

Definition task_wf (t : Task.t) : bool :=
  truthy (Task.id t) && truthy (Task.due t) && forallb subtask_wf (Task.subtasks t).

Definition subgoal_wf (sg : Subgoal.t) : bool :=
  truthy (Subgoal.id sg) && forallb task_wf (Subgoal.tasks sg).

Definition goal_wf {R : Runtime} (g : Goal.t) : bool :=
  truthy (Goal.id g) && forallb subgoal_wf (Goal.subgoals g).

(** The ISO-8601 codec of the runtime reads back what it wrote. *)
Definition iso_roundtrip (R : Runtime) : Prop :=
  forall d : datetime, fromisoformat (PStr (isoformat d)) = Ok d.

(** The identifiers the runtime generates are non-empty strings. *)
Definition uuid_nonempty (R : Runtime) : Prop :=
  forall k : nat, uuid4 k <> "".

(** The due label is a non-empty string. *)
Definition due_label (v : pyval) : bool :=
  match v with
  | PStr s => negb (String.eqb s "")
  | _ => false
  end.

(** All tasks of a goal, subgoal by subgoal. *)
Definition goal_tasks {R : Runtime} (g : Goal.t) : list Task.t :=
  concat (map Subgoal.tasks (Goal.subgoals g)).

(** The category enumeration of the specification. *)
Definition allowed_categories : list string :=
  ["Academics"; "Personal"; "Hobbies"; "Future/Long-term Goals"].

Definition category_allowed (v : pyval) : bool :=
  existsb (py_eq_str v) allowed_categories.

(** A node run leaves the projection [F] of the pipeline state alone. *)
Definition preserves {R : Runtime} {A X} (F : DecompositionState -> X) (m : Node A) : Prop :=
  forall sw, F (fst (snd (m sw))) = F (fst sw).

(** A goal tree with children at every level, all identifiers set. *)
Definition sample_tree : @Goal.t (sample_runtime good_replies) :=
  sample_goal "Academics"
    [ sample_subgoal "Review material"
        [ sample_task true [sample_subtask true; sample_subtask false];
          sample_task false [] ];
      sample_subgoal "Rest/prep" [] ].

(** ** Lines of a text *)

(** The line breaks a text holds. *)
Fixpoint breaks (s : string) : nat :=
  match s with
  | EmptyString => 0
  | String c s' => (if Ascii.eqb c (ascii_of_nat 10) then 1 else 0) + breaks s'
  end.

(** The number of lines of a text: [len(text.split(newline))]. *)
Definition line_count (s : string) : nat := S (breaks s).

Section TextBreaks.
Context {R : Runtime}.

(** The line breaks inside the texts that the rendering prints for an
    entity and for what lies below it. *)
Definition subtask_breaks (st : Subtask.t) : nat :=
  breaks (py_str (Subtask.description st)).

Definition task_breaks (tk : Task.t) : nat :=
  breaks (py_str (Task.task tk)) + breaks (py_str (Task.estimated_minutes tk))
  + sum_list_with subtask_breaks (Task.subtasks tk).

Definition subgoal_breaks (sg : Subgoal.t) : nat :=
  breaks (py_str (Subgoal.title sg)) + sum_list_with task_breaks (Subgoal.tasks sg).

Definition goal_breaks (g : Goal.t) : nat :=
  breaks (py_str (Goal.title g))
  + breaks (format_0f (Goal.get_completion_percentage g))
  + sum_list_with subgoal_breaks (Goal.subgoals g).
End TextBreaks.

(** The sample tree with a two-line text in its second task. *)
Definition sample_tree_two_line_task : @Goal.t (sample_runtime good_replies) :=
  sample_goal "Academics"
    [ sample_subgoal "Review material"
        [ sample_task true [sample_subtask true; sample_subtask false];
          Task.mk (PStr "t") (PStr "sg") (PStr "g")
            (PStr ("read chapter 2" +:+ newline +:+ "and take notes")) (PStr "None")
            (PBool false) (PBool false) [] (PBool false) (PInt 15) ];
      sample_subgoal "Rest/prep" [] ].

(** ** Vocabulary of the pipeline statements *)

Section Replies.
Context {R : Runtime}.

(** What the k-th call of the completion service yields once stripped, cut
    and parsed: the value of [data] in a stage, or the exception raised on
    the way. *)
Definition reply_json (k : nat) : result pyval :=
  match llm_invoke k with
  | Raise e => Raise e
  | Ok content =>
      let raw := strip content in
      match str_index raw "{"%char with
      | Raise e => Raise e
      | Ok i =>
          match str_rindex raw "}"%char with
          | Raise e => Raise e
          | Ok j => json_loads (slice raw i (j + 1))
          end
      end
  end.

(** The exception the [try] block of a stage ends with at the k-th call,
    if any: a failure of the call, of the cut or of the parser, or a parsed
    value that is not an object. *)
Definition stage_error (k : nat) : option exn :=
  match reply_json k with
  | Raise e => Some e
  | Ok (PDict _) => None
  | Ok v => Some (no_get v)
  end.

(** The object parsed from the k-th reply. *)
Definition reply_dict (k : nat) : list (string * pyval) :=
  match reply_json k with
  | Ok (PDict d) => d
  | _ => []
  end.

Definition dict_get (d : list (string * pyval)) (k : string) (default : pyval) : pyval :=
  match assoc k d with Some v => v | None => default end.

(** The world after [j] more calls of the completion service. *)
Definition after_calls (j : nat) (w : world) : world :=
  World (uuid_calls w) (now_calls w) (llm_calls w + j).

(** The state the parse stage leaves on failure. *)
Definition parse_fallback (s : DecompositionState) (e : exn) : DecompositionState :=
  set_error ("Parse error: " +:+ exn_str e)
    (set_parsed_goal_description (PStr "")
       (set_parsed_goal_title (PStr (goal_text s)) s)).

(** The state the subgoal-split stage leaves on failure. *)
Definition split_fallback (s : DecompositionState) (e : exn) : DecompositionState :=
  set_error ("Subgoal decomposition error: " +:+ exn_str e)
    (set_subgoals_list (PList []) s).

(** The state the subgoal-split stage leaves on success. *)
Definition split_success (s : DecompositionState) (d : list (string * pyval))
    : DecompositionState :=
  set_rationale (dict_get d "rationale" (PStr ""))
    (set_confidence (dict_get d "confidence" (PInt 0))
       (set_generated_tasks ∅
          (set_current_subgoal_index 0
             (set_subgoals_list (dict_get d "subgoals" (PList [])) s)))).

(** The state one successful task-generation iteration leaves: the task
    list stored under the key of the cursor, the cursor advanced by one. *)
Definition task_success (s : DecompositionState) (d : list (string * pyval))
    : DecompositionState :=
  set_current_subgoal_index (current_subgoal_index s + 1)
    (set_rationale (dict_get d "rationale" (PStr ""))
       (set_confidence (dict_get d "confidence" (PInt 0))
          (set_generated_tasks
             (<[subgoal_key (current_subgoal_index s) := dict_get d "tasks" (PList [])]>
                (generated_tasks s)) s))).

(** The state a failed task-generation iteration leaves. *)
Definition task_failure (s : DecompositionState) (e : exn) : DecompositionState :=
  set_error ("Task generation error: " +:+ exn_str e) s.

(** The state after [j] successful iterations fed by the calls [k], [k+1], ... *)
Fixpoint after_tasks (j : nat) (s : DecompositionState) (k : nat) : DecompositionState :=
  match j with
  | 0 => s
  | S j' => after_tasks j' (task_success s (reply_dict k)) (S k)
  end.

(** The state after [j] failed iterations fed by the calls [k], [k+1], ... *)
Fixpoint after_failures (j : nat) (s : DecompositionState) (k : nat) : DecompositionState :=
  match j with
  | 0 => s
  | S j' =>
      after_failures j'
        (match stage_error k with Some e => task_failure s e | None => s end) (S k)
  end.
End Replies.

Definition is_dict (v : pyval) : bool :=
  match v with PDict _ => true | _ => false end.

(** The service answers the first two stages and then only prose. *)
Definition failing_task_replies (k : nat) : result string :=
  match k with
  | 0 => Ok "Here you go: {parse} "
  | 1 => Ok "{split}"
  | _ => Ok "I cannot help with that"
  end.

Definition sample_entry {R : Runtime} : DecompositionState * world :=
  (initial_state "Prepare for Nov 2 exam" "Academics" [], w0).

(** The pipeline state and the world when the loop is entered. *)
Definition sample_after_split {R : Runtime} : DecompositionState * world :=
  snd (graph_steps 2 parse_goal sample_entry).

Definition sample_stubs : list pyval :=
  [ PDict [("title", PStr "Review material"); ("description", PStr "a")];
    PDict [("title", PStr "Practice problems"); ("description", PStr "b")];
    PDict [("title", PStr "Rest/prep"); ("description", PStr "c")] ].

(** An exported task whose due entry is null. *)
Definition sample_task_dict : pyval :=
  PDict [ ("task", PStr "read chapter 1"); ("parent_subgoal_id", PStr "sg");
          ("parent_goal_id", PStr "g"); ("due", PNone) ].

(** A pipeline state ready for finalize: one stub with one generated task. *)
Definition sample_final_state {R : Runtime} : DecompositionState :=
  mkState "Prepare" "Academics" [] (PStr "Prepare") (PStr "")
    (PList [PDict [("title", PStr "Review material")]]) 1
    {[ "subgoal_0" := PList [sample_task_reply "first" 15] ]}
    (PInt 8) (PStr "") None "".

(** ** Dicts that import

    The shape [from_dict] needs, level by level: the required keys are
    present and every child imports. *)

Definition has (k : string) (d : list (string * pyval)) : bool :=
  match assoc k d with Some _ => true | None => false end.

Definition subtask_dict_ok (data : pyval) : bool :=
  match data with
  | PDict d => has "description" d && has "parent_task_id" d
  | _ => false
  end.

Definition children_ok (ok : pyval -> bool) (k : string) (d : list (string * pyval)) : bool :=
  match py_iter (match assoc k d with Some v => v | None => PList [] end) with
  | Ok items => forallb ok items
  | Raise _ => false
  end.

Definition task_dict_ok (data : pyval) : bool :=
  match data with
  | PDict d =>
      children_ok subtask_dict_ok "subtasks" d
      && has "task" d && has "parent_subgoal_id" d && has "parent_goal_id" d
  | _ => false
  end.

Definition subgoal_dict_ok (data : pyval) : bool :=
  match data with
  | PDict d =>
      children_ok task_dict_ok "tasks" d && has "title" d && has "parent_goal_id" d
  | _ => false
  end.

Definition goal_dict_ok {R : Runtime} (data : pyval) : bool :=
  match data with
  | PDict d =>
      children_ok subgoal_dict_ok "subgoals" d
      && match assoc "created_at" d with
         | Some v => is_ok (fromisoformat v)
         | None => true
         end
      && has "title" d
  | _ => false
  end.

(** A hand-written goal dict: no identifiers, a blank one, no timestamp. *)
Definition sample_partial_goal_dict : pyval :=
  PDict [ ("title", PStr "Tidy the flat");
          ("subgoals",
           PList [ PDict [ ("title", PStr "Kitchen"); ("parent_goal_id", PStr "");
                           ("id", PStr "");
                           ("tasks",
                            PList [ PDict [ ("task", PStr "Do the dishes");
                                            ("parent_subgoal_id", PNone);
                                            ("parent_goal_id", PNone);
                                            ("due", PStr "") ] ]) ] ]) ].

(** ** What finalize builds

    The relation between a piece of the pipeline state and the entity
    assembled from it. *)

Section Built.
Context {R : Runtime}.

(** A subtask assembled from the description [desc] under the task [tid]. *)
Definition subtask_built (tid desc : pyval) (st : Subtask.t) : Prop :=
  Subtask.parent_task_id st = tid
  /\ Subtask.description st = desc
  /\ Subtask.done st = PBool false
  /\ exists k, Subtask.id st = PStr (uuid4 k).

(** The subtask descriptions of a task entry. *)
Definition task_data_subtasks (task_data : pyval) : result (list pyval) :=
  match py_get task_data "subtasks" (PList []) with
  | Ok raw => py_iter raw
  | Raise e => Raise e
  end.

(** A task assembled from the entry [task_data] under the subgoal [sgid]
    of the goal [gid]. *)
Definition task_built (sgid gid task_data : pyval) (t : Task.t) : Prop :=
  Task.parent_subgoal_id t = sgid
  /\ Task.parent_goal_id t = gid
  /\ py_get task_data "task" (PStr "Unnamed task") = Ok (Task.task t)
  /\ py_get task_data "estimated_minutes" (PInt 10) = Ok (Task.estimated_minutes t)
  /\ Task.due t = PStr "None"
  /\ Task.started t = PBool false
  /\ Task.done t = PBool false
  /\ Task.counted t = PBool false
  /\ (exists k, Task.id t = PStr (uuid4 k))
  /\ exists descs,
       task_data_subtasks task_data = Ok descs
       /\ Forall2 (subtask_built (Task.id t)) descs (Task.subtasks t).

(** The task list stored for the stub at index [i]. *)
Definition stored_tasks (state : DecompositionState) (i : nat) : pyval :=
  match generated_tasks state !! subgoal_key i with
  | Some v => v
  | None => PList []
  end.

(** A subgoal assembled from the stub at index [i] under the goal [gid]. *)
Definition subgoal_built (state : DecompositionState) (gid : pyval)
    (entry : nat * pyval) (sg : Subgoal.t) : Prop :=
  Subgoal.parent_goal_id sg = gid
  /\ py_get (snd entry) "title" (PStr ("Subgoal " +:+ pretty (fst entry + 1)))
     = Ok (Subgoal.title sg)
  /\ Subgoal.level sg = PInt 1
  /\ Subgoal.status sg = PStr "active"
  /\ (exists k, Subgoal.id sg = PStr (uuid4 k))
  /\ exists items,
       py_iter (stored_tasks state (fst entry)) = Ok items
       /\ Forall2 (task_built (Subgoal.id sg) gid) items (Subgoal.tasks sg).
(** The fields a task keeps while subtasks are added to it. *)
Definition same_task_head (t t' : Task.t) : Prop :=
  Task.id t' = Task.id t
  /\ Task.parent_subgoal_id t' = Task.parent_subgoal_id t
  /\ Task.parent_goal_id t' = Task.parent_goal_id t
  /\ Task.task t' = Task.task t
  /\ Task.estimated_minutes t' = Task.estimated_minutes t
  /\ Task.due t' = Task.due t
  /\ Task.started t' = Task.started t
  /\ Task.done t' = Task.done t
  /\ Task.counted t' = Task.counted t.


(** The fields a subgoal keeps while tasks are added to it. *)
Definition same_subgoal_head (sg sg' : Subgoal.t) : Prop :=
  Subgoal.id sg' = Subgoal.id sg
  /\ Subgoal.parent_goal_id sg' = Subgoal.parent_goal_id sg
  /\ Subgoal.title sg' = Subgoal.title sg
  /\ Subgoal.level sg' = Subgoal.level sg
  /\ Subgoal.status sg' = Subgoal.status sg.


(** The fields a goal keeps while subgoals are added to it. *)
Definition same_goal_head (g g' : Goal.t) : Prop :=
  Goal.id g' = Goal.id g
  /\ Goal.title g' = Goal.title g
  /\ Goal.description g' = Goal.description g
  /\ Goal.status g' = Goal.status g
  /\ Goal.category g' = Goal.category g
  /\ Goal.created_at g' = Goal.created_at g
  /\ Goal.confidence g' = Goal.confidence g
  /\ Goal.rationale g' = Goal.rationale g.


(** Every back-reference of the tree names the entity that owns it. *)
Definition task_linked (t : Task.t) : Prop :=
  Forall (fun st => Subtask.parent_task_id st = Task.id t) (Task.subtasks t).

Definition subgoal_linked (gid : pyval) (sg : Subgoal.t) : Prop :=
  Subgoal.parent_goal_id sg = gid
  /\ Forall (fun t => Task.parent_subgoal_id t = Subgoal.id sg
                      /\ Task.parent_goal_id t = gid
                      /\ task_linked t)
            (Subgoal.tasks sg).

Definition goal_linked (g : Goal.t) : Prop :=
  Forall (subgoal_linked (Goal.id g)) (Goal.subgoals g).

(** The identifiers of a tree, parents before children, in order. *)
Definition task_ids (t : Task.t) : list pyval :=
  Task.id t :: map Subtask.id (Task.subtasks t).

Definition subgoal_ids (sg : Subgoal.t) : list pyval :=
  Subgoal.id sg :: concat (map task_ids (Subgoal.tasks sg)).

Definition goal_ids (g : Goal.t) : list pyval :=
  Goal.id g :: concat (map subgoal_ids (Goal.subgoals g)).

(** The [n] identifiers the runtime hands out from call [k] on. *)
Definition fresh_ids (k n : nat) : list pyval :=
  map (fun i => PStr (uuid4 i)) (seq k n).

(** Between [w] and [w'] exactly the identifiers [ids] were drawn, in
    order, and neither the clock nor the service was used. *)
Definition drew (w w' : world) (ids : list pyval) : Prop :=
  ids = fresh_ids (uuid_calls w) (length ids)
  /\ uuid_calls w' = uuid_calls w + length ids
  /\ now_calls w' = now_calls w
  /\ llm_calls w' = llm_calls w.

(** The shape finalize needs: every stub is an object, what is stored for
    it can be iterated and holds objects whose "subtasks", when present,
    can be iterated. *)
Definition task_data_ok (task_data : pyval) : bool :=
  match task_data with
  | PDict d => is_ok (py_iter (match assoc "subtasks" d with Some v => v | None => PList [] end))
  | _ => false
  end.

Definition stub_ok (state : DecompositionState) (entry : nat * pyval) : bool :=
  is_dict (snd entry)
  && match py_iter (stored_tasks state (fst entry)) with
     | Ok items => forallb task_data_ok items
     | Raise _ => false
     end.

Definition state_ok (state : DecompositionState) : bool :=
  match py_iter (subgoals_list state) with
  | Ok stubs => forallb (stub_ok state) (imap (fun i x => (i, x)) stubs)
  | Raise _ => false
  end.
End Built.

(** ** Runs with failures in between *)

Section Interleaved.
Context {R : Runtime}.

(** The state the parse stage leaves on success. *)
Definition parse_success (s : DecompositionState) (d : list (string * pyval))
    : DecompositionState :=
  set_rationale (dict_get d "rationale" (PStr ""))
    (set_confidence (dict_get d "confidence" (PInt 0))
       (set_parsed_goal_description (dict_get d "description" (PStr ""))
          (set_parsed_goal_title (dict_get d "title" (PStr (goal_text s))) s))).

(** The state after the parse stage fed by call [k]. *)
Definition after_parse (s : DecompositionState) (k : nat) : DecompositionState :=
  match stage_error k with
  | Some e => parse_fallback s e
  | None => parse_success s (reply_dict k)
  end.

(** The state after the subgoal-split stage fed by call [k]. *)
Definition after_split (s : DecompositionState) (k : nat) : DecompositionState :=
  match stage_error k with
  | Some e => split_fallback s e
  | None => split_success s (reply_dict k)
  end.

(** The state after one task-generation iteration fed by call [k]. *)
Definition iterate_once (s : DecompositionState) (k : nat) : DecompositionState :=
  match stage_error k with
  | Some e => task_failure s e
  | None => task_success s (reply_dict k)
  end.

(** The state after [j] iterations fed by the calls [k], [k+1], ... *)
Fixpoint after_iterations (j : nat) (s : DecompositionState) (k : nat)
    : DecompositionState :=
  match j with
  | 0 => s
  | S j' => after_iterations j' (iterate_once s k) (S k)
  end.

(** How many of the [j] calls from [k] on succeed. *)
Fixpoint successes (k j : nat) : nat :=
  match j with
  | 0 => 0
  | S j' => (match stage_error k with None => 1 | Some _ => 0 end) + successes (S k) j'
  end.
End Interleaved.

(** Replies that fail now and then once the loop is entered: the task calls
    2 and 4 fail, the others succeed. *)
Definition flaky_replies (k : nat) : result string :=
  match k with
  | 0 => Ok "Here you go: {parse} "
  | 1 => Ok "{split}"
  | 2 => Ok "I cannot help with that"
  | 4 => Raise (Exn ServiceError "quota exceeded")
  | _ => Ok "  {tasks}"
  end.

(** The service is down: every call raises. *)
Definition dead_replies (k : nat) : result string :=
  Raise (Exn ServiceError "connection refused").

(** An entity computation leaves the count of service calls alone. *)
Definition keeps_llm {A} (m : M A) : Prop :=
  forall w, llm_calls (snd (m w)) = llm_calls w.
(** * Properties *)

(** ** Text by code point *)

(** The code points of a text, put together again, are the text. *)
Lemma code_points_concat (s : string) : foldr String.app "" (code_points s) = s.
Proof.
  induction s as [|c s IH]; [reflexivity|].
  cbn [code_points]. destruct s as [|c' s']; [reflexivity|].
  destruct (code_points (String c' s')) as [|p ps] eqn:E.
  - cbn [foldr] in *. now rewrite <- IH.
  - destruct (is_continuation c'); cbn [foldr] in *;
      [change (String c p +:+ foldr String.app "" ps)
         with (String c (p +:+ foldr String.app "" ps))
      | change (String c "" +:+ (p +:+ foldr String.app "" ps))
         with (String c (p +:+ foldr String.app "" ps))];
      now rewrite IH.
Qed.

(** An accented letter takes two bytes and is one item of the iteration. *)
Example str_iterated_by_code_point :
  py_iter (PStr "né") = Ok [PStr "n"; PStr "é"]
  /\ py_len (PStr "né") = Ok 2
  /\ py_index (PStr "né") 1 = Ok (PStr "é")
  /\ String.length "né" = 3.
Proof. repeat split; reflexivity. Qed.

(** ** Counting *)

Lemma py_sum_from (xs : list nat) (a : nat) : foldl Nat.add a xs = a + py_sum xs.
Proof.
  unfold py_sum. revert a.
  induction xs as [|x xs IH]; intros a; simpl.
  - lia.
  - rewrite (IH (a + x)), (IH x). lia.
Qed.

(** [sum(1 for x in xs if p(x))] is the number of the [x] with [p(x)]. *)
Lemma py_sum_ones {A} (xs : list A) : py_sum (map (fun _ => 1) xs) = length xs.
Proof.
  induction xs as [|x xs IH]; [reflexivity|].
  unfold py_sum in *. simpl. rewrite py_sum_from. unfold py_sum. rewrite IH. lia.
Qed.

(** The binary64 product does not depend on the order of its factors. *)
Lemma float_mul_comm (x y : float) : PrimFloat.mul x y = PrimFloat.mul y x.
Proof.
  apply Prim2SF_inj. rewrite !mul_spec. unfold SF64mul, SFmul.
  destruct (Prim2SF x) as [sx|sx| |sx mx ex], (Prim2SF y) as [sy|sy| |sy my ey];
    try reflexivity; try (now rewrite xorb_comm).
  now rewrite xorb_comm, Pos.mul_comm, Z.add_comm.
Qed.

(** [(a / b) * 100], as the code computes it, is [100 * (a / b)]. *)
Lemma ratio_percent_spec (a b : nat) : ratio_percent a b = percent_of a b.
Proof. unfold ratio_percent, percent_of, float_of_nat. apply float_mul_comm. Qed.

Section Completion.
Context {R : Runtime}.

Lemma task_percentage_cases (t : Task.t) :
  Task.get_completion_percentage t =
    match Task.subtasks t with
    | [] => if truthy (Task.done t) then 100%float else 0%float
    | _ => ratio_percent (length (done_subtasks t)) (length (Task.subtasks t))
    end.
Proof.
  unfold Task.get_completion_percentage, done_subtasks.
  destruct (Task.subtasks t); [reflexivity|]. now rewrite py_sum_ones.
Qed.

Lemma subgoal_percentage_cases (sg : Subgoal.t) :
  Subgoal.get_completion_percentage sg =
    match Subgoal.tasks sg with
    | [] => 0%float
    | _ => ratio_percent (length (done_tasks sg)) (length (Subgoal.tasks sg))
    end.
Proof.
  unfold Subgoal.get_completion_percentage, done_tasks.
  destruct (Subgoal.tasks sg); [reflexivity|]. now rewrite py_sum_ones.
Qed.

(** The number of done tasks reads the tasks' own flags only. *)
Lemma done_tasks_length_flags (ts1 ts2 : list Task.t) :
  map (fun tk => truthy (Task.done tk)) ts1 = map (fun tk => truthy (Task.done tk)) ts2 ->
  length (filter (fun tk => truthy (Task.done tk) = true) ts1)
  = length (filter (fun tk => truthy (Task.done tk) = true) ts2).
Proof.
  revert ts2. induction ts1 as [|a ts1 IH]; intros [|b ts2] H; simpl in H; try discriminate.
  - reflexivity.
  - injection H as Hab Hrest.
    rewrite !filter_cons. specialize (IH _ Hrest).
    repeat case_decide; simpl; congruence.
Qed.

(** C5. [Task.get_completion_percentage]: with no subtasks it is 100.0 when
    the task's flag is set and 0.0 when it is not; with at least one
    subtask it is 100 * (done subtasks / subtasks), the binary64 quotient of
    the two counts times 100, whatever the task's own flag says. *)
Theorem task_completion_percentage (t : Task.t) :
  (Task.subtasks t = [] -> truthy (Task.done t) = true ->
     Task.get_completion_percentage t = 100%float)
  /\ (Task.subtasks t = [] -> truthy (Task.done t) = false ->
        Task.get_completion_percentage t = 0%float)
  /\ (Task.subtasks t <> [] ->
        Task.get_completion_percentage t
        = percent_of (length (done_subtasks t)) (length (Task.subtasks t))
        /\ forall d, Task.get_completion_percentage (task_with_done t d)
                     = Task.get_completion_percentage t).
Proof.
  rewrite task_percentage_cases.
  repeat split.
  - intros -> ->. reflexivity.
  - intros -> ->. reflexivity.
  - rewrite <- ratio_percent_spec.
    destruct (Task.subtasks t); [congruence | reflexivity].
  - intros d. rewrite task_percentage_cases. unfold done_subtasks. simpl.
    destruct (Task.subtasks t); [congruence | reflexivity].
Qed.

(** C6. [Subgoal.get_completion_percentage]: 0 with no tasks, otherwise
    100 * (tasks whose own flag is set / tasks), the binary64 quotient of
    the two counts times 100; two task lists with the same own flags give
    the same percentage, whatever their subtasks. *)
Theorem subgoal_completion_percentage (sg : Subgoal.t) :
  (Subgoal.tasks sg = [] -> Subgoal.get_completion_percentage sg = 0%float)
  /\ (Subgoal.tasks sg <> [] ->
        Subgoal.get_completion_percentage sg
        = percent_of (length (done_tasks sg)) (length (Subgoal.tasks sg)))
  /\ (forall sg' : Subgoal.t,
        map (fun tk => truthy (Task.done tk)) (Subgoal.tasks sg')
        = map (fun tk => truthy (Task.done tk)) (Subgoal.tasks sg) ->
        Subgoal.get_completion_percentage sg' = Subgoal.get_completion_percentage sg).
Proof.
  rewrite subgoal_percentage_cases. repeat split.
  - intros ->. reflexivity.
  - rewrite <- ratio_percent_spec.
    destruct (Subgoal.tasks sg); [congruence | reflexivity].
  - intros sg' H. rewrite subgoal_percentage_cases. unfold done_tasks.
    rewrite (done_tasks_length_flags _ _ H).
    apply (f_equal (@length _)) in H as Hlen. rewrite !length_map in Hlen.
    rewrite Hlen.
    destruct (Subgoal.tasks sg'), (Subgoal.tasks sg); simpl in Hlen; try discriminate;
      reflexivity.
Qed.
End Completion.

(** Four of five subtasks done, own flag unset: 80.0 by subtasks, yet the
    task counts for nothing in its subgoal. *)
Example task_80_percent_counts_zero :
  let tk := sample_task false [sample_subtask true; sample_subtask true; sample_subtask true;
                               sample_subtask true; sample_subtask false] in
  Task.get_completion_percentage tk = 80%float
  /\ Subgoal.get_completion_percentage (sample_subgoal "Review" [tk]) = 0%float
  /\ Subgoal.get_completion_percentage (sample_subgoal "Review" [task_with_done tk (PBool true)])
     = 100%float.
Proof. repeat split; reflexivity. Qed.

Lemma task_completion_percentage_witness :
  Task.get_completion_percentage (sample_task true []) = 100%float
  /\ Task.get_completion_percentage (sample_task false []) = 0%float
  /\ Task.get_completion_percentage
       (sample_task false [sample_subtask true; sample_subtask false; sample_subtask false;
                           sample_subtask false])
     = 25%float
  /\ Task.get_completion_percentage
       (task_with_done
          (sample_task false [sample_subtask true; sample_subtask false; sample_subtask false;
                              sample_subtask false])
          (PBool true))
     = 25%float.
Proof.
  pose proof (task_completion_percentage (sample_task true [])) as (H1 & _ & _).
  pose proof (task_completion_percentage (sample_task false [])) as (_ & H2 & _).
  pose proof (task_completion_percentage
                (sample_task false [sample_subtask true; sample_subtask false;
                                    sample_subtask false; sample_subtask false]))
    as (_ & _ & H3).
  destruct H3 as [H3 H4]; [discriminate|].
  split; [apply H1; reflexivity|].
  split; [apply H2; reflexivity|].
  split; [rewrite H3; reflexivity|].
  rewrite (H4 (PBool true)), H3. reflexivity.
Defined.

Lemma subgoal_completion_percentage_witness :
  Subgoal.get_completion_percentage (sample_subgoal "Rest" []) = 0%float
  /\ Subgoal.get_completion_percentage
       (sample_subgoal "Review" [sample_task true []; sample_task false [sample_subtask true]])
     = 50%float
  /\ Subgoal.get_completion_percentage
       (sample_subgoal "Review" [sample_task true [sample_subtask false]; sample_task false []])
     = Subgoal.get_completion_percentage
         (sample_subgoal "Review" [sample_task true []; sample_task false [sample_subtask true]]).
Proof.
  pose proof (subgoal_completion_percentage (sample_subgoal "Rest" [])) as (H1 & _ & _).
  pose proof (subgoal_completion_percentage
                (sample_subgoal "Review"
                   [sample_task true []; sample_task false [sample_subtask true]]))
    as (_ & H2 & H3).
  split; [apply H1; reflexivity|].
  split; [rewrite H2 by discriminate; reflexivity|].
  apply H3. reflexivity.
Defined.

(** ** Status roll-up *)

Lemma forallb_map_compose {A B} (p : B -> bool) (f : A -> B) (l : list A) :
  forallb p (map f l) = forallb (fun x => p (f x)) l.
Proof. induction l as [|x l IH]; simpl; [reflexivity | now rewrite IH]. Qed.

Section Status.
Context {R : Runtime}.

Lemma subgoal_update_status_cases (sg : Subgoal.t) :
  Subgoal.update_status sg =
    Subgoal.set_status sg
      (if nonempty (Subgoal.tasks sg)
          && forallb (fun tk => truthy (Task.done tk)) (Subgoal.tasks sg)
       then PStr "completed" else PStr "active").
Proof.
  unfold Subgoal.update_status.
  destruct (Subgoal.tasks sg) as [|tk tks] eqn:E; [reflexivity|].
  cbn [nonempty andb].
  destruct (forallb _ (tk :: tks)); [reflexivity|].
  destruct (existsb _ (tk :: tks)); reflexivity.
Qed.

Lemma goal_update_status_cases (g : Goal.t) :
  Goal.update_status g =
    Goal.set_status
      (Goal.set_subgoals g (map Subgoal.update_status (Goal.subgoals g)))
      (if nonempty (Goal.subgoals g)
          && forallb (fun sg => py_eq_str (Subgoal.status sg) "completed")
                     (map Subgoal.update_status (Goal.subgoals g))
       then PStr "completed" else PStr "active").
Proof.
  unfold Goal.update_status.
  destruct (Goal.subgoals g) as [|sg sgs] eqn:E.
  - unfold Goal.set_status, Goal.set_subgoals. simpl. now rewrite E.
  - cbn [nonempty andb].
    destruct (forallb _ (map _ (sg :: sgs))); [reflexivity|].
    destruct (existsb _ (map _ (sg :: sgs))); reflexivity.
Qed.

Lemma subgoal_completed_iff (sg : Subgoal.t) :
  py_eq_str (Subgoal.status (Subgoal.update_status sg)) "completed"
  = nonempty (Subgoal.tasks sg)
    && forallb (fun tk => truthy (Task.done tk)) (Subgoal.tasks sg).
Proof.
  rewrite subgoal_update_status_cases. simpl.
  destruct (nonempty _ && forallb _ _); reflexivity.
Qed.

(** C7, as amended. [Goal.update_status] recomputes every child subgoal
    and then sets its own status: "completed" when there is at least one
    subgoal and every recomputed subgoal is "completed", "active"
    otherwise; [Subgoal.update_status] sets "completed" when there is at
    least one task and every task is done, "active" otherwise.  Neither
    ever yields "paused".  A goal with at least one subgoal, whose every
    subgoal has at least one task, and whose every task is done, ends
    "completed". *)
Theorem update_status_rollup (g : Goal.t) :
  Goal.subgoals (Goal.update_status g) = map Subgoal.update_status (Goal.subgoals g)
  /\ Goal.status (Goal.update_status g)
     = (if nonempty (Goal.subgoals g)
           && forallb (fun sg => py_eq_str (Subgoal.status (Subgoal.update_status sg))
                                           "completed")
                      (Goal.subgoals g)
        then PStr "completed" else PStr "active")
  /\ (forall sg : Subgoal.t,
        Subgoal.status (Subgoal.update_status sg)
        = (if nonempty (Subgoal.tasks sg)
              && forallb (fun tk => truthy (Task.done tk)) (Subgoal.tasks sg)
           then PStr "completed" else PStr "active")
        /\ Subgoal.status (Subgoal.update_status sg) <> PStr "paused")
  /\ Goal.status (Goal.update_status g) <> PStr "paused"
  /\ (Goal.subgoals g <> [] ->
      Forall (fun sg => Subgoal.tasks sg <> []) (Goal.subgoals g) ->
      all_leaf_tasks_done g = true ->
      Goal.status (Goal.update_status g) = PStr "completed").
Proof.
  rewrite goal_update_status_cases. cbn [Goal.subgoals Goal.status Goal.set_status
                                         Goal.set_subgoals].
  rewrite forallb_map_compose.
  split; [reflexivity|]. split; [reflexivity|].
  split.
  { intros sg. rewrite subgoal_update_status_cases. simpl.
    destruct (nonempty _ && forallb _ _); split; congruence. }
  split.
  { destruct (nonempty _ && forallb _ _); discriminate. }
  intros Hne Htasks Hdone.
  assert (forallb (fun sg => py_eq_str (Subgoal.status (Subgoal.update_status sg))
                               "completed") (Goal.subgoals g) = true) as ->.
  { unfold all_leaf_tasks_done in Hdone.
    apply forallb_forall. intros sg Hin.
    rewrite subgoal_completed_iff.
    rewrite forallb_forall in Hdone. rewrite (Hdone _ Hin).
    rewrite Forall_forall in Htasks.
    specialize (Htasks sg (proj2 (list_elem_of_In _ _) Hin)).
    destruct (Subgoal.tasks sg); [congruence | reflexivity]. }
  destruct (Goal.subgoals g); [congruence | reflexivity].
Qed.
End Status.

(** C7, as stated, fails: every task of this goal is done (there is one),
    yet the goal stays "active", because its second subgoal has no task. *)
Lemma all_done_goal_stays_active :
  let g := sample_goal "Academics"
             [ sample_subgoal "Review material" [sample_task true []];
               sample_subgoal "Rest/prep" [] ] in
  all_leaf_tasks_done g = true
  /\ Goal.get_total_tasks g = 1
  /\ Goal.status (Goal.update_status g) = PStr "active"
  /\ Goal.status (Goal.update_status g) <> PStr "completed".
Proof. repeat split; try reflexivity. discriminate. Qed.

Lemma update_status_rollup_witness :
  let g := sample_goal "Academics"
             [ sample_subgoal "Review material" [sample_task true []];
               sample_subgoal "Practice problems" [sample_task true [sample_subtask false]] ] in
  Goal.status (Goal.update_status g) = PStr "completed".
Proof.
  intros g.
  pose proof (update_status_rollup g) as (_ & _ & _ & _ & H).
  apply H.
  - discriminate.
  - repeat constructor; discriminate.
  - reflexivity.
Defined.

(** ** Running monadic code *)

Lemma bind_ok {S A B} (m : ST S A) (k : A -> ST S B) s a s' :
  m s = (Ok a, s') -> bind m k s = k a s'.
Proof. unfold bind. now intros ->. Qed.

Lemma bind_raise {S A B} (m : ST S A) (k : A -> ST S B) s e s' :
  m s = (Raise e, s') -> bind m k s = (Raise e, s').
Proof. unfold bind. now intros ->. Qed.

Lemma bind_inv {S A B} (m : ST S A) (k : A -> ST S B) s b s' :
  bind m k s = (Ok b, s') -> exists a s1, m s = (Ok a, s1) /\ k a s1 = (Ok b, s').
Proof.
  unfold bind. destruct (m s) as [[a|e] s1]; [eauto | discriminate].
Qed.

Lemma lift_inv {S A} (r : result A) (s : S) a s' :
  lift r s = (Ok a, s') -> r = Ok a /\ s' = s.
Proof. unfold lift. intros H. injection H as -> ->. auto. Qed.

Lemma ret_inv {S A} (x : A) (s : S) a s' :
  ret x s = (Ok a, s') -> a = x /\ s' = s.
Proof. unfold ret. intros H. injection H as -> ->. auto. Qed.

(** Decompose a successful run into its successful steps. *)
Ltac run_inv H :=
  repeat match type of H with
    | bind _ _ _ = (Ok _, _) =>
        let a := fresh "a" in let s := fresh "s" in let E := fresh "E" in
        apply bind_inv in H as (a & s & E & H)
    end.

Lemma mapM_Forall {S A B} (f : A -> ST S B) (P : B -> Prop) :
  (forall x s y s', f x s = (Ok y, s') -> P y) ->
  forall l s ys s', mapM f l s = (Ok ys, s') -> Forall P ys.
Proof.
  intros Hf. induction l as [|x l IH]; intros s ys s' H; simpl in H.
  - apply ret_inv in H as [-> _]. constructor.
  - apply bind_inv in H as (y & s1 & Hy & H).
    apply bind_inv in H as (ys' & s2 & Hys & H).
    apply ret_inv in H as [-> _].
    constructor; eauto.
Qed.

Lemma mapM_id {S A B} (f : B -> ST S A) (g : A -> B) (P : A -> bool) (l : list A) (s : S) :
  (forall x s, P x = true -> f (g x) s = (Ok x, s)) ->
  forallb P l = true -> mapM f (map g l) s = (Ok l, s).
Proof.
  intros Hf. induction l as [|x l IH]; simpl; intros H; [reflexivity|].
  apply andb_prop in H as [Hx Hl].
  erewrite bind_ok by (apply Hf, Hx).
  erewrite bind_ok by (apply IH, Hl). reflexivity.
Qed.

Section Identifiers.
Context {R : Runtime}.

Lemma id_or_fresh_given (v : pyval) (w : world) :
  truthy v = true -> id_or_fresh v w = (Ok v, w).
Proof. unfold id_or_fresh. now intros ->. Qed.

Lemma id_or_fresh_ok (v : pyval) (w : world) :
  exists i w', id_or_fresh v w = (Ok i, w')
               /\ (i = v \/ i = PStr (uuid4 (uuid_calls w))).
Proof.
  unfold id_or_fresh. destruct (truthy v); eexists _, _; split; try reflexivity; auto.
Qed.

Lemma truthy_not_none (v : pyval) : truthy v = true -> v <> PNone.
Proof. intros H ->. discriminate. Qed.

Lemma py_or_sentinel (due : pyval) :
  py_or due (PStr "None") <> PNone
  /\ truthy (py_or due (PStr "None")) = true
  /\ (truthy due = false -> py_or due (PStr "None") = PStr "None")
  /\ (truthy due = true -> py_or due (PStr "None") = due)
  /\ (due = PNone \/ (exists s, due = PStr s) ->
      due_label (py_or due (PStr "None")) = true).
Proof.
  unfold py_or. destruct (truthy due) eqn:E.
  - repeat split; auto; try discriminate.
    + now apply truthy_not_none.
    + intros [-> | [s ->]]; [discriminate|]. exact E.
  - repeat split; auto; discriminate.
Qed.
End Identifiers.

(** ** Construction of tasks and of the goal tree *)

Lemma foldM_inv {S A B} (f : B -> A -> ST S B) (P : B -> Prop) :
  (forall acc x s acc' s', P acc -> f acc x s = (Ok acc', s') -> P acc') ->
  forall l acc s r s', P acc -> foldM f acc l s = (Ok r, s') -> P r.
Proof.
  intros Hf. induction l as [|x l IH]; intros acc s r s' Hacc H; simpl in H.
  - apply ret_inv in H as [-> _]. exact Hacc.
  - apply bind_inv in H as (acc' & s1 & Hstep & H). eauto.
Qed.

Section Construction.
Context {R : Runtime}.

Lemma task_init_ok tk psg pg due stt dn sts cn em i (w : world) :
  exists t w',
    Task.__init__ tk psg pg due stt dn sts cn em i w = (Ok t, w')
    /\ Task.due t = py_or due (PStr "None")
    /\ Task.done t = dn
    /\ Task.parent_subgoal_id t = psg.
Proof.
  unfold Task.__init__.
  destruct (id_or_fresh_ok i w) as (i' & w' & E & _).
  erewrite bind_ok by exact E. eexists _, _. split; [reflexivity|]. auto.
Qed.

Lemma add_task_ok (sg : Subgoal.t) td due em (w : world) :
  exists t w',
    Subgoal.add_task sg td due em w
    = (Ok (Subgoal.mk (Subgoal.id sg) (Subgoal.parent_goal_id sg) (Subgoal.title sg)
             (Subgoal.level sg) (Subgoal.tasks sg ++ [t]) (Subgoal.status sg), t), w')
    /\ Task.due t = py_or due (PStr "None").
Proof.
  unfold Subgoal.add_task.
  destruct (task_init_ok td (Subgoal.id sg) (Subgoal.parent_goal_id sg) due (PBool false)
              (PBool false) None (PBool false) em PNone w) as (t & w' & E & Hdue & _).
  erewrite bind_ok by exact E. eexists _, _. split; [reflexivity | exact Hdue].
Qed.

Lemma add_subtask_due (t : Task.t) d (w : world) p w' :
  Task.add_subtask t d w = (Ok p, w') -> Task.due (fst p) = Task.due t.
Proof.
  unfold Task.add_subtask. intros H. run_inv H.
  apply ret_inv in H as [-> _]. reflexivity.
Qed.

Lemma task_from_dict_due (data : pyval) (w : world) t w' :
  Task.from_dict data w = (Ok t, w') ->
  exists du, py_get data "due" PNone = Ok du /\ Task.due t = py_or du (PStr "None").
Proof.
  unfold Task.from_dict. intros H. run_inv H.
  apply lift_inv in E5 as [Hdue _].
  exists a5. split; [exact Hdue|].
  unfold Task.__init__ in H. run_inv H. apply ret_inv in H as [-> _]. reflexivity.
Qed.

Lemma build_task_due (sg : Subgoal.t) (task_data : pyval) (w : world) sg' w' :
  Forall (fun t => Task.due t = PStr "None") (Subgoal.tasks sg) ->
  build_task sg task_data w = (Ok sg', w') ->
  Forall (fun t => Task.due t = PStr "None") (Subgoal.tasks sg').
Proof.
  intros Hsg H. unfold build_task in H. run_inv H.
  apply ret_inv in H as [-> _].
  destruct (add_task_ok sg a PNone a0 s0) as (t1 & w2 & Eadd & Hdue).
  rewrite Eadd in E1. injection E1 as <- <-.
  cbn [fst snd] in *.
  unfold with_last_task. cbn [Subgoal.tasks].
  rewrite removelast_last.
  apply Forall_app. split; [exact Hsg|].
  constructor; [|constructor].
  assert (Task.due a4 = Task.due t1) as ->; [|exact Hdue].
  eapply (foldM_inv _ (fun t => Task.due t = Task.due t1)); [| |exact E4]; [|reflexivity].
  intros acc d u acc' u' Hacc Hstep.
  apply bind_inv in Hstep as (p & u'' & Hadd & Hret).
  apply ret_inv in Hret as [-> _].
  rewrite <- Hacc. eapply add_subtask_due, Hadd.
Qed.

(** What [finalize] assembles: the scalar fields come from the pipeline
    state verbatim, and every task carries the due sentinel. *)
Lemma build_goal_fields (state : DecompositionState) (w : world) g w' :
  build_goal state w = (Ok g, w') ->
  Goal.category g = PStr (category state)
  /\ Goal.title g = parsed_goal_title state
  /\ Goal.description g = parsed_goal_description state
  /\ Goal.status g = PStr "active"
  /\ Goal.confidence g = confidence state
  /\ Goal.rationale g = rationale state
  /\ Forall (fun t => Task.due t = PStr "None") (goal_tasks g).
Proof.
  intros H. unfold build_goal in H. run_inv H.
  set (P := fun g : Goal.t =>
              Goal.category g = PStr (category state)
              /\ Goal.title g = parsed_goal_title state
              /\ Goal.description g = parsed_goal_description state
              /\ Goal.status g = PStr "active"
              /\ Goal.confidence g = confidence state
              /\ Goal.rationale g = rationale state
              /\ Forall (fun t => Task.due t = PStr "None") (goal_tasks g)).
  change (P g).
  eapply (foldM_inv (build_subgoal state) P); [| |exact H].
  - clear. intros acc [i subgoal_data] s acc' s' Hacc H.
    unfold build_subgoal in H. run_inv H.
    apply ret_inv in H as [-> _].
    match goal with
    | Hadd : Goal.add_subgoal _ _ _ _ = _ |- _ =>
        unfold Goal.add_subgoal in Hadd; run_inv Hadd; apply ret_inv in Hadd as [-> _]
    end.
    cbn [fst snd] in *.
    destruct Hacc as (Hc & Ht & Hd & Hs & Hco & Hr & Hdue).
    unfold P, with_last_subgoal, goal_tasks, Goal.set_subgoals.
    cbn [Goal.category Goal.title Goal.description Goal.status Goal.confidence
         Goal.rationale Goal.subgoals].
    repeat (split; [assumption|]).
    rewrite removelast_last, map_app, concat_app. cbn [map concat].
    rewrite app_nil_r. apply Forall_app. split; [exact Hdue|].
    match goal with
    | Hfold : foldM build_task _ _ _ = _ |- _ =>
        eapply (foldM_inv build_task
                  (fun sg => Forall (fun t => Task.due t = PStr "None") (Subgoal.tasks sg)));
          [| |exact Hfold]
    end.
    + intros; eapply build_task_due; eauto.
    + match goal with
      | Hinit : Subgoal.__init__ _ _ _ _ _ _ _ = _ |- _ =>
          unfold Subgoal.__init__ in Hinit; run_inv Hinit; apply ret_inv in Hinit as [-> _]
      end.
      constructor.
  - unfold Goal.__init__ in E. run_inv E. apply ret_inv in E as [-> _].
    unfold P, goal_tasks. cbn. repeat split. constructor.
Qed.
End Construction.

(** ** The due label *)

Section Due.
Context {R : Runtime}.

Lemma or_nil_id {A} (l : list A) :
  match Some l with Some (x :: l') => x :: l' | _ => [] end = l.
Proof. destruct l; reflexivity. Qed.

Lemma task_from_dict_due_truthy (data : pyval) (w : world) t w' :
  Task.from_dict data w = (Ok t, w') -> truthy (Task.due t) = true.
Proof.
  intros H. apply task_from_dict_due in H as (du & _ & ->). apply py_or_sentinel.
Qed.

Lemma subgoal_from_dict_tasks (data : pyval) (w : world) sg w' :
  Subgoal.from_dict data w = (Ok sg, w') ->
  Forall (fun t => truthy (Task.due t) = true) (Subgoal.tasks sg).
Proof.
  unfold Subgoal.from_dict. intros H. run_inv H.
  unfold Subgoal.__init__ in H. run_inv H. apply ret_inv in H as [-> _].
  cbn [Subgoal.tasks]. rewrite or_nil_id.
  match goal with
  | Hm : mapM Task.from_dict _ _ = _ |- _ => eapply mapM_Forall; [|exact Hm]
  end.
  intros; eapply task_from_dict_due_truthy; eauto.
Qed.

Lemma goal_from_dict_tasks (data : pyval) (w : world) g w' :
  Goal.from_dict data w = (Ok g, w') ->
  Forall (fun t => truthy (Task.due t) = true) (goal_tasks g).
Proof.
  unfold Goal.from_dict. intros H. run_inv H.
  unfold Goal.__init__ in H. run_inv H. apply ret_inv in H as [-> _].
  unfold goal_tasks. cbn [Goal.subgoals]. rewrite or_nil_id.
  match goal with
  | Hm : mapM Subgoal.from_dict _ _ = _ |- _ =>
      pose proof (mapM_Forall _ _ subgoal_from_dict_tasks _ _ _ _ Hm) as Hall
  end.
  revert Hall. generalize a1 as sgs. clear.
  induction sgs as [|sg sgs IH]; intros Hall; simpl; [constructor|].
  apply Forall_cons in Hall as [Hsg Hall].
  apply Forall_app. split; [exact Hsg | exact (IH Hall)].
Qed.

Lemma flatten_records (g : Goal.t) (rec : pyval) :
  In rec (flatten_goal_to_legacy_tasks g) ->
  exists sg t, In sg (Goal.subgoals g) /\ In t (Subgoal.tasks sg)
               /\ rec = legacy_task g sg t.
Proof.
  unfold flatten_goal_to_legacy_tasks. intros H.
  apply in_concat in H as (recs & Hrecs & Hrec).
  apply in_map_iff in Hrecs as (sg & <- & Hsg).
  apply in_map_iff in Hrec as (t & <- & Ht).
  eauto.
Qed.

Lemma in_goal_tasks (g : Goal.t) sg t :
  In sg (Goal.subgoals g) -> In t (Subgoal.tasks sg) -> In t (goal_tasks g).
Proof.
  intros Hsg Ht. unfold goal_tasks. apply in_concat.
  exists (Subgoal.tasks sg). split; [now apply in_map | exact Ht].
Qed.

(** C10. The due field of a task is never null.  The constructor stores
    the given label when it is non-empty and the sentinel "None" when it is
    missing, null or empty; a string when the argument is null or a string.
    [Subgoal.add_task] without a due date stores the sentinel; so does an
    import from a dict that lacks the key, nulls it or holds the empty string.
    The export and the flattened legacy records carry the stored label:
    non-null for every imported goal, the sentinel for every goal assembled
    by the pipeline. *)
Theorem task_due_never_null :
  (forall tk psg pg due stt dn sts cn em i (w : world),
      exists t w',
        Task.__init__ tk psg pg due stt dn sts cn em i w = (Ok t, w')
        /\ Task.due t <> PNone
        /\ (truthy due = false -> Task.due t = PStr "None")
        /\ (truthy due = true -> Task.due t = due)
        /\ (due = PNone \/ (exists s, due = PStr s) -> due_label (Task.due t) = true))
  /\ (forall (sg : Subgoal.t) td em (w : world),
         exists sg' t w',
           Subgoal.add_task sg td PNone em w = (Ok (sg', t), w')
           /\ Subgoal.tasks sg' = Subgoal.tasks sg ++ [t]
           /\ Task.due t = PStr "None")
  /\ (forall (data : pyval) (w : world) t w',
         Task.from_dict data w = (Ok t, w') ->
         Task.due t <> PNone
         /\ (py_get data "due" PNone = Ok PNone \/ py_get data "due" PNone = Ok (PStr "") ->
             Task.due t = PStr "None"))
  /\ (forall t : Task.t, py_getitem (Task.to_dict t) "due" = Ok (Task.due t))
  /\ (forall (g : Goal.t) (rec : pyval),
         In rec (flatten_goal_to_legacy_tasks g) ->
         exists t, In t (goal_tasks g) /\ py_getitem rec "due" = Ok (Task.due t))
  /\ (forall (data : pyval) (w : world) g w',
         Goal.from_dict data w = (Ok g, w') ->
         forall rec, In rec (flatten_goal_to_legacy_tasks g) ->
                     exists v, py_getitem rec "due" = Ok v /\ v <> PNone)
  /\ (forall (state : DecompositionState) (w : world) g w',
         build_goal state w = (Ok g, w') ->
         forall rec, In rec (flatten_goal_to_legacy_tasks g) ->
                     py_getitem rec "due" = Ok (PStr "None")).
Proof.
  split.
  { intros. destruct (task_init_ok tk psg pg due stt dn sts cn em i w)
      as (t & w' & E & Hdue & _).
    exists t, w'. rewrite Hdue.
    pose proof (py_or_sentinel due) as (H1 & _ & H2 & H3 & H4). auto. }
  split.
  { intros. destruct (add_task_ok sg td PNone em w) as (t & w' & E & Hdue).
    eexists _, t, w'. split; [exact E|]. split; [reflexivity | exact Hdue]. }
  split.
  { intros data w t w' H. apply task_from_dict_due in H as (du & Hget & ->).
    split; [apply py_or_sentinel|].
    intros [H | H]; rewrite H in Hget; injection Hget as <-; reflexivity. }
  split; [reflexivity|].
  assert (Hflat : forall (g : Goal.t) (rec : pyval),
             In rec (flatten_goal_to_legacy_tasks g) ->
             exists t, In t (goal_tasks g) /\ py_getitem rec "due" = Ok (Task.due t)).
  { intros g rec H. apply flatten_records in H as (sg & t & Hsg & Ht & ->).
    exists t. split; [eapply in_goal_tasks; eauto | reflexivity]. }
  split; [exact Hflat|].
  split.
  - intros data w g w' H rec Hrec.
    apply Hflat in Hrec as (t & Ht & ->). eexists. split; [reflexivity|].
    apply goal_from_dict_tasks in H. rewrite Forall_forall in H.
    apply truthy_not_none, H, list_elem_of_In, Ht.
  - intros state w g w' H rec Hrec.
    apply Hflat in Hrec as (t & Ht & ->).
    apply build_goal_fields in H as (_ & _ & _ & _ & _ & _ & H).
    rewrite Forall_forall in H. f_equal. apply H, list_elem_of_In, Ht.
Qed.
End Due.

(** ** What the nodes leave alone *)

Section Frame.
Context {R : Runtime}.
Context {X : Type} (F : DecompositionState -> X).

Lemma preserves_ret {A} (a : A) : preserves F (ret a).
Proof. intros sw. reflexivity. Qed.

Lemma preserves_lift {A} (r : result A) : preserves F (lift r).
Proof. intros sw. reflexivity. Qed.

Lemma preserves_get : preserves F get_state.
Proof. intros sw. reflexivity. Qed.

Lemma preserves_llm_call : preserves F llm_call.
Proof. intros sw. reflexivity. Qed.

Lemma preserves_in_world {A} (m : M A) : preserves F (in_world m).
Proof. intros [s w]. unfold in_world. simpl. now destruct (m w). Qed.

Lemma preserves_modify (f : DecompositionState -> DecompositionState) :
  (forall s, F (f s) = F s) -> preserves F (modify f).
Proof. intros H [s w]. apply H. Qed.

Lemma preserves_bind {A B} (m : Node A) (k : A -> Node B) :
  preserves F m -> (forall a, preserves F (k a)) -> preserves F (bind m k).
Proof.
  intros Hm Hk sw. unfold bind. specialize (Hm sw).
  destruct (m sw) as [[a|e] sw1]; [|exact Hm].
  rewrite (Hk a sw1). exact Hm.
Qed.

Lemma preserves_try {A} (m : Node A) (h : exn -> Node A) :
  preserves F m -> (forall e, preserves F (h e)) -> preserves F (try_except m h).
Proof.
  intros Hm Hh sw. unfold try_except. specialize (Hm sw).
  destruct (m sw) as [[a|e] sw1]; [exact Hm|].
  rewrite (Hh e sw1). exact Hm.
Qed.

Lemma preserves_if {A} (b : bool) (m1 m2 : Node A) :
  preserves F m1 -> preserves F m2 -> preserves F (if b then m1 else m2).
Proof. now destruct b. Qed.
End Frame.

(** Walk through a node, leaving the setters to be checked. *)
Ltac frame :=
  repeat first
    [ apply preserves_bind | apply preserves_try | apply preserves_if
    | apply preserves_ret | apply preserves_lift | apply preserves_get
    | apply preserves_llm_call | apply preserves_in_world
    | apply preserves_modify; intros; reflexivity
    | intro ].

Section PipelineFrame.
Context {R : Runtime}.

Lemma invoke_json_preserves {X} (F : DecompositionState -> X) : preserves F invoke_json.
Proof. unfold invoke_json. frame. Qed.

Lemma parse_preserves_category : preserves category parse_goal_node.
Proof. unfold parse_goal_node, invoke_json. frame. Qed.

Lemma parse_preserves_final_goal : preserves final_goal parse_goal_node.
Proof. unfold parse_goal_node, invoke_json. frame. Qed.

Lemma decompose_preserves_category : preserves category decompose_to_subgoals_node.
Proof. unfold decompose_to_subgoals_node, invoke_json. frame. Qed.

Lemma decompose_preserves_final_goal : preserves final_goal decompose_to_subgoals_node.
Proof. unfold decompose_to_subgoals_node, invoke_json. frame. Qed.

Lemma generate_preserves_category : preserves category generate_tasks_for_subgoal_node.
Proof. unfold generate_tasks_for_subgoal_node, invoke_json. frame. Qed.

Lemma generate_preserves_final_goal : preserves final_goal generate_tasks_for_subgoal_node.
Proof. unfold generate_tasks_for_subgoal_node, invoke_json. frame. Qed.

Lemma should_continue_preserves {X} (F : DecompositionState -> X) :
  preserves F should_continue_task_generation.
Proof. unfold should_continue_task_generation. frame. Qed.

Lemma finalize_preserves_category : preserves category finalize_goal_node.
Proof. unfold finalize_goal_node. frame. Qed.

(** [finalize] never raises; it either stores the goal it assembled from
    the state or, when the assembly raised, an error note. *)
Lemma finalize_outcome (s : DecompositionState) (w : world) :
  exists s' w',
    finalize_goal_node (s, w) = (Ok tt, (s', w'))
    /\ ((exists g, build_goal s w = (Ok g, w') /\ s' = set_final_goal (Some g) s)
        \/ (exists e, build_goal s w = (Raise e, w')
                      /\ s' = set_error ("Finalization error: " +:+ exn_str e) s)).
Proof.
  unfold finalize_goal_node, try_except, bind, get_state, in_world, modify. cbn [fst snd].
  destruct (build_goal s w) as [[g|e] w'] eqn:E; cbn [fst snd].
  - eexists _, _. split; [reflexivity|]. left. eauto.
  - eexists _, _. split; [reflexivity|]. right. eauto.
Qed.
End PipelineFrame.

(** ** The category at the boundary *)

Section Category.
Context {R : Runtime}.

Lemma graph_step_preserves_category (n : node) : preserves category (graph_step n).
Proof.
  destruct n; unfold graph_step, parse_goal_node, decompose_to_subgoals_node,
    generate_tasks_for_subgoal_node, should_continue_task_generation,
    finalize_goal_node, invoke_json; frame.
Qed.

Lemma graph_step_final_goal (n : node) (s : DecompositionState) (w : world) :
  final_goal (fst (snd (graph_step n (s, w)))) = final_goal s
  \/ exists g w', build_goal s w = (Ok g, w')
                  /\ final_goal (fst (snd (graph_step n (s, w)))) = Some g.
Proof.
  destruct n.
  - left. apply (preserves_bind final_goal); [apply parse_preserves_final_goal | frame].
  - left. apply (preserves_bind final_goal); [apply decompose_preserves_final_goal | frame].
  - left. apply (preserves_bind final_goal); [apply generate_preserves_final_goal |].
    intros _. apply preserves_bind; [apply should_continue_preserves | frame].
  - unfold graph_step, bind.
    destruct (finalize_outcome s w) as (s' & w' & -> & [(g & Hg & ->) | (e & He & ->)]).
    + right. eauto.
    + left. reflexivity.
  - left. reflexivity.
Qed.

(** Along a run the category of the state never changes, and a stored
    goal carries it. *)
Lemma graph_invoke_category (c : string) :
  forall fuel n (sw : DecompositionState * world) r s' w',
    category (fst sw) = c ->
    (forall g, final_goal (fst sw) = Some g -> Goal.category g = PStr c) ->
    graph_invoke fuel n sw = (r, (s', w')) ->
    category s' = c /\ (forall g, final_goal s' = Some g -> Goal.category g = PStr c).
Proof.
  induction fuel as [|fuel IH]; intros n [s w] r s' w' Hc Hg H.
  - destruct n; simpl in H; injection H as <- <- <-; auto.
  - cbn [fst snd] in Hc, Hg.
    assert (Hstep : category (fst (snd (graph_step n (s, w)))) = c
                    /\ forall g, final_goal (fst (snd (graph_step n (s, w)))) = Some g ->
                                 Goal.category g = PStr c).
    { split.
      - rewrite (graph_step_preserves_category n (s, w)). exact Hc.
      - intros g Hfg.
        destruct (graph_step_final_goal n s w) as [Hsame | (g' & w1 & Hbuild & Hset)].
        + apply Hg. rewrite <- Hsame. exact Hfg.
        + rewrite Hset in Hfg. injection Hfg as <-.
          apply build_goal_fields in Hbuild as (Hcat & _). rewrite Hcat.
          now rewrite Hc. }
    destruct n; cbn [graph_invoke] in H;
      try (destruct (graph_step _ (s, w)) as [[n'|e] [s1 w1]]; cbn [fst snd] in Hstep;
           [ eapply IH; [| |exact H]; apply Hstep
           | injection H as <- <- <-; exact Hstep ]).
    injection H as <- <- <-. auto.
Qed.

Lemma goal_init_ok ti de sgs stt ca cr i co ra (w : world) :
  exists g w',
    Goal.__init__ ti de sgs stt ca cr i co ra w = (Ok g, w')
    /\ Goal.category g = ca.
Proof.
  unfold Goal.__init__.
  destruct (id_or_fresh_ok i w) as (i' & w1 & E & _).
  erewrite bind_ok by exact E.
  destruct cr as [d|]; eexists _, _; (split; [reflexivity|reflexivity]).
Qed.

(** C9, as amended. The category is stored verbatim, whatever its value:
    [Goal.__init__] keeps the category it is given, and a goal returned by
    [decompose_goal_with_langgraph] carries the category passed at the
    entry.  Nothing compares it with the enumeration. *)
Theorem category_stored_verbatim :
  (forall ti de sgs stt (ca : pyval) cr i co ra (w : world),
      exists g w',
        Goal.__init__ ti de sgs stt ca cr i co ra w = (Ok g, w') /\ Goal.category g = ca)
  /\ (forall fuel (goal_text category : string) (user_feedback : list string)
             (w : world) g w',
         decompose_goal_with_langgraph fuel goal_text category user_feedback w
         = (Ok (Some g), w') ->
         Goal.category g = PStr category).
Proof.
  split; [intros; apply goal_init_ok|].
  intros fuel goal_text c user_feedback w g w' H.
  unfold decompose_goal_with_langgraph in H.
  destruct (graph_invoke fuel parse_goal _) as [[u|e] [s1 w1]] eqn:E; try discriminate.
  injection H as Hfg <-.
  eapply graph_invoke_category in E as [_ Hg]; [apply Hg, Hfg | reflexivity |].
  intros g0 H0. discriminate.
Qed.
End Category.

(** C9, as stated, fails: "Work" is outside the enumeration, yet the
    constructor stores it, and so does a pipeline run entered with it. *)
Lemma unknown_category_is_stored :
  category_allowed (PStr "Work") = false
  /\ (exists g w',
        Goal.__init__ (R := sample_runtime good_replies) (PStr "Tidy the flat") (PStr "") None
          (PStr "active") (PStr "Work") None PNone (PInt 5) (PStr "") w0 = (Ok g, w')
        /\ Goal.category g = PStr "Work")
  /\ (exists g w',
        decompose_goal_with_langgraph (R := sample_runtime good_replies) 10
          "Prepare for Nov 2 exam" "Work" [] w0 = (Ok (Some g), w')
        /\ Goal.category g = PStr "Work"
        /\ category_allowed (Goal.category g) = false).
Proof.
  split; [reflexivity|]. split.
  - eexists _, _. split; [vm_compute; reflexivity | reflexivity].
  - eexists _, _. split; [vm_compute; reflexivity | split; reflexivity].
Qed.

Lemma category_stored_verbatim_witness :
  exists g w',
    decompose_goal_with_langgraph (R := sample_runtime good_replies) 10
      "Prepare for Nov 2 exam" "Hobbies" [] w0 = (Ok (Some g), w')
    /\ Goal.category g = PStr "Hobbies".
Proof.
  eexists _, _. split; [vm_compute; reflexivity|].
  eapply (proj2 (category_stored_verbatim (R := sample_runtime good_replies))
            10 "Prepare for Nov 2 exam" "Hobbies" [] w0).
  vm_compute. reflexivity.
Defined.

Lemma task_due_never_null_witness :
  let R := sample_runtime good_replies in
  (exists t w',
     Task.from_dict (R := R) sample_task_dict w0 = (Ok t, w')
     /\ Task.due t = PStr "None")
  /\ (exists g w' rec,
        build_goal (R := R) sample_final_state w0 = (Ok g, w')
        /\ In rec (flatten_goal_to_legacy_tasks g)
        /\ py_getitem rec "due" = Ok (PStr "None")).
Proof.
  intros R.
  pose proof (task_due_never_null (R := R)) as (_ & _ & H3 & _ & _ & _ & H7).
  split.
  - destruct (Task.from_dict (R := R) sample_task_dict w0) as [[t|e] w'] eqn:E;
      [|vm_compute in E; discriminate].
    exists t, w'. split; [reflexivity|].
    apply (H3 _ _ _ _ E). left. reflexivity.
  - destruct (build_goal (R := R) sample_final_state w0) as [[g|e] w'] eqn:E;
      [|vm_compute in E; discriminate].
    pose proof E as E'. vm_compute in E'. injection E' as <- <-.
    eexists _, _, _. split; [reflexivity|].
    split; [left; reflexivity|].
    eapply (H7 _ _ _ _ E). left. reflexivity.
Defined.

(** ** Export and import *)

Section Roundtrip.
Context {R : Runtime}.

Lemma subtask_roundtrip (st : Subtask.t) (w : world) :
  subtask_wf st = true -> Subtask.from_dict (Subtask.to_dict st) w = (Ok st, w).
Proof.
  destruct st as [i p d dn]. unfold subtask_wf. cbn [Subtask.id]. intros Hid.
  unfold Subtask.from_dict, Subtask.to_dict, Subtask.__init__. cbn.
  unfold bind at 1. rewrite (id_or_fresh_given _ _ Hid). reflexivity.
Qed.

(** Run the next bound computation, which succeeds by evaluation. *)
Ltac run_step := erewrite bind_ok by reflexivity.

Lemma task_roundtrip (t : Task.t) (w : world) :
  task_wf t = true -> Task.from_dict (Task.to_dict t) w = (Ok t, w).
Proof.
  destruct t as [i psg pg tk du stt dn sts cn em]. unfold task_wf.
  cbn [Task.id Task.due Task.subtasks]. intros H.
  apply andb_prop in H as [H Hsts]. apply andb_prop in H as [Hid Hdue].
  unfold Task.from_dict, Task.to_dict.
  cbn [Task.id Task.parent_subgoal_id Task.parent_goal_id Task.task Task.due Task.started
       Task.done Task.subtasks Task.counted Task.estimated_minutes].
  do 2 run_step.
  erewrite bind_ok
    by (apply (mapM_id Subtask.from_dict Subtask.to_dict subtask_wf);
        [intros; now apply subtask_roundtrip | exact Hsts]).
  do 9 run_step.
  unfold Task.__init__. erewrite bind_ok by (apply id_or_fresh_given, Hid).
  unfold ret. cbn [assoc String.eqb Ascii.eqb Bool.eqb andb].
  unfold py_or. rewrite Hdue, or_nil_id. reflexivity.
Qed.

Lemma subgoal_roundtrip (sg : Subgoal.t) (w : world) :
  subgoal_wf sg = true -> Subgoal.from_dict (Subgoal.to_dict sg) w = (Ok sg, w).
Proof.
  destruct sg as [i pg ti lv tks stt]. unfold subgoal_wf.
  cbn [Subgoal.id Subgoal.tasks]. intros H.
  apply andb_prop in H as [Hid Htks].
  unfold Subgoal.from_dict, Subgoal.to_dict.
  cbn [Subgoal.id Subgoal.parent_goal_id Subgoal.title Subgoal.level Subgoal.tasks
       Subgoal.status].
  do 2 run_step.
  erewrite bind_ok
    by (apply (mapM_id Task.from_dict Task.to_dict task_wf);
        [intros; now apply task_roundtrip | exact Htks]).
  do 5 run_step.
  unfold Subgoal.__init__. erewrite bind_ok by (apply id_or_fresh_given, Hid).
  unfold ret. cbn [assoc String.eqb Ascii.eqb Bool.eqb andb].
  rewrite or_nil_id. reflexivity.
Qed.

Lemma goal_roundtrip (Hiso : iso_roundtrip R) (g : Goal.t) (w : world) :
  goal_wf g = true -> Goal.from_dict (Goal.to_dict g) w = (Ok g, w).
Proof.
  destruct g as [i ti de sgs stt ca cr co ra]. unfold goal_wf.
  cbn [Goal.id Goal.subgoals]. intros H.
  apply andb_prop in H as [Hid Hsgs].
  unfold Goal.from_dict, Goal.to_dict.
  cbn [Goal.id Goal.title Goal.description Goal.subgoals Goal.status Goal.category
       Goal.created_at Goal.confidence Goal.rationale].
  do 2 run_step.
  erewrite bind_ok
    by (apply (mapM_id Subgoal.from_dict Subgoal.to_dict subgoal_wf);
        [intros; now apply subgoal_roundtrip | exact Hsgs]).
  erewrite bind_ok.
  2:{ cbn [Goal.has_key assoc String.eqb Ascii.eqb Bool.eqb].
      run_step. erewrite bind_ok by (unfold lift; rewrite (Hiso cr); reflexivity).
      reflexivity. }
  do 7 run_step.
  unfold Goal.__init__. erewrite bind_ok by (apply id_or_fresh_given, Hid).
  run_step. unfold ret. cbn [assoc String.eqb Ascii.eqb Bool.eqb andb].
  rewrite or_nil_id. reflexivity.
Qed.
End Roundtrip.

Section RoundtripClaim.
Context {R : Runtime}.

(** C4. Export followed by import is the identity on well-formed entities
    (a non-empty identifier everywhere, a non-empty due label on tasks, as
    the constructors leave them), at each of the four levels and with all
    owned children; the import generates no identifier and reads no clock.
    The timestamp goes through the ISO-8601 codec of the runtime, which is
    taken to read back what it wrote. *)
Theorem export_import_identity (Hiso : iso_roundtrip R) :
  (forall (st : Subtask.t) (w : world),
      subtask_wf st = true -> Subtask.from_dict (Subtask.to_dict st) w = (Ok st, w))
  /\ (forall (t : Task.t) (w : world),
         task_wf t = true -> Task.from_dict (Task.to_dict t) w = (Ok t, w))
  /\ (forall (sg : Subgoal.t) (w : world),
         subgoal_wf sg = true -> Subgoal.from_dict (Subgoal.to_dict sg) w = (Ok sg, w))
  /\ (forall (g : Goal.t) (w : world),
         goal_wf g = true -> Goal.from_dict (Goal.to_dict g) w = (Ok g, w)).
Proof.
  split; [exact subtask_roundtrip|].
  split; [exact task_roundtrip|].
  split; [exact subgoal_roundtrip|].
  exact (goal_roundtrip Hiso).
Qed.

(** The constructors leave well-formed entities, the identifiers of the
    runtime being non-empty. *)
Lemma id_or_fresh_truthy (Hid : uuid_nonempty R) (v : pyval) (w : world) i w' :
  id_or_fresh v w = (Ok i, w') -> truthy i = true.
Proof.
  unfold id_or_fresh. destruct (truthy v) eqn:E; intros H.
  - apply ret_inv in H as [-> _]. exact E.
  - unfold fresh_uuid in H. injection H as <- _. simpl.
    destruct (String.eqb_spec (uuid4 (uuid_calls w)) ""); [|reflexivity].
    now destruct (Hid (uuid_calls w)).
Qed.

Lemma subtask_init_wf (Hid : uuid_nonempty R) d p dn i (w : world) st w' :
  Subtask.__init__ d p dn i w = (Ok st, w') -> subtask_wf st = true.
Proof.
  unfold Subtask.__init__. intros H. run_inv H. apply ret_inv in H as [-> _].
  unfold subtask_wf. simpl. eapply id_or_fresh_truthy; eauto.
Qed.

Lemma task_init_wf (Hid : uuid_nonempty R) tk psg pg due stt dn sts cn em i (w : world) t w' :
  (forall l, sts = Some l -> forallb subtask_wf l = true) ->
  Task.__init__ tk psg pg due stt dn sts cn em i w = (Ok t, w') -> task_wf t = true.
Proof.
  unfold Task.__init__. intros Hsts H. run_inv H. apply ret_inv in H as [-> _].
  unfold task_wf. simpl.
  rewrite (id_or_fresh_truthy Hid _ _ _ _ E).
  destruct (py_or_sentinel due) as (_ & -> & _). simpl.
  destruct sts as [[|x l]|]; try reflexivity. now apply Hsts.
Qed.
End RoundtripClaim.

Lemma export_import_identity_witness :
  goal_wf sample_tree = true
  /\ Goal.from_dict (Goal.to_dict sample_tree) w0 = (Ok sample_tree, w0).
Proof.
  split; [reflexivity|].
  apply (proj2 (proj2 (proj2 (export_import_identity (R := sample_runtime good_replies)
                                (fun d => eq_refl))))).
  reflexivity.
Defined.

(** What well-formedness rules out: an entity whose identifier was blanked
    after construction comes back with a fresh one. *)
Example blank_identifier_is_replaced :
  let st := Subtask.mk (PStr "") (PStr "t") (PStr "read a page") (PBool false) in
  fst (Subtask.from_dict (R := sample_runtime good_replies) (Subtask.to_dict st) w0)
  = Ok (Subtask.mk (PStr "uuid-0") (PStr "t") (PStr "read a page") (PBool false)).
Proof. reflexivity. Qed.

(** ** Tree rendering *)

Section Rendering.
Context {R : Runtime}.

(** The header of a subgoal does not look at its position. *)
Lemma subgoal_header_ignores_position (i j : nat) (sg : Subgoal.t) :
  subgoal_lines i sg = subgoal_lines j sg.
Proof. reflexivity. Qed.

(** Tasks do tell the last from the others. *)
Lemma task_connector (n j : nat) (tk : Task.t) :
  exists rest,
    hd "" (task_lines n j tk)
    = (if Nat.eqb j n then "  │  └─" else "  │  ├─") +:+ rest.
Proof.
  unfold task_lines. cbn [hd]. destruct (Nat.eqb j n); eexists; reflexivity.
Qed.

(** So do subtasks. *)
Lemma subtask_connector (is_last_task : bool) (n k : nat) (st : Subtask.t) :
  exists rest,
    subtask_line is_last_task n k st
    = (if is_last_task
       then (if Nat.eqb k n then "     └─" else "     ├─")
       else (if Nat.eqb k n then "  │  │  └─" else "  │  │  ├─")) +:+ rest.
Proof.
  unfold subtask_line. destruct is_last_task, (Nat.eqb k n); eexists; reflexivity.
Qed.
End Rendering.

(** C8, on the code: the last subgoal is drawn with the connector of a
    middle child.  Tasks and subtasks get the closing connector on their
    last item; the loop over subgoals numbers them and never reads the
    number. *)
Theorem last_subgoal_drawn_as_middle_child :
  visualize_lines
    (sample_goal "Academics" [sample_subgoal "Review material" [];
                              sample_subgoal "Rest/prep" []])
  = [ "🎯 Prepare for Nov 2 exam [0% complete]";
      "  ├─ 🔹 Review material (0 tasks)";
      "  ├─ 🔹 Rest/prep (0 tasks)" ].
Proof. reflexivity. Qed.

(** ** Runs of the stages *)

Section Stages.
Context {R : Runtime}.

Lemma invoke_json_run (s : DecompositionState) (w : world) :
  invoke_json (s, w) = (reply_json (llm_calls w), (s, after_calls 1 w)).
Proof.
  unfold invoke_json, reply_json, bind, llm_call, lift, after_calls. cbn [fst snd].
  rewrite Nat.add_1_r.
  destruct (llm_invoke (llm_calls w)) as [content|e]; [|reflexivity].
  destruct (str_index (strip content) "{") as [i|e]; [|reflexivity].
  destruct (str_rindex (strip content) "}") as [j|e]; reflexivity.
Qed.

Lemma stage_error_cases (k : nat) :
  (exists d, reply_json k = Ok (PDict d) /\ stage_error k = None)
  \/ (exists e, stage_error k = Some e
                /\ (reply_json k = Raise e
                    \/ exists v, reply_json k = Ok v /\ is_dict v = false /\ e = no_get v)).
Proof.
  unfold stage_error. destruct (reply_json k) as [v|e].
  - destruct v; try (right; eexists; split; [reflexivity|]; right; eexists; eauto; fail).
    left. eauto.
  - right. eauto.
Qed.

(** The parse stage, run to its end. *)
Lemma parse_run (s : DecompositionState) (w : world) :
  parse_goal_node (s, w)
  = (Ok tt,
     (match stage_error (llm_calls w) with
      | Some e => parse_fallback s e
      | None =>
          let d := reply_dict (llm_calls w) in
          set_rationale (dict_get d "rationale" (PStr ""))
            (set_confidence (dict_get d "confidence" (PInt 0))
               (set_parsed_goal_description (dict_get d "description" (PStr ""))
                  (set_parsed_goal_title (dict_get d "title" (PStr (goal_text s))) s)))
      end, after_calls 1 w)).
Proof.
  unfold parse_goal_node, try_except, bind at 1. rewrite invoke_json_run.
  unfold stage_error, reply_dict.
  destruct (reply_json (llm_calls w)) as [v|e]; [|reflexivity].
  destruct v; reflexivity.
Qed.

(** The subgoal-split stage, run to its end. *)
Lemma decompose_run (s : DecompositionState) (w : world) :
  decompose_to_subgoals_node (s, w)
  = (Ok tt,
     (match stage_error (llm_calls w) with
      | Some e => split_fallback s e
      | None => split_success s (reply_dict (llm_calls w))
      end, after_calls 1 w)).
Proof.
  unfold decompose_to_subgoals_node, try_except, bind at 1. rewrite invoke_json_run.
  unfold stage_error, reply_dict.
  destruct (reply_json (llm_calls w)) as [v|e]; [|reflexivity].
  destruct v; reflexivity.
Qed.

(** The task-generation stage past the last stub: nothing is called and
    nothing changes. *)
Lemma generate_run_done (s : DecompositionState) (w : world) (stubs : list pyval) :
  subgoals_list s = PList stubs ->
  length stubs <= current_subgoal_index s ->
  generate_tasks_for_subgoal_node (s, w) = (Ok tt, (s, w)).
Proof.
  intros Hs Hlen. unfold generate_tasks_for_subgoal_node, bind, get_state, lift.
  cbn [fst snd]. rewrite Hs. cbn [py_len].
  destruct (Nat.leb_spec (length stubs) (current_subgoal_index s)); [reflexivity | lia].
Qed.

(** The task-generation stage at a stub that is an object. *)
Lemma generate_run (s : DecompositionState) (w : world) (stubs : list pyval) sd :
  subgoals_list s = PList stubs ->
  stubs !! current_subgoal_index s = Some (PDict sd) ->
  generate_tasks_for_subgoal_node (s, w)
  = (Ok tt,
     (match stage_error (llm_calls w) with
      | Some e => task_failure s e
      | None => task_success s (reply_dict (llm_calls w))
      end, after_calls 1 w)).
Proof.
  intros Hs Hstub.
  pose proof (lookup_lt_Some _ _ _ Hstub) as Hlt.
  unfold generate_tasks_for_subgoal_node.
  unfold bind at 1, get_state. cbn [fst snd].
  unfold bind at 1, lift. rewrite Hs. cbn [py_len].
  destruct (Nat.leb_spec (length stubs) (current_subgoal_index s)); [lia|].
  unfold bind at 1. cbn [py_index]. rewrite Hstub.
  unfold bind at 1. cbn [py_get].
  unfold bind at 1. cbn [py_get].
  unfold try_except, bind at 1. rewrite invoke_json_run.
  unfold stage_error, reply_dict.
  destruct (reply_json (llm_calls w)) as [v|e]; [|reflexivity].
  destruct v; reflexivity.
Qed.

(** The conditional edge: "continue" exactly while the cursor is below the
    number of stubs. *)
Lemma should_continue_run (s : DecompositionState) (w : world) (stubs : list pyval) :
  subgoals_list s = PList stubs ->
  should_continue_task_generation (s, w)
  = (Ok (if Nat.ltb (current_subgoal_index s) (length stubs)
         then "continue" else "finalize"), (s, w)).
Proof.
  intros Hs. unfold should_continue_task_generation, bind, get_state, lift.
  cbn [fst snd]. rewrite Hs. cbn [py_len].
  destruct (Nat.ltb _ _); reflexivity.
Qed.
End Stages.

(** ** The task-generation loop *)

Section Loop.
Context {R : Runtime}.

Lemma subgoal_key_inj (i j : nat) : subgoal_key i = subgoal_key j -> i = j.
Proof.
  unfold subgoal_key. intros H.
  apply (inj (String.app "subgoal_")) in H. now apply (inj pretty) in H.
Qed.

Lemma after_calls_0 (w : world) : after_calls 0 w = w.
Proof. destruct w. unfold after_calls. simpl. now rewrite Nat.add_0_r. Qed.

Lemma after_calls_add (i j : nat) (w : world) :
  after_calls j (after_calls i w) = after_calls (i + j) w.
Proof. unfold after_calls. simpl. f_equal. lia. Qed.

Lemma step_generate_done (s : DecompositionState) (w : world) (stubs : list pyval) :
  subgoals_list s = PList stubs ->
  length stubs <= current_subgoal_index s ->
  graph_step generate_tasks (s, w) = (Ok finalize, (s, w)).
Proof.
  intros Hs Hlen. unfold graph_step.
  erewrite bind_ok by (eapply generate_run_done; eauto).
  erewrite bind_ok by (eapply should_continue_run; eauto).
  destruct (Nat.ltb_spec (current_subgoal_index s) (length stubs)); [lia | reflexivity].
Qed.

Lemma step_generate_ok (s : DecompositionState) (w : world) (stubs : list pyval) sd :
  subgoals_list s = PList stubs ->
  stubs !! current_subgoal_index s = Some (PDict sd) ->
  stage_error (llm_calls w) = None ->
  graph_step generate_tasks (s, w)
  = (Ok (if Nat.ltb (current_subgoal_index s + 1) (length stubs)
         then generate_tasks else finalize),
     (task_success s (reply_dict (llm_calls w)), after_calls 1 w)).
Proof.
  intros Hs Hstub Hok. unfold graph_step.
  erewrite bind_ok by (erewrite generate_run by eauto; rewrite Hok; reflexivity).
  erewrite bind_ok by (eapply should_continue_run; exact Hs).
  cbn [task_success current_subgoal_index set_current_subgoal_index].
  destruct (Nat.ltb _ _); reflexivity.
Qed.

Lemma step_generate_fail (s : DecompositionState) (w : world) (stubs : list pyval) sd e :
  subgoals_list s = PList stubs ->
  stubs !! current_subgoal_index s = Some (PDict sd) ->
  stage_error (llm_calls w) = Some e ->
  graph_step generate_tasks (s, w)
  = (Ok generate_tasks, (task_failure s e, after_calls 1 w)).
Proof.
  intros Hs Hstub Herr. unfold graph_step.
  erewrite bind_ok by (erewrite generate_run by eauto; rewrite Herr; reflexivity).
  erewrite bind_ok by (eapply should_continue_run; exact Hs).
  cbn [task_failure current_subgoal_index set_error].
  pose proof (lookup_lt_Some _ _ _ Hstub) as Hlt.
  destruct (Nat.ltb_spec (current_subgoal_index s) (length stubs)); [reflexivity | lia].
Qed.

Lemma stub_is_dict (stubs : list pyval) (i : nat) :
  forallb is_dict stubs = true -> i < length stubs ->
  exists sd, stubs !! i = Some (PDict sd).
Proof.
  intros Hall Hi. destruct (lookup_lt_is_Some_2 stubs i Hi) as [v Hv].
  rewrite forallb_forall in Hall.
  specialize (Hall v (proj1 (list_elem_of_In _ _) (list_elem_of_lookup_2 _ _ _ Hv))).
  destruct v; try discriminate. eauto.
Qed.

Lemma after_tasks_cursor (j : nat) (s : DecompositionState) (k : nat) :
  current_subgoal_index (after_tasks j s k) = current_subgoal_index s + j.
Proof.
  revert s k. induction j as [|j IH]; intros s k; simpl; [lia|].
  rewrite IH. simpl. lia.
Qed.

Lemma after_tasks_stubs (j : nat) (s : DecompositionState) (k : nat) :
  subgoals_list (after_tasks j s k) = subgoals_list s.
Proof.
  revert s k. induction j as [|j IH]; intros s k; simpl; [reflexivity|].
  now rewrite IH.
Qed.

(** The last of [S j] iterations works on the state the first [j] left. *)
Lemma after_tasks_last (j : nat) (s : DecompositionState) (k : nat) :
  after_tasks (S j) s k = task_success (after_tasks j s k) (reply_dict (k + j)).
Proof.
  revert s k. induction j as [|j IH]; intros s k.
  - simpl. now rewrite Nat.add_0_r.
  - change (after_tasks (S (S j)) s k)
      with (after_tasks (S j) (task_success s (reply_dict k)) (S k)).
    rewrite IH. simpl. do 2 f_equal. lia.
Qed.

Lemma after_tasks_other_keys (j : nat) (s : DecompositionState) (k : nat) (key : string) :
  (forall i, i < j -> key <> subgoal_key (current_subgoal_index s + i)) ->
  generated_tasks (after_tasks j s k) !! key = generated_tasks s !! key.
Proof.
  revert s k. induction j as [|j IH]; intros s k Hkey; simpl; [reflexivity|].
  rewrite IH.
  - simpl. apply lookup_insert_ne. intros E.
    apply (Hkey 0); [lia|]. now rewrite Nat.add_0_r.
  - intros i Hi. simpl. replace (current_subgoal_index s + 1 + i)
      with (current_subgoal_index s + S i) by lia. apply Hkey. lia.
Qed.

Lemma after_tasks_stored (j : nat) (s : DecompositionState) (k i : nat) :
  i < j ->
  generated_tasks (after_tasks j s k) !! subgoal_key (current_subgoal_index s + i)
  = Some (dict_get (reply_dict (k + i)) "tasks" (PList [])).
Proof.
  revert s k i. induction j as [|j IH]; intros s k i Hi; [lia|].
  destruct i as [|i].
  - simpl. rewrite after_tasks_other_keys.
    + simpl. rewrite !Nat.add_0_r. apply lookup_insert_eq.
    + intros i Hi' E. apply subgoal_key_inj in E. simpl in E. lia.
  - simpl.
    replace (current_subgoal_index s + S i)
      with (current_subgoal_index (task_success s (reply_dict k)) + i) by (simpl; lia).
    replace (k + S i) with (S k + i) by lia.
    apply IH. lia.
Qed.

(** [S j] successful iterations in a row. *)
Lemma loop_successes (stubs : list pyval) :
  forallb is_dict stubs = true ->
  forall j (s : DecompositionState) (w : world),
    subgoals_list s = PList stubs ->
    current_subgoal_index s + S j <= length stubs ->
    (forall i, i < S j -> stage_error (llm_calls w + i) = None) ->
    graph_steps (S j) generate_tasks (s, w)
    = (Ok (if Nat.ltb (current_subgoal_index s + S j) (length stubs)
           then generate_tasks else finalize),
       (after_tasks (S j) s (llm_calls w), after_calls (S j) w)).
Proof.
  intros Hall. induction j as [|j IH]; intros s w Hs Hlen Hok.
  - destruct (stub_is_dict stubs (current_subgoal_index s) Hall) as [sd Hsd]; [lia|].
    cbn [graph_steps].
    erewrite bind_ok.
    2:{ eapply step_generate_ok; eauto. rewrite <- (Nat.add_0_r (llm_calls w)).
        apply Hok. lia. }
    unfold ret. reflexivity.
  - destruct (stub_is_dict stubs (current_subgoal_index s) Hall) as [sd Hsd]; [lia|].
    change (graph_steps (S (S j)) generate_tasks)
      with (bind (graph_step generate_tasks) (graph_steps (S j))).
    erewrite bind_ok.
    2:{ eapply step_generate_ok; eauto. rewrite <- (Nat.add_0_r (llm_calls w)).
        apply Hok. lia. }
    destruct (Nat.ltb_spec (current_subgoal_index s + 1) (length stubs)); [|lia].
    rewrite IH.
    + cbn [task_success current_subgoal_index set_current_subgoal_index].
      replace (current_subgoal_index s + 1 + S j)
        with (current_subgoal_index s + S (S j)) by lia.
      rewrite after_calls_add. cbn [after_calls llm_calls].
      rewrite (Nat.add_1_r (llm_calls w)). reflexivity.
    + exact Hs.
    + cbn [task_success current_subgoal_index set_current_subgoal_index]. lia.
    + intros i Hi. cbn [after_calls llm_calls].
      replace (llm_calls w + 1 + i) with (llm_calls w + S i) by lia. apply Hok. lia.
Qed.

Lemma after_failures_frame (j : nat) (s : DecompositionState) (k : nat) :
  current_subgoal_index (after_failures j s k) = current_subgoal_index s
  /\ generated_tasks (after_failures j s k) = generated_tasks s
  /\ subgoals_list (after_failures j s k) = subgoals_list s.
Proof.
  revert s k. induction j as [|j IH]; intros s k; simpl; [auto|].
  destruct (IH (match stage_error k with Some e => task_failure s e | None => s end) (S k))
    as (-> & -> & ->).
  destruct (stage_error k); auto.
Qed.

(** [j] failed iterations in a row: the loop is still at the same stub. *)
Lemma loop_failures (stubs : list pyval) sd :
  forall j (s : DecompositionState) (w : world),
    subgoals_list s = PList stubs ->
    stubs !! current_subgoal_index s = Some (PDict sd) ->
    (forall i, i < j -> stage_error (llm_calls w + i) <> None) ->
    graph_steps j generate_tasks (s, w)
    = (Ok generate_tasks, (after_failures j s (llm_calls w), after_calls j w)).
Proof.
  induction j as [|j IH]; intros s w Hs Hstub Hfail.
  - simpl. now rewrite after_calls_0.
  - destruct (stage_error (llm_calls w)) as [e|] eqn:E.
    2:{ exfalso. apply (Hfail 0); [lia|]. now rewrite Nat.add_0_r. }
    change (graph_steps (S j) generate_tasks)
      with (bind (graph_step generate_tasks) (graph_steps j)).
    erewrite bind_ok by (eapply step_generate_fail; eauto).
    rewrite IH.
    + simpl. rewrite E. rewrite after_calls_add, (Nat.add_1_r (llm_calls w)).
      reflexivity.
    + exact Hs.
    + exact Hstub.
    + intros i Hi. cbn [after_calls llm_calls].
      replace (llm_calls w + 1 + i) with (llm_calls w + S i) by lia. apply Hfail. lia.
Qed.

(** With every call failing, the retries use up whatever step budget the
    library allows: the run ends in its recursion error, at the same stub. *)
Lemma loop_uses_up_budget (stubs : list pyval) sd :
  forall budget (s : DecompositionState) (w : world),
    subgoals_list s = PList stubs ->
    stubs !! current_subgoal_index s = Some (PDict sd) ->
    (forall i, i < budget -> stage_error (llm_calls w + i) <> None) ->
    graph_invoke budget generate_tasks (s, w)
    = (Raise recursion_error,
       (after_failures budget s (llm_calls w), after_calls budget w)).
Proof.
  induction budget as [|budget IH]; intros s w Hs Hstub Hfail.
  - cbn [graph_invoke after_failures]. now rewrite after_calls_0.
  - destruct (stage_error (llm_calls w)) as [e|] eqn:E.
    2:{ exfalso. apply (Hfail 0); [lia|]. now rewrite Nat.add_0_r. }
    cbn [graph_invoke]. erewrite step_generate_fail by eauto.
    rewrite IH.
    + cbn [after_failures after_calls llm_calls].
      rewrite E, (Nat.add_1_r (llm_calls w)).
      unfold after_calls. cbn [uuid_calls now_calls llm_calls].
      do 3 f_equal. lia.
    + exact Hs.
    + exact Hstub.
    + intros i Hi. cbn [after_calls llm_calls].
      replace (llm_calls w + 1 + i) with (llm_calls w + S i) by lia. apply Hfail. lia.
Qed.
End Loop.

(** ** The claims on the pipeline *)

Section PipelineClaims.
Context {R : Runtime}.

Lemma step_parse (s : DecompositionState) (w : world) :
  exists s1,
    graph_step parse_goal (s, w) = (Ok decompose_to_subgoals, (s1, after_calls 1 w))
    /\ parse_goal_node (s, w) = (Ok tt, (s1, after_calls 1 w))
    /\ current_subgoal_index s1 = current_subgoal_index s.
Proof.
  unfold graph_step. rewrite (bind_ok _ _ _ _ _ (parse_run s w)).
  eexists. split; [reflexivity|]. split; [apply parse_run|].
  destruct (stage_error (llm_calls w)); reflexivity.
Qed.

Lemma step_decompose (s : DecompositionState) (w : world) :
  exists s1,
    graph_step decompose_to_subgoals (s, w) = (Ok generate_tasks, (s1, after_calls 1 w))
    /\ (current_subgoal_index s1 = current_subgoal_index s \/ current_subgoal_index s1 = 0)
    /\ (stage_error (llm_calls w) <> None -> subgoals_list s1 = PList []).
Proof.
  unfold graph_step. rewrite (bind_ok _ _ _ _ _ (decompose_run s w)).
  eexists. split; [reflexivity|].
  destruct (stage_error (llm_calls w)); simpl; split; auto. congruence.
Qed.

(** The first two stages never raise: every run reaches the loop, with the
    cursor at 0 and two calls made. *)
Lemma split_stage_reached (goal_text category : string) (user_feedback : list string)
    (w : world) :
  exists s2,
    graph_steps 2 parse_goal (initial_state goal_text category user_feedback, w)
    = (Ok generate_tasks, (s2, after_calls 2 w))
    /\ current_subgoal_index s2 = 0
    /\ (stage_error (llm_calls w + 1) <> None -> subgoals_list s2 = PList []).
Proof.
  destruct (step_parse (initial_state goal_text category user_feedback) w)
    as (s1 & E1 & _ & Hc1).
  destruct (step_decompose s1 (after_calls 1 w)) as (s2 & E2 & Hc2 & Hfail).
  exists s2. cbn [graph_steps].
  rewrite (bind_ok _ _ _ _ _ E1), (bind_ok _ _ _ _ _ E2), after_calls_add.
  split; [reflexivity|]. split; [|exact Hfail].
  destruct Hc2 as [-> | ->]; [rewrite Hc1|]; reflexivity.
Qed.

(** C1. In a run whose subgoal-split stage leaves a list of [n] stubs and
    whose task-generation calls all succeed, the loop makes exactly [n]
    iterations: before the j-th the graph is at the task-generation node with
    the cursor at j; each iteration stores the task list of its reply under
    the key of the cursor and advances the cursor by one; after the n-th the
    graph is at finalize, with the cursor at [n], [n] calls made and the
    [n] task lists stored.  The edge leaves the loop exactly when the cursor
    has reached [n]; with no stub the node is visited once, calls nothing,
    changes nothing and hands over to finalize. *)
Theorem task_loop_runs_once_per_stub
    (goal_text category : string) (user_feedback : list string) (w : world)
    (s2 : DecompositionState) (w2 : world) (stubs : list pyval) :
  graph_steps 2 parse_goal (initial_state goal_text category user_feedback, w)
  = (Ok generate_tasks, (s2, w2)) ->
  subgoals_list s2 = PList stubs ->
  forallb is_dict stubs = true ->
  (forall i, i < length stubs -> stage_error (llm_calls w2 + i) = None) ->
  let n := length stubs in
  let k := llm_calls w2 in
  current_subgoal_index s2 = 0
  /\ (forall j, j < n ->
        graph_steps j generate_tasks (s2, w2)
        = (Ok generate_tasks, (after_tasks j s2 k, after_calls j w2))
        /\ current_subgoal_index (after_tasks j s2 k) = j
        /\ after_tasks (S j) s2 k = task_success (after_tasks j s2 k) (reply_dict (k + j)))
  /\ graph_steps (Nat.max 1 n) generate_tasks (s2, w2)
     = (Ok finalize, (after_tasks n s2 k, after_calls n w2))
  /\ current_subgoal_index (after_tasks n s2 k) = n
  /\ (forall i, i < n ->
        generated_tasks (after_tasks n s2 k) !! subgoal_key i
        = Some (dict_get (reply_dict (k + i)) "tasks" (PList [])))
  /\ (forall (s : DecompositionState) (w' : world),
        subgoals_list s = PList stubs ->
        (fst (should_continue_task_generation (s, w')) = Ok "finalize"
         <-> n <= current_subgoal_index s))
  /\ (n = 0 -> graph_step generate_tasks (s2, w2) = (Ok finalize, (s2, w2))).
Proof.
  intros Hrun Hs Hall Hok n k.
  assert (Hc : current_subgoal_index s2 = 0).
  { destruct (split_stage_reached goal_text category user_feedback w) as (s2' & E & Hc & _).
    rewrite E in Hrun. now injection Hrun as <- _. }
  split; [exact Hc|].
  split.
  { intros j Hj. split; [|split].
    - destruct j as [|j]; [simpl; now rewrite after_calls_0|].
      rewrite (loop_successes stubs Hall j s2 w2 Hs); [| rewrite Hc; lia
                                                      | intros i Hi; apply Hok; lia].
      rewrite Hc. cbn [Nat.add].
      destruct (Nat.ltb_spec (S j) (length stubs)); [reflexivity | unfold n in Hj; lia].
    - rewrite after_tasks_cursor, Hc. reflexivity.
    - apply after_tasks_last. }
  split.
  { destruct n as [|n'] eqn:En.
    - cbn [Nat.max graph_steps after_tasks].
      erewrite bind_ok by (eapply step_generate_done; eauto; unfold n in En; lia).
      rewrite after_calls_0. reflexivity.
    - replace (Nat.max 1 (S n')) with (S n') by lia.
      rewrite (loop_successes stubs Hall n' s2 w2 Hs); [| rewrite Hc; unfold n in En; lia
                                                       | intros i Hi; apply Hok;
                                                         unfold n in En; lia].
      rewrite Hc. cbn [Nat.add].
      destruct (Nat.ltb_spec (S n') (length stubs)); [unfold n in En; lia | reflexivity]. }
  split; [rewrite after_tasks_cursor, Hc; reflexivity|].
  split.
  { intros i Hi. rewrite <- (after_tasks_stored n s2 k i Hi), Hc. reflexivity. }
  split.
  { intros s w' Hs'. rewrite (should_continue_run s w' stubs Hs'). cbn [fst].
    fold n. destruct (Nat.ltb_spec (current_subgoal_index s) n) as [Hlt | Hge];
      split; intros Hx; try discriminate; try lia; reflexivity. }
  intros Hn. eapply step_generate_done; eauto. unfold n in Hn. lia.
Qed.

(** C2. A failed task-generation iteration leaves the cursor, the stored
    task lists and the stub list as they were and records an error note; the
    edge sends the run back to the same node, which meets the same stub
    again.  The source sets no bound on this: while the calls keep failing,
    after any number of iterations the run is still at that stub, with one
    call made per iteration.  A run whose calls all fail therefore never
    completes: whatever step budget the graph library allows is used up by
    the retries, and the run ends in the library's recursion error. *)
Theorem failed_task_generation_retries
    (s : DecompositionState) (w : world) (stubs : list pyval) sd (e : exn) :
  subgoals_list s = PList stubs ->
  stubs !! current_subgoal_index s = Some (PDict sd) ->
  stage_error (llm_calls w) = Some e ->
  exists s',
    generate_tasks_for_subgoal_node (s, w) = (Ok tt, (s', after_calls 1 w))
    /\ current_subgoal_index s' = current_subgoal_index s
    /\ generated_tasks s' = generated_tasks s
    /\ subgoals_list s' = subgoals_list s
    /\ error s' = "Task generation error: " +:+ exn_str e
    /\ graph_step generate_tasks (s, w) = (Ok generate_tasks, (s', after_calls 1 w))
    /\ stubs !! current_subgoal_index s' = Some (PDict sd)
    /\ (forall m,
          (forall i, i < m -> stage_error (llm_calls w + i) <> None) ->
          exists sm,
            graph_steps m generate_tasks (s, w)
            = (Ok generate_tasks, (sm, after_calls m w))
            /\ current_subgoal_index sm = current_subgoal_index s
            /\ generated_tasks sm = generated_tasks s
            /\ subgoals_list sm = subgoals_list s)
    /\ ((forall i, stage_error (llm_calls w + i) <> None) ->
        forall budget,
          fst (graph_invoke budget generate_tasks (s, w)) = Raise recursion_error).
Proof.
  intros Hs Hstub Herr. exists (task_failure s e).
  split; [erewrite generate_run by eauto; now rewrite Herr|].
  do 4 (split; [reflexivity|]).
  split; [eapply step_generate_fail; eauto|].
  split; [exact Hstub|].
  split.
  - intros m Hfail. exists (after_failures m s (llm_calls w)).
    split; [eapply loop_failures; eauto|]. apply after_failures_frame.
  - intros Hfail budget.
    erewrite loop_uses_up_budget by (eauto; intros i _; apply Hfail). reflexivity.
Qed.

(** C3. When the parse stage fails - the call raises, the reply holds no
    opening or no closing brace, or the cut does not parse - the stage
    returns normally with the title set to the input text verbatim, the
    description empty and an error note recorded; confidence, rationale and
    every other field are as before, and the graph moves on to the
    subgoal-split stage.  The stage raises on no input at all. *)
Theorem parse_failure_falls_back (s : DecompositionState) (w : world) (e : exn) :
  stage_error (llm_calls w) = Some e ->
  exists s',
    parse_goal_node (s, w) = (Ok tt, (s', after_calls 1 w))
    /\ parsed_goal_title s' = PStr (goal_text s)
    /\ parsed_goal_description s' = PStr ""
    /\ error s' = "Parse error: " +:+ exn_str e
    /\ confidence s' = confidence s
    /\ rationale s' = rationale s
    /\ s' = parse_fallback s e
    /\ graph_step parse_goal (s, w) = (Ok decompose_to_subgoals, (s', after_calls 1 w)).
Proof.
  intros Herr. exists (parse_fallback s e).
  assert (Hrun : parse_goal_node (s, w) = (Ok tt, (parse_fallback s e, after_calls 1 w))).
  { rewrite parse_run, Herr. reflexivity. }
  split; [exact Hrun|]. do 6 (split; [reflexivity|]).
  unfold graph_step. now rewrite (bind_ok _ _ _ _ _ Hrun).
Qed.

(** The parse stage never raises. *)
Lemma parse_never_raises (s : DecompositionState) (w : world) :
  fst (parse_goal_node (s, w)) = Ok tt.
Proof. now rewrite parse_run. Qed.

(** The three ways to fail that the specification names are failures. *)
Lemma service_error_is_failure (k : nat) (e : exn) :
  llm_invoke k = Raise e -> stage_error k = Some e.
Proof. unfold stage_error, reply_json. now intros ->. Qed.

Lemma no_opening_brace_is_failure (k : nat) (content : string) :
  llm_invoke k = Ok content -> find_first "{"%char (strip content) = None ->
  stage_error k = Some substring_not_found.
Proof. unfold stage_error, reply_json, str_index. now intros -> ->. Qed.

Lemma no_closing_brace_is_failure (k : nat) (content : string) :
  llm_invoke k = Ok content -> find_last "}"%char (strip content) = None ->
  stage_error k = Some substring_not_found.
Proof.
  unfold stage_error, reply_json, str_index, str_rindex. intros -> ->.
  now destruct (find_first _ _).
Qed.

Lemma malformed_json_is_failure (k : nat) (content : string) (i j : nat) (e : exn) :
  llm_invoke k = Ok content ->
  find_first "{"%char (strip content) = Some i ->
  find_last "}"%char (strip content) = Some j ->
  json_loads (slice (strip content) i (j + 1)) = Raise e ->
  stage_error k = Some e.
Proof.
  unfold stage_error, reply_json, str_index, str_rindex. now intros -> -> -> ->.
Qed.
End PipelineClaims.

Lemma task_loop_runs_once_per_stub_witness :
  let R := sample_runtime good_replies in
  let s2 := fst (sample_after_split (R := R)) in
  let w2 := snd (sample_after_split (R := R)) in
  graph_steps 3 generate_tasks (s2, w2)
  = (Ok finalize, (after_tasks 3 s2 (llm_calls w2), after_calls 3 w2))
  /\ current_subgoal_index (after_tasks 3 s2 (llm_calls w2)) = 3
  /\ llm_calls (after_calls 3 w2) = 5.
Proof.
  intros R s2 w2.
  assert (Hrun : graph_steps 2 parse_goal
                   (initial_state "Prepare for Nov 2 exam" "Academics" [], w0)
                 = (Ok generate_tasks, (s2, w2))) by (vm_compute; reflexivity).
  assert (Hs : subgoals_list s2 = PList sample_stubs) by (vm_compute; reflexivity).
  assert (Hok : forall i, i < length sample_stubs -> stage_error (llm_calls w2 + i) = None).
  { intros i Hi. do 3 (destruct i as [|i]; [vm_compute; reflexivity|]).
    simpl in Hi. lia. }
  pose proof (task_loop_runs_once_per_stub (R := R) _ _ _ _ s2 w2 sample_stubs
                Hrun Hs eq_refl Hok) as (_ & _ & H3 & H4 & _).
  split; [exact H3|]. split; [exact H4 | reflexivity].
Defined.

Lemma failed_task_generation_retries_witness :
  let R := sample_runtime failing_task_replies in
  let s2 := fst (sample_after_split (R := R)) in
  let w2 := snd (sample_after_split (R := R)) in
  (exists s5,
      graph_steps 5 generate_tasks (s2, w2) = (Ok generate_tasks, (s5, after_calls 5 w2))
      /\ current_subgoal_index s5 = current_subgoal_index s2
      /\ generated_tasks s5 = generated_tasks s2
      /\ subgoals_list s5 = subgoals_list s2)
  /\ fst (graph_invoke 25 generate_tasks (s2, w2))
     = Raise (Exn GraphRecursionError
                "Recursion limit reached without hitting a stop condition").
Proof.
  intros R s2 w2.
  assert (Hs : subgoals_list s2 = PList sample_stubs) by (vm_compute; reflexivity).
  assert (Hstub : sample_stubs !! current_subgoal_index s2
                  = Some (PDict [("title", PStr "Review material");
                                 ("description", PStr "a")]))
    by (vm_compute; reflexivity).
  assert (Herr : stage_error (llm_calls w2) = Some substring_not_found)
    by (vm_compute; reflexivity).
  assert (Hfail : forall i, stage_error (llm_calls w2 + i) <> None).
  { intros i. change (llm_calls w2 + i) with (S (S i)). vm_compute. discriminate. }
  destruct (failed_task_generation_retries (R := R) s2 w2 sample_stubs _ _ Hs Hstub Herr)
    as (s' & _ & _ & _ & _ & _ & _ & _ & Hloop & Hnever).
  split; [apply Hloop; intros i _; apply Hfail|].
  apply Hnever, Hfail.
Defined.

Lemma parse_failure_falls_back_witness :
  let R := sample_runtime prose_replies in
  exists s',
    parse_goal_node (R := R) sample_entry = (Ok tt, (s', after_calls 1 w0))
    /\ parsed_goal_title s' = PStr "Prepare for Nov 2 exam"
    /\ error s' = "Parse error: substring not found"
    /\ confidence s' = PInt 5.
Proof.
  intros R.
  assert (Herr : stage_error (R := R) (llm_calls w0) = Some substring_not_found)
    by (vm_compute; reflexivity).
  destruct (parse_failure_falls_back (R := R) (fst sample_entry) w0 _ Herr)
    as (s' & H1 & H2 & _ & H4 & H5 & _).
  exists s'. split; [exact H1|]. split; [exact H2|]. split; [exact H4 | exact H5].
Defined.

(** Outside the hypotheses of C1: when the split reply lists strings
    where objects are expected, the task-generation node raises before its
    [try] block is entered, and the run ends with that exception. *)
Example string_stubs_raise :
  let R := sample_runtime good_replies in
  let s := set_subgoals_list (PList [PStr "Review material"]) (fst (sample_entry (R := R))) in
  fst (generate_tasks_for_subgoal_node (s, w0)) = Raise (no_get (PStr "Review material"))
  /\ exn_str (no_get (PStr "Review material")) = "'str' object has no attribute 'get'".
Proof. split; reflexivity. Qed.

(** * Further properties of the entity model *)

Lemma py_sum_cons (x : nat) (xs : list nat) : py_sum (x :: xs) = x + py_sum xs.
Proof. unfold py_sum at 1. simpl. apply py_sum_from. Qed.

Lemma py_sum_lengths {A} (ls : list (list A)) :
  py_sum (map (@length A) ls) = length (concat ls).
Proof.
  induction ls as [|l ls IH]; [reflexivity|].
  simpl. rewrite py_sum_cons, IH, length_app. reflexivity.
Qed.

Lemma filter_concat_length {A} (P : A -> Prop) `{forall x, Decision (P x)}
    (ls : list (list A)) :
  py_sum (map (fun l => length (filter P l)) ls) = length (filter P (concat ls)).
Proof.
  induction ls as [|l ls IH]; [reflexivity|].
  simpl. rewrite py_sum_cons, IH, filter_app, length_app. reflexivity.
Qed.

Section GoalCounts.
Context {R : Runtime}.

Lemma get_total_tasks_length (g : Goal.t) :
  Goal.get_total_tasks g = length (goal_tasks g).
Proof.
  unfold Goal.get_total_tasks, goal_tasks.
  rewrite <- py_sum_lengths, map_map. reflexivity.
Qed.

Lemma get_completed_tasks_length (g : Goal.t) :
  Goal.get_completed_tasks g
  = length (filter (fun tk => truthy (Task.done tk) = true) (goal_tasks g)).
Proof.
  unfold Goal.get_completed_tasks, goal_tasks.
  rewrite <- filter_concat_length, map_map.
  f_equal. apply map_ext. intros sg. apply py_sum_ones.
Qed.

(** X1. The counts of a goal run over all tasks of all subgoals as one
    list: [get_total_tasks] is their number, [get_completed_tasks] the
    number of those whose own flag is set, never more than the total; the
    percentage is 0.0 without tasks and otherwise 100 * (completed / total),
    the binary64 quotient of these two counts times 100, so subgoals weigh
    by their number of tasks. *)
Theorem goal_counts_are_flat (g : Goal.t) :
  Goal.get_total_tasks g = length (goal_tasks g)
  /\ Goal.get_completed_tasks g
     = length (filter (fun tk => truthy (Task.done tk) = true) (goal_tasks g))
  /\ Goal.get_completed_tasks g <= Goal.get_total_tasks g
  /\ Goal.get_completion_percentage g
     = (match goal_tasks g with
        | [] => 0%float
        | _ => percent_of
                 (length (filter (fun tk => truthy (Task.done tk) = true) (goal_tasks g)))
                 (length (goal_tasks g))
        end).
Proof.
  split; [apply get_total_tasks_length|].
  split; [apply get_completed_tasks_length|].
  split.
  - rewrite get_total_tasks_length, get_completed_tasks_length. apply length_filter.
  - rewrite <- get_total_tasks_length, <- get_completed_tasks_length,
      <- ratio_percent_spec.
    assert (Hcase : Goal.get_completion_percentage g
                    = if Nat.eqb (Goal.get_total_tasks g) 0 then 0%float
                      else ratio_percent (Goal.get_completed_tasks g)
                             (Goal.get_total_tasks g)).
    { unfold Goal.get_completion_percentage.
      destruct (Goal.subgoals g) eqn:E; [|reflexivity].
      unfold Goal.get_total_tasks. rewrite E. reflexivity. }
    rewrite Hcase, get_total_tasks_length.
    destruct (goal_tasks g); reflexivity.
Qed.
End GoalCounts.

(** One finished task in the first subgoal, three open ones in the second:
    25.0 for the goal, while the subgoals stand at 100.0 and 0.0. *)
Example goal_percentage_weighs_by_tasks :
  let R := sample_runtime good_replies in
  let sg1 := sample_subgoal "Review" [sample_task true []] in
  let sg2 := sample_subgoal "Practice"
               [sample_task false []; sample_task false []; sample_task false []] in
  Goal.get_completion_percentage (sample_goal "Academics" [sg1; sg2]) = 25%float
  /\ Subgoal.get_completion_percentage sg1 = 100%float
  /\ Subgoal.get_completion_percentage sg2 = 0%float.
Proof. repeat split; reflexivity. Qed.

Section FlattenProps.
Context {R : Runtime}.

Lemma flatten_map {B} (g : Goal.t) (f : pyval -> B) (f' : Task.t -> B) :
  (forall sg t, f (legacy_task g sg t) = f' t) ->
  map f (flatten_goal_to_legacy_tasks g) = map f' (goal_tasks g).
Proof.
  intros Hf. unfold flatten_goal_to_legacy_tasks, goal_tasks.
  induction (Goal.subgoals g) as [|sg sgs IH]; [reflexivity|].
  simpl. rewrite !map_app, IH, map_map. f_equal.
  apply map_ext. intros t. apply Hf.
Qed.

(** X2. Flattening emits one record per task, in the order of the tree;
    the record carries the task's identifier, due label and flags and the
    identifier of the goal, and of the subtasks only the descriptions: their
    done flags are dropped. *)
Theorem flatten_one_record_per_task (g : Goal.t) :
  length (flatten_goal_to_legacy_tasks g) = Goal.get_total_tasks g
  /\ map (fun r => py_getitem r "_task_id") (flatten_goal_to_legacy_tasks g)
     = map (fun t => Ok (Task.id t)) (goal_tasks g)
  /\ map (fun r => py_getitem r "_subgoal_id") (flatten_goal_to_legacy_tasks g)
     = concat (map (fun sg => map (fun _ => Ok (Subgoal.id sg)) (Subgoal.tasks sg))
                   (Goal.subgoals g))
  /\ map (fun r => py_getitem r "_goal_id") (flatten_goal_to_legacy_tasks g)
     = map (fun _ => Ok (Goal.id g)) (goal_tasks g)
  /\ map (fun r => (py_getitem r "due", py_getitem r "started", py_getitem r "done",
                    py_getitem r "counted"))
         (flatten_goal_to_legacy_tasks g)
     = map (fun t => (Ok (Task.due t), Ok (Task.started t), Ok (Task.done t),
                      Ok (Task.counted t)))
           (goal_tasks g)
  /\ map (fun r => py_getitem r "subtasks") (flatten_goal_to_legacy_tasks g)
     = map (fun t => Ok (PList (map Subtask.description (Task.subtasks t)))) (goal_tasks g).
Proof.
  split.
  { rewrite get_total_tasks_length.
    rewrite <- (length_map (fun r => py_getitem r "_task_id")).
    rewrite (flatten_map g _ (fun t => Ok (Task.id t))) by reflexivity.
    apply length_map. }
  split; [apply flatten_map; reflexivity|].
  split.
  { unfold flatten_goal_to_legacy_tasks.
    induction (Goal.subgoals g) as [|sg sgs IH]; [reflexivity|].
    simpl. rewrite map_app, IH, map_map. reflexivity. }
  split; [apply flatten_map; reflexivity|].
  split; apply flatten_map; reflexivity.
Qed.
End FlattenProps.

Section StatusProps.
Context {R : Runtime}.

Lemma subgoal_update_status_tasks (sg : Subgoal.t) :
  Subgoal.tasks (Subgoal.update_status sg) = Subgoal.tasks sg.
Proof. rewrite subgoal_update_status_cases. reflexivity. Qed.

Lemma subgoal_update_status_idempotent (sg : Subgoal.t) :
  Subgoal.update_status (Subgoal.update_status sg) = Subgoal.update_status sg.
Proof.
  rewrite (subgoal_update_status_cases (Subgoal.update_status sg)).
  rewrite subgoal_update_status_tasks.
  rewrite (subgoal_update_status_cases sg). reflexivity.
Qed.

(** X3. Recomputing the status is idempotent: a second [update_status]
    changes nothing, on a subgoal and on a goal.  The recomputation touches
    the status fields only - identifiers, titles and the tasks with all
    their flags stay - and the [started] flags play no part in it: the
    status of a subgoal is decided by the own done flags of its tasks. *)
Theorem update_status_idempotent (g : Goal.t) :
  Goal.update_status (Goal.update_status g) = Goal.update_status g
  /\ (forall sg : Subgoal.t,
        Subgoal.update_status (Subgoal.update_status sg) = Subgoal.update_status sg
        /\ Subgoal.update_status sg
           = Subgoal.set_status sg (Subgoal.status (Subgoal.update_status sg)))
  /\ goal_tasks (Goal.update_status g) = goal_tasks g
  /\ Goal.update_status g
     = Goal.set_status
         (Goal.set_subgoals g (map Subgoal.update_status (Goal.subgoals g)))
         (Goal.status (Goal.update_status g))
  /\ (forall sg sg' : Subgoal.t,
        map (fun tk => truthy (Task.done tk)) (Subgoal.tasks sg')
        = map (fun tk => truthy (Task.done tk)) (Subgoal.tasks sg) ->
        Subgoal.status (Subgoal.update_status sg')
        = Subgoal.status (Subgoal.update_status sg)).
Proof.
  split.
  { rewrite (goal_update_status_cases (Goal.update_status g)).
    rewrite (goal_update_status_cases g).
    cbn [Goal.subgoals Goal.set_status Goal.set_subgoals Goal.id Goal.title
         Goal.description Goal.status Goal.category Goal.created_at Goal.confidence
         Goal.rationale].
    rewrite map_map.
    rewrite (map_ext _ _ subgoal_update_status_idempotent).
    destruct (Goal.subgoals g); reflexivity. }
  split.
  { intros sg. split; [apply subgoal_update_status_idempotent|].
    rewrite subgoal_update_status_cases. reflexivity. }
  split.
  { rewrite goal_update_status_cases. unfold goal_tasks.
    cbn [Goal.subgoals Goal.set_status Goal.set_subgoals].
    rewrite map_map. f_equal. apply map_ext. apply subgoal_update_status_tasks. }
  split.
  { rewrite goal_update_status_cases. reflexivity. }
  intros sg sg' Hflags. rewrite !subgoal_update_status_cases.
  cbn [Subgoal.status Subgoal.set_status].
  assert (Hne : nonempty (Subgoal.tasks sg') = nonempty (Subgoal.tasks sg)).
  { destruct (Subgoal.tasks sg'), (Subgoal.tasks sg); simpl in Hflags;
      try discriminate; reflexivity. }
  assert (Hall : forallb (fun tk => truthy (Task.done tk)) (Subgoal.tasks sg')
                 = forallb (fun tk => truthy (Task.done tk)) (Subgoal.tasks sg)).
  { rewrite <- !(forallb_map_compose (fun b : bool => b) (fun tk => truthy (Task.done tk))).
    now rewrite Hflags. }
  now rewrite Hne, Hall.
Qed.

Lemma forallb_filter_all {A} (p : A -> bool) (l : list A) :
  forallb p l = true -> filter (fun x => p x = true) l = l.
Proof.
  induction l as [|x l IH]; simpl; intros H; [reflexivity|].
  apply andb_prop in H as [Hx Hl].
  rewrite filter_cons. rewrite decide_True by exact Hx. now rewrite IH.
Qed.

(** X4. A goal that comes out of [update_status] as "completed" has at
    least one task, and all its tasks are done: the completed count equals
    the total. *)
Theorem completed_goal_has_all_tasks_done (g : Goal.t) :
  Goal.status (Goal.update_status g) = PStr "completed" ->
  0 < Goal.get_total_tasks g
  /\ Goal.get_completed_tasks g = Goal.get_total_tasks g
  /\ Forall (fun sg => Subgoal.tasks sg <> []) (Goal.subgoals g).
Proof.
  intros H. rewrite goal_update_status_cases in H.
  cbn [Goal.status Goal.set_status Goal.subgoals Goal.set_subgoals] in H.
  rewrite forallb_map_compose in H.
  destruct (nonempty (Goal.subgoals g)) eqn:Hne; [|discriminate].
  destruct (forallb _ (Goal.subgoals g)) eqn:Hall; [|discriminate]. clear H.
  rewrite forallb_forall in Hall.
  assert (Hsg : forall sg, In sg (Goal.subgoals g) ->
                  Subgoal.tasks sg <> []
                  /\ forallb (fun tk => truthy (Task.done tk)) (Subgoal.tasks sg) = true).
  { intros sg Hin. specialize (Hall sg Hin). rewrite subgoal_completed_iff in Hall.
    apply andb_prop in Hall as [H1 H2]. split; [|exact H2].
    destruct (Subgoal.tasks sg); [discriminate | congruence]. }
  split; [|split].
  - rewrite get_total_tasks_length. unfold goal_tasks.
    destruct (Goal.subgoals g) as [|sg sgs]; [discriminate|].
    destruct (Hsg sg (or_introl eq_refl)) as [Hne' _].
    simpl. destruct (Subgoal.tasks sg); [congruence | simpl; lia].
  - rewrite get_total_tasks_length, get_completed_tasks_length. f_equal.
    apply forallb_filter_all. unfold goal_tasks.
    apply forallb_forall. intros tk Hin.
    apply in_concat in Hin as (l & Hl & Hin).
    apply in_map_iff in Hl as (sg & <- & Hsgin).
    destruct (Hsg sg Hsgin) as [_ Hdone].
    rewrite forallb_forall in Hdone. now apply Hdone.
  - apply Forall_forall. intros sg Hin. apply Hsg. now apply list_elem_of_In.
Qed.
End StatusProps.

Lemma completed_goal_has_all_tasks_done_witness :
  let g := sample_goal "Academics"
             [ sample_subgoal "Review material" [sample_task true []];
               sample_subgoal "Practice problems" [sample_task true [sample_subtask false]] ] in
  0 < Goal.get_total_tasks g /\ Goal.get_completed_tasks g = Goal.get_total_tasks g.
Proof.
  intros g.
  pose proof (completed_goal_has_all_tasks_done g eq_refl) as (H1 & H2 & _).
  split; [exact H1 | exact H2].
Defined.

(** * Further properties of the renderer *)

Lemma length_concat_imap {A B} (f : nat -> A -> list B) (h : A -> nat) (l : list A) :
  (forall i x, length (f i x) = h x) ->
  length (concat (imap f l)) = sum_list_with h l.
Proof.
  revert f. induction l as [|x l IH]; intros f Hf; [reflexivity|].
  simpl. rewrite length_app, Hf. f_equal. apply IH. intros i y. apply Hf.
Qed.

Lemma sum_list_with_S {A} (h : A -> nat) (l : list A) :
  sum_list_with (fun x => S (h x)) l = length l + sum_list_with h l.
Proof. induction l as [|x l IH]; simpl; [reflexivity | rewrite IH; lia]. Qed.

Lemma sum_list_with_length_concat {A B} (h : A -> list B) (l : list A) :
  sum_list_with (fun x => length (h x)) l = length (concat (map h l)).
Proof.
  induction l as [|x l IH]; simpl; [reflexivity|]. rewrite length_app, IH. reflexivity.
Qed.

Section RenderingCount.
Context {R : Runtime}.

Lemma task_lines_length (n j : nat) (tk : Task.t) :
  length (task_lines n j tk) = S (length (Task.subtasks tk)).
Proof. unfold task_lines. simpl. now rewrite length_imap. Qed.

Lemma subgoal_lines_length (i : nat) (sg : Subgoal.t) :
  length (subgoal_lines i sg)
  = S (length (Subgoal.tasks sg)
       + length (concat (map Task.subtasks (Subgoal.tasks sg)))).
Proof.
  unfold subgoal_lines. simpl. f_equal.
  rewrite (length_concat_imap _ (fun tk => S (length (Task.subtasks tk))))
    by (intros; apply task_lines_length).
  rewrite sum_list_with_S, sum_list_with_length_concat. reflexivity.
Qed.

Lemma visualize_lines_length (g : Goal.t) :
  length (visualize_lines g)
  = 1 + length (Goal.subgoals g) + length (goal_tasks g)
    + length (concat (map Task.subtasks (goal_tasks g))).
Proof.
  unfold visualize_lines. simpl. f_equal.
  rewrite (length_concat_imap _
             (fun sg => S (length (Subgoal.tasks sg)
                           + length (concat (map Task.subtasks (Subgoal.tasks sg))))))
    by (intros; apply subgoal_lines_length).
  rewrite sum_list_with_S. unfold goal_tasks.
  induction (Goal.subgoals g) as [|sg sgs IH]; [reflexivity|].
  simpl. rewrite map_app, concat_app, !length_app.
  simpl in IH. lia.
Qed.

(** *** Line breaks of the returned text *)

Lemma breaks_app (a b : string) : breaks (a +:+ b) = breaks a + breaks b.
Proof. induction a as [|c a IH]; [reflexivity|]. simpl. rewrite IH. lia. Qed.

(** Joining with the newline adds one break between two entries. *)
Lemma breaks_join (l : string) (ls : list string) :
  S (breaks (join newline (l :: ls)))
  = sum_list_with breaks (l :: ls) + length (l :: ls).
Proof.
  revert l. induction ls as [|l' ls IH]; intros l.
  - simpl. lia.
  - change (join newline (l :: l' :: ls))
      with (l +:+ newline +:+ join newline (l' :: ls)).
    rewrite !breaks_app. specialize (IH l').
    change (breaks newline) with 1.
    cbn [sum_list_with length] in *. lia.
Qed.

Lemma breaks_pretty_N_go (x : N) : forall s, breaks (pretty_N_go x s) = breaks s.
Proof.
  induction (N.lt_wf_0 x) as [x _ IH]; intros s.
  destruct (decide (x = 0)%N) as [->|Hx]; [now rewrite pretty_N_go_0|].
  rewrite pretty_N_go_step by lia. rewrite IH by (apply N.div_lt; lia).
  cbn [breaks]. unfold pretty_N_char.
  destruct (x mod 10)%N as [|p]; [reflexivity|].
  do 4 (destruct p as [p|p|]; try reflexivity).
Qed.

(** A printed count holds no line break. *)
Lemma breaks_pretty_nat (n : nat) : breaks (pretty n) = 0.
Proof.
  unfold pretty, pretty_nat, pretty, pretty_N.
  case_decide; [reflexivity|]. now rewrite breaks_pretty_N_go.
Qed.

Lemma sum_breaks_imap {A} (f : nat -> A -> string) (h : A -> nat) (l : list A) :
  (forall i x, breaks (f i x) = h x) ->
  sum_list_with breaks (imap f l) = sum_list_with h l.
Proof.
  revert f. induction l as [|x l IH]; intros f Hf; [reflexivity|].
  simpl. rewrite Hf. f_equal. apply IH. intros i y. apply Hf.
Qed.

Lemma sum_breaks_concat_imap {A} (f : nat -> A -> list string) (h : A -> nat)
    (l : list A) :
  (forall i x, sum_list_with breaks (f i x) = h x) ->
  sum_list_with breaks (concat (imap f l)) = sum_list_with h l.
Proof.
  revert f. induction l as [|x l IH]; intros f Hf; [reflexivity|].
  simpl. rewrite sum_list_with_app, Hf. f_equal. apply IH. intros i y. apply Hf.
Qed.

Lemma mark_breaks (v : pyval) : breaks (mark v) = 0.
Proof. unfold mark. destruct (truthy v); reflexivity. Qed.

Lemma subtask_line_breaks (b : bool) (n k : nat) (st : Subtask.t) :
  breaks (subtask_line b n k st) = subtask_breaks st.
Proof.
  unfold subtask_line, subtask_breaks. rewrite !breaks_app, mark_breaks.
  destruct b, (Nat.eqb k n); reflexivity.
Qed.

Lemma task_lines_breaks (n j : nat) (tk : Task.t) :
  sum_list_with breaks (task_lines n j tk) = task_breaks tk.
Proof.
  unfold task_lines, task_breaks. cbn [sum_list_with].
  rewrite (sum_breaks_imap _ subtask_breaks) by (intros; apply subtask_line_breaks).
  rewrite !breaks_app, mark_breaks.
  change (breaks " ") with 0. change (breaks " (") with 0. change (breaks "min)") with 0.
  destruct (Nat.eqb j n).
  - change (breaks "  │  └─") with 0. lia.
  - change (breaks "  │  ├─") with 0. lia.
Qed.

Lemma subgoal_lines_breaks (i : nat) (sg : Subgoal.t) :
  sum_list_with breaks (subgoal_lines i sg) = subgoal_breaks sg.
Proof.
  unfold subgoal_lines, subgoal_breaks. cbn [sum_list_with].
  rewrite (sum_breaks_concat_imap _ task_breaks) by (intros; apply task_lines_breaks).
  rewrite !breaks_app, breaks_pretty_nat.
  change (breaks "  ├─ 🔹 ") with 0. change (breaks " (") with 0.
  change (breaks " tasks)") with 0. lia.
Qed.

Lemma visualize_lines_breaks (g : Goal.t) :
  sum_list_with breaks (visualize_lines g) = goal_breaks g.
Proof.
  unfold visualize_lines, goal_breaks. cbn [sum_list_with].
  rewrite (sum_breaks_concat_imap _ subgoal_breaks)
    by (intros; apply subgoal_lines_breaks).
  rewrite !breaks_app.
  change (breaks "🎯 ") with 0. change (breaks " [") with 0.
  change (breaks "% complete]") with 0. lia.
Qed.

(** X5. The text [visualize_goal_tree] returns has one line for the goal,
    one for every subgoal, every task and every subtask of the tree, and one
    more for every line break inside a text it prints (a title, a task text,
    a minutes value, a subtask description, the formatted percentage); when
    these texts hold no line break it has exactly one line per entity. *)
Theorem visualize_one_line_per_entity (g : Goal.t) :
  let entities :=
    1 + length (Goal.subgoals g) + length (goal_tasks g)
    + length (concat (map Task.subtasks (goal_tasks g))) in
  length (visualize_lines g) = entities
  /\ line_count (visualize_goal_tree g) = entities + goal_breaks g
  /\ (goal_breaks g = 0 -> line_count (visualize_goal_tree g) = entities).
Proof.
  intros entities.
  assert (Hcount : line_count (visualize_goal_tree g) = entities + goal_breaks g).
  { unfold line_count, visualize_goal_tree.
    pose proof (visualize_lines_length g) as Hlen.
    pose proof (visualize_lines_breaks g) as Hbr.
    destruct (visualize_lines g) as [|l ls] eqn:E; [simpl in Hlen; lia|].
    rewrite breaks_join, Hbr, Hlen. unfold entities. lia. }
  split; [apply visualize_lines_length|].
  split; [exact Hcount|].
  intros H0. rewrite Hcount, H0. lia.
Qed.
End RenderingCount.

Lemma visualize_one_line_per_entity_witness :
  line_count (visualize_goal_tree sample_tree) = 7
  /\ line_count (visualize_goal_tree sample_tree_two_line_task) = 8.
Proof.
  pose proof (visualize_one_line_per_entity sample_tree) as (_ & _ & H1).
  pose proof (visualize_one_line_per_entity sample_tree_two_line_task) as (_ & H2 & _).
  split; [exact (H1 eq_refl) | exact H2].
Defined.

(** * Further properties of the text primitives *)

Lemma find_first_get (c : ascii) (s : string) (i : nat) :
  find_first c s = Some i ->
  String.get i s = Some c /\ forall k, k < i -> String.get k s <> Some c.
Proof.
  revert i. induction s as [|a s IH]; intros i H; simpl in H; [discriminate|].
  destruct (Ascii.eqb_spec a c) as [-> | Hne].
  - injection H as <-. split; [reflexivity | intros k Hk; lia].
  - destruct (find_first c s) as [i'|]; [|discriminate]. injection H as <-.
    destruct (IH i' eq_refl) as [Hget Hmin]. split; [exact Hget|].
    intros [|k] Hk; simpl; [congruence | apply Hmin; lia].
Qed.

Lemma find_first_none (c : ascii) (s : string) :
  find_first c s = None -> forall k, String.get k s <> Some c.
Proof.
  induction s as [|a s IH]; intros H k; simpl in H; [now destruct k|].
  destruct (Ascii.eqb_spec a c) as [-> | Hne]; [discriminate|].
  destruct (find_first c s); [discriminate|].
  destruct k as [|k]; simpl; [congruence | now apply IH].
Qed.

Lemma find_last_none (c : ascii) (s : string) :
  find_last c s = None -> forall k, String.get k s <> Some c.
Proof.
  induction s as [|a s IH]; intros H k; simpl in H; [now destruct k|].
  destruct (find_last c s); [discriminate|].
  destruct (Ascii.eqb_spec a c) as [-> | Hne]; [discriminate|].
  destruct k as [|k]; simpl; [congruence | now apply IH].
Qed.

Lemma find_last_get (c : ascii) (s : string) (j : nat) :
  find_last c s = Some j ->
  String.get j s = Some c /\ forall k, j < k -> String.get k s <> Some c.
Proof.
  revert j. induction s as [|a s IH]; intros j H; simpl in H; [discriminate|].
  destruct (find_last c s) as [j'|] eqn:E.
  - injection H as <-. destruct (IH j' eq_refl) as [Hget Hmax]. split; [exact Hget|].
    intros [|k] Hk; [lia|]. simpl. apply Hmax. lia.
  - destruct (Ascii.eqb_spec a c) as [-> | Hne]; [|discriminate]. injection H as <-.
    split; [reflexivity|]. intros [|k] Hk; [lia|]. simpl.
    now apply (find_last_none c s E).
Qed.

Lemma get_Some_lt (s : string) (k : nat) (c : ascii) :
  String.get k s = Some c -> k < String.length s.
Proof.
  revert k. induction s as [|a s IH]; intros k H; [now destruct k|].
  destruct k as [|k]; simpl in *; [lia|]. apply IH in H. lia.
Qed.

Lemma substring_zero (n : nat) (s : string) : substring n 0 s = "".
Proof.
  revert n. induction s as [|a s IH]; intros [|n]; simpl; try reflexivity. apply IH.
Qed.

Lemma substring_length (n m : nat) (s : string) :
  n + m <= String.length s -> String.length (substring n m s) = m.
Proof.
  revert n m. induction s as [|a s IH]; intros n m H; simpl in H.
  - assert (n = 0) as -> by lia. assert (m = 0) as -> by lia. reflexivity.
  - destruct n as [|n]; [destruct m as [|m]|]; simpl; try reflexivity.
    + f_equal. apply IH. lia.
    + apply IH. lia.
Qed.

Lemma slice_first_to_last (raw : string) (i j : nat) :
  find_first "{"%char raw = Some i ->
  find_last "}"%char raw = Some j ->
  (i <= j ->
     String.length (slice raw i (j + 1)) = j + 1 - i
     /\ String.get 0 (slice raw i (j + 1)) = Some "{"%char
     /\ String.get (j - i) (slice raw i (j + 1)) = Some "}"%char
     /\ (forall p, p < j + 1 - i ->
                   String.get p (slice raw i (j + 1)) = String.get (i + p) raw))
  /\ (j < i -> slice raw i (j + 1) = "")
  /\ (forall k, k < i -> String.get k raw <> Some "{"%char)
  /\ (forall k, j < k -> String.get k raw <> Some "}"%char).
Proof.
  intros Hi Hj.
  apply find_first_get in Hi as [Hgi Hmin].
  apply find_last_get in Hj as [Hgj Hmax].
  pose proof (get_Some_lt _ _ _ Hgj) as Hlen.
  split; [|split; [|split; assumption]].
  - intros Hle. unfold slice.
    assert (Hget : forall p, p < j + 1 - i ->
               String.get p (substring i (j + 1 - i) raw) = String.get (i + p) raw).
    { intros p Hp. rewrite substring_correct1 by exact Hp. f_equal. lia. }
    split; [apply substring_length; lia|].
    split; [rewrite Hget by lia; now rewrite Nat.add_0_r|].
    split; [|exact Hget].
    rewrite Hget by lia. replace (i + (j - i)) with j by lia. exact Hgj.
  - intros Hlt. unfold slice. replace (j + 1 - i) with 0 by lia. apply substring_zero.
Qed.

Section JsonCut.
Context {R : Runtime}.

(** X6. What a stage hands to the JSON parser is the stripped reply from
    its first opening brace through its last closing brace, both included:
    text before and after is dropped, and everything between is kept.  When
    the last closing brace comes before the first opening brace the parser
    gets the empty text.  A reply that lacks either brace never reaches the
    parser: the stage ends with "substring not found". *)
Theorem json_cut_spans_first_to_last (s : DecompositionState) (w : world) (content : string) :
  llm_invoke (llm_calls w) = Ok content ->
  let raw := strip content in
  (forall i j,
      find_first "{"%char raw = Some i ->
      find_last "}"%char raw = Some j ->
      invoke_json (s, w) = (json_loads (slice raw i (j + 1)), (s, after_calls 1 w))
      /\ (i <= j ->
            String.length (slice raw i (j + 1)) = j + 1 - i
            /\ String.get 0 (slice raw i (j + 1)) = Some "{"%char
            /\ String.get (j - i) (slice raw i (j + 1)) = Some "}"%char
            /\ (forall p, p < j + 1 - i ->
                          String.get p (slice raw i (j + 1)) = String.get (i + p) raw))
      /\ (j < i -> slice raw i (j + 1) = ""))
  /\ (find_first "{"%char raw = None \/ find_last "}"%char raw = None ->
      invoke_json (s, w) = (Raise substring_not_found, (s, after_calls 1 w))).
Proof.
  intros Hllm raw. split.
  - intros i j Hi Hj. split.
    + rewrite invoke_json_run. unfold reply_json, str_index, str_rindex.
      rewrite Hllm. fold raw. now rewrite Hi, Hj.
    + destruct (slice_first_to_last raw i j Hi Hj) as (H1 & H2 & _). auto.
  - intros Hnone. rewrite invoke_json_run. unfold reply_json, str_index, str_rindex.
    rewrite Hllm. fold raw.
    destruct Hnone as [-> | Hj]; [reflexivity|].
    rewrite Hj. now destruct (find_first _ raw).
Qed.
End JsonCut.

Lemma json_cut_spans_first_to_last_witness :
  let R := sample_runtime (fun _ => Ok " Sure: {a} and {b}. ") in
  slice "Sure: {a} and {b}." 6 (16 + 1) = "{a} and {b}"
  /\ String.length (slice "Sure: {a} and {b}." 6 (16 + 1)) = 11
  /\ fst (invoke_json (R := R) (sample_entry (R := R)))
     = @json_loads R "{a} and {b}".
Proof.
  intros R.
  destruct (json_cut_spans_first_to_last (R := R) (fst (sample_entry (R := R))) w0
              " Sure: {a} and {b}. " eq_refl) as [H _].
  destruct (H 6 16 eq_refl eq_refl) as (Hrun & Hle & _).
  split; [reflexivity|]. split; [apply Hle; lia|].
  unfold sample_entry in *. cbn [fst] in Hrun. rewrite Hrun. reflexivity.
Defined.

(** * Further properties of the import *)

Lemma is_ok_bind {S A B} (m : ST S A) (k : A -> ST S B) (s : S) :
  is_ok (fst (bind m k s))
  = match m s with
    | (Ok a, s') => is_ok (fst (k a s'))
    | (Raise _, _) => false
    end.
Proof. unfold bind. destruct (m s) as [[a|e] s']; reflexivity. Qed.

Lemma mapM_is_ok {S A B} (f : A -> ST S B) (ok : A -> bool) :
  (forall x s, is_ok (fst (f x s)) = ok x) ->
  forall l s, is_ok (fst (mapM f l s)) = forallb ok l.
Proof.
  intros Hf. induction l as [|x l IH]; intros s; [reflexivity|].
  simpl. rewrite is_ok_bind. specialize (Hf x s).
  destruct (f x s) as [[y|e] s1]; simpl in Hf; rewrite <- Hf; [|reflexivity].
  rewrite is_ok_bind. specialize (IH s1).
  destruct (mapM f l s1) as [[ys|e] s2]; simpl in IH; rewrite <- IH; reflexivity.
Qed.

Lemma Forall_forallb {A} (p : A -> bool) (l : list A) :
  Forall (fun x => p x = true) l -> forallb p l = true.
Proof. induction 1; simpl; [reflexivity | now rewrite H, IHForall]. Qed.

Section ImportShape.
Context {R : Runtime}.

Lemma id_or_fresh_is_ok (v : pyval) (w : world) : is_ok (fst (id_or_fresh v w)) = true.
Proof. unfold id_or_fresh. now destruct (truthy v). Qed.

Lemma subtask_from_dict_is_ok (data : pyval) (w : world) :
  is_ok (fst (Subtask.from_dict data w)) = subtask_dict_ok data.
Proof.
  destruct data as [| | | | | |d]; try reflexivity.
  unfold Subtask.from_dict, subtask_dict_ok, has, Subtask.__init__.
  cbn [py_getitem py_get].
  destruct (assoc "description" d); [|reflexivity].
  destruct (assoc "parent_task_id" d); [|reflexivity].
  cbn [lift bind]. rewrite is_ok_bind.
  match goal with |- context [id_or_fresh ?v w] =>
    pose proof (id_or_fresh_is_ok v w) as H; destruct (id_or_fresh v w) as [[i|e] w1] end;
    [reflexivity | discriminate].
Qed.

(** One more bound step of an import on a dict. *)
Ltac ok_get := rewrite is_ok_bind; cbn [lift py_get py_getitem].

Ltac ok_required k d :=
  rewrite is_ok_bind; cbn [lift py_getitem]; unfold has;
  destruct (assoc k d); [|rewrite ?andb_false_r; reflexivity].

Ltac ok_children Hf :=
  rewrite is_ok_bind; unfold lift, children_ok;
  match goal with
  | |- context [py_iter ?raw] => destruct (py_iter raw) as [items|e]; [|reflexivity]
  end;
  rewrite is_ok_bind;
  match goal with
  | |- context [mapM ?f ?l ?w] =>
      let H := fresh "Hm" in
      pose proof (mapM_is_ok f _ Hf l w) as H;
      destruct (mapM f l w) as [[ys|e'] w1]; simpl in H; rewrite <- H;
      [|reflexivity]
  end.

Ltac ok_init :=
  rewrite is_ok_bind;
  match goal with
  | |- context [id_or_fresh ?v ?w] =>
      let H := fresh "Hi" in
      pose proof (id_or_fresh_is_ok v w) as H;
      destruct (id_or_fresh v w) as [[i|e] w2]; [|discriminate]
  end.

Lemma task_from_dict_is_ok (data : pyval) (w : world) :
  is_ok (fst (Task.from_dict data w)) = task_dict_ok data.
Proof.
  destruct data as [| | | | | |d]; try reflexivity.
  unfold Task.from_dict, task_dict_ok.
  ok_get. ok_children subtask_from_dict_is_ok.
  cbn [andb].
  ok_required "task" d. ok_required "parent_subgoal_id" d. ok_required "parent_goal_id" d.
  do 6 ok_get. unfold Task.__init__. ok_init. reflexivity.
Qed.

Lemma subgoal_from_dict_is_ok (data : pyval) (w : world) :
  is_ok (fst (Subgoal.from_dict data w)) = subgoal_dict_ok data.
Proof.
  destruct data as [| | | | | |d]; try reflexivity.
  unfold Subgoal.from_dict, subgoal_dict_ok.
  ok_get. ok_children task_from_dict_is_ok.
  cbn [andb].
  ok_required "title" d. ok_required "parent_goal_id" d.
  do 3 ok_get. unfold Subgoal.__init__. ok_init. reflexivity.
Qed.

Lemma goal_from_dict_is_ok (data : pyval) (w : world) :
  is_ok (fst (Goal.from_dict data w)) = goal_dict_ok data.
Proof.
  destruct data as [| | | | | |d]; try reflexivity.
  unfold Goal.from_dict, goal_dict_ok.
  ok_get. ok_children subgoal_from_dict_is_ok.
  cbn [andb].
  unfold Goal.has_key, has, Goal.__init__, id_or_fresh, datetime_now, fresh_uuid,
    bind, ret, lift.
  cbn [py_getitem].
  destruct (assoc "created_at" d) as [v|]; cbn [fst snd is_ok andb];
    [destruct (fromisoformat v) as [dt|e]; cbn [fst snd is_ok andb] |];
    (destruct (assoc "title" d); cbn [fst snd is_ok andb]; [|reflexivity]);
    repeat match goal with
      | |- context [truthy ?x] => destruct (truthy x)
      end; reflexivity.
Qed.
End ImportShape.

Section ImportClaims.
Context {R : Runtime}.

(** X7. An import succeeds exactly on the dicts of the right shape: the
    value is a dict, the required keys are there ("description" and
    "parent_task_id" for a subtask; "task", "parent_subgoal_id" and
    "parent_goal_id" for a task; "title" and "parent_goal_id" for a subgoal;
    "title" for a goal), the child list, when present, can be iterated
    and each child imports, and the timestamp of a goal, when present,
    parses.  Every other key is optional.  A subtask dict without
    "description" raises KeyError for that key. *)
Theorem import_succeeds_iff_shape :
  (forall (data : pyval) (w : world),
      is_ok (fst (Subtask.from_dict data w)) = subtask_dict_ok data)
  /\ (forall (data : pyval) (w : world),
         is_ok (fst (Task.from_dict data w)) = task_dict_ok data)
  /\ (forall (data : pyval) (w : world),
         is_ok (fst (Subgoal.from_dict data w)) = subgoal_dict_ok data)
  /\ (forall (data : pyval) (w : world),
         is_ok (fst (Goal.from_dict data w)) = goal_dict_ok data)
  /\ (forall (d : list (string * pyval)) (w : world),
         assoc "description" d = None ->
         Subtask.from_dict (PDict d) w = (Raise (Exn KeyError "'description'"), w)).
Proof.
  split; [exact subtask_from_dict_is_ok|].
  split; [exact task_from_dict_is_ok|].
  split; [exact subgoal_from_dict_is_ok|].
  split; [exact goal_from_dict_is_ok|].
  intros d w Hd. unfold Subtask.from_dict. cbn [py_getitem]. rewrite Hd. reflexivity.
Qed.

Lemma subtask_from_dict_wf (Hid : uuid_nonempty R) (data : pyval) (w : world) st w' :
  Subtask.from_dict data w = (Ok st, w') -> subtask_wf st = true.
Proof.
  unfold Subtask.from_dict. intros H. run_inv H.
  eapply subtask_init_wf; eauto.
Qed.

Lemma task_from_dict_wf (Hid : uuid_nonempty R) (data : pyval) (w : world) t w' :
  Task.from_dict data w = (Ok t, w') -> task_wf t = true.
Proof.
  unfold Task.from_dict. intros H. run_inv H.
  eapply task_init_wf; [exact Hid | | exact H].
  intros l Hl. injection Hl as <-. apply Forall_forallb.
  match goal with
  | Hm : mapM Subtask.from_dict _ _ = _ |- _ => eapply mapM_Forall; [|exact Hm]
  end.
  intros; eapply subtask_from_dict_wf; eauto.
Qed.

Lemma subgoal_from_dict_wf (Hid : uuid_nonempty R) (data : pyval) (w : world) sg w' :
  Subgoal.from_dict data w = (Ok sg, w') -> subgoal_wf sg = true.
Proof.
  unfold Subgoal.from_dict. intros H. run_inv H.
  unfold Subgoal.__init__ in H. run_inv H. apply ret_inv in H as [-> _].
  unfold subgoal_wf. cbn [Subgoal.id Subgoal.tasks]. rewrite or_nil_id.
  match goal with
  | Hi : id_or_fresh _ _ = _ |- _ => rewrite (id_or_fresh_truthy Hid _ _ _ _ Hi)
  end.
  apply Forall_forallb.
  match goal with
  | Hm : mapM Task.from_dict _ _ = _ |- _ => eapply mapM_Forall; [|exact Hm]
  end.
  intros; eapply task_from_dict_wf; eauto.
Qed.

Lemma goal_from_dict_wf (Hid : uuid_nonempty R) (data : pyval) (w : world) g w' :
  Goal.from_dict data w = (Ok g, w') -> goal_wf g = true.
Proof.
  unfold Goal.from_dict. intros H. run_inv H.
  unfold Goal.__init__ in H. run_inv H. apply ret_inv in H as [-> _].
  unfold goal_wf. cbn [Goal.id Goal.subgoals]. rewrite or_nil_id.
  match goal with
  | Hi : id_or_fresh _ _ = _ |- _ => rewrite (id_or_fresh_truthy Hid _ _ _ _ Hi)
  end.
  apply Forall_forallb.
  match goal with
  | Hm : mapM Subgoal.from_dict _ _ = _ |- _ => eapply mapM_Forall; [|exact Hm]
  end.
  intros; eapply subgoal_from_dict_wf; eauto.
Qed.

(** X8. Whatever dict a goal is imported from - partial, hand-written,
    with blank identifiers or due labels - the imported goal is well-formed,
    and from then on export and import return it unchanged: the import
    normalises once.  The same holds at the task level.  (The identifiers of
    the runtime are non-empty and its ISO-8601 codec reads back what it
    wrote.) *)
Theorem import_normalises_once (Hid : uuid_nonempty R) (Hiso : iso_roundtrip R) :
  (forall (data : pyval) (w : world) g w',
      Goal.from_dict data w = (Ok g, w') ->
      goal_wf g = true
      /\ forall w2, Goal.from_dict (Goal.to_dict g) w2 = (Ok g, w2))
  /\ (forall (data : pyval) (w : world) t w',
         Task.from_dict data w = (Ok t, w') ->
         task_wf t = true
         /\ forall w2, Task.from_dict (Task.to_dict t) w2 = (Ok t, w2)).
Proof.
  split.
  - intros data w g w' H. pose proof (goal_from_dict_wf Hid _ _ _ _ H) as Hwf.
    split; [exact Hwf|]. intros w2. now apply goal_roundtrip.
  - intros data w t w' H. pose proof (task_from_dict_wf Hid _ _ _ _ H) as Hwf.
    split; [exact Hwf|]. intros w2. now apply task_roundtrip.
Qed.
End ImportClaims.

Lemma sample_uuid_nonempty (replies : nat -> result string) :
  uuid_nonempty (sample_runtime replies).
Proof. intros k. simpl. discriminate. Qed.

Lemma import_normalises_once_witness :
  let R := sample_runtime good_replies in
  exists g w',
    Goal.from_dict (R := R) sample_partial_goal_dict w0 = (Ok g, w')
    /\ goal_wf g = true
    /\ Goal.from_dict (Goal.to_dict g) w0 = (Ok g, w0).
Proof.
  intros R.
  destruct (Goal.from_dict (R := R) sample_partial_goal_dict w0) as [[g|e] w'] eqn:E;
    [|vm_compute in E; discriminate].
  exists g, w'. split; [reflexivity|].
  destruct (proj1 (import_normalises_once (R := R) (sample_uuid_nonempty good_replies)
                     (fun d => eq_refl)) _ _ _ _ E) as [Hwf Hrt].
  split; [exact Hwf | apply Hrt].
Defined.

(** * Further properties of finalize *)

(** A loop whose every round appends one element to a list of its
    accumulator builds that list in the order of its input. *)
Lemma foldM_appends {S A B C} (f : B -> A -> ST S B) (items : B -> list C)
    (Inv : B -> Prop) (Rel : A -> C -> Prop) :
  (forall acc x s acc' s',
      Inv acc -> f acc x s = (Ok acc', s') ->
      Inv acc' /\ exists c, items acc' = items acc ++ [c] /\ Rel x c) ->
  forall l acc s r s',
    Inv acc -> foldM f acc l s = (Ok r, s') ->
    Inv r /\ exists cs, items r = items acc ++ cs /\ Forall2 Rel l cs.
Proof.
  intros Hf. induction l as [|x l IH]; intros acc s r s' Hacc H; simpl in H.
  - apply ret_inv in H as [-> _]. split; [exact Hacc|].
    exists []. rewrite app_nil_r. split; [reflexivity | constructor].
  - apply bind_inv in H as (acc' & s1 & Hstep & H).
    destruct (Hf _ _ _ _ _ Hacc Hstep) as (Hacc' & c & Hc & Hrel).
    destruct (IH _ _ _ _ Hacc' H) as (Hr & cs & Hcs & Hall).
    split; [exact Hr|]. exists (c :: cs). split.
    + rewrite Hcs, Hc, <- app_assoc. reflexivity.
    + constructor; assumption.
Qed.

Section FinalizeShape.
Context {R : Runtime}.

Lemma id_or_fresh_none (w : world) i w' :
  id_or_fresh PNone w = (Ok i, w') ->
  i = PStr (uuid4 (uuid_calls w))
  /\ w' = World (S (uuid_calls w)) (now_calls w) (llm_calls w).
Proof. unfold id_or_fresh, fresh_uuid. simpl. intros H. injection H as <- <-. auto. Qed.

Lemma add_subtask_built (t : Task.t) (d : pyval) (w : world) p w' :
  Task.add_subtask t d w = (Ok p, w') ->
  Task.id (fst p) = Task.id t
  /\ Task.parent_subgoal_id (fst p) = Task.parent_subgoal_id t
  /\ Task.parent_goal_id (fst p) = Task.parent_goal_id t
  /\ Task.task (fst p) = Task.task t
  /\ Task.estimated_minutes (fst p) = Task.estimated_minutes t
  /\ Task.due (fst p) = Task.due t
  /\ Task.started (fst p) = Task.started t
  /\ Task.done (fst p) = Task.done t
  /\ Task.counted (fst p) = Task.counted t
  /\ Task.subtasks (fst p) = Task.subtasks t ++ [snd p]
  /\ subtask_built (Task.id t) d (snd p).
Proof.
  unfold Task.add_subtask. intros H.
  apply bind_inv in H as (st & w1 & Hst & H). apply ret_inv in H as [-> _].
  unfold Subtask.__init__ in Hst.
  apply bind_inv in Hst as (i & w2 & Hi & Hst). apply ret_inv in Hst as [-> _].
  apply id_or_fresh_none in Hi as [-> _].
  cbn. repeat split; try reflexivity. eauto.
Qed.

Lemma task_new tk psg pg due stt dn cn em (w : world) t w' :
  Task.__init__ tk psg pg due stt dn None cn em PNone w = (Ok t, w') ->
  t = Task.mk (PStr (uuid4 (uuid_calls w))) psg pg tk (py_or due (PStr "None")) stt dn []
        cn em
  /\ w' = World (S (uuid_calls w)) (now_calls w) (llm_calls w).
Proof.
  unfold Task.__init__. intros H.
  apply bind_inv in H as (i & w1 & Hi & H). apply ret_inv in H as [-> ->].
  apply id_or_fresh_none in Hi as [-> ->]. auto.
Qed.

Lemma subgoal_new ti pg lv stt (w : world) sg w' :
  Subgoal.__init__ ti pg lv None stt PNone w = (Ok sg, w') ->
  sg = Subgoal.mk (PStr (uuid4 (uuid_calls w))) pg ti lv [] stt
  /\ w' = World (S (uuid_calls w)) (now_calls w) (llm_calls w).
Proof.
  unfold Subgoal.__init__. intros H.
  apply bind_inv in H as (i & w1 & Hi & H). apply ret_inv in H as [-> ->].
  apply id_or_fresh_none in Hi as [-> ->]. auto.
Qed.

Lemma add_subtasks_built (t : Task.t) (descs : list pyval) (w : world) t' w' :
  foldM (fun tk d => let* added := Task.add_subtask tk d in ret (fst added)) t descs w
  = (Ok t', w') ->
  same_task_head t t'
  /\ exists sts, Task.subtasks t' = Task.subtasks t ++ sts
                 /\ Forall2 (subtask_built (Task.id t)) descs sts.
Proof.
  intros H.
  eapply (foldM_appends _ Task.subtasks (same_task_head t) (subtask_built (Task.id t)));
    [| |exact H].
  - clear. intros acc d s acc' s' Hacc Hstep.
    apply bind_inv in Hstep as (p & s1 & Hadd & Hret). apply ret_inv in Hret as [-> _].
    apply add_subtask_built in Hadd
      as (H1 & H2 & H3 & H4 & H5 & H6 & H7 & H8 & H9 & Hsts & Hb).
    destruct Hacc as (A1 & A2 & A3 & A4 & A5 & A6 & A7 & A8 & A9).
    split.
    + unfold same_task_head. repeat split; congruence.
    + exists (snd p). split; [exact Hsts|]. now rewrite <- A1.
  - unfold same_task_head. repeat split.
Qed.

Lemma build_task_built (sg : Subgoal.t) (task_data : pyval) (w : world) sg' w' :
  build_task sg task_data w = (Ok sg', w') ->
  Subgoal.id sg' = Subgoal.id sg
  /\ Subgoal.parent_goal_id sg' = Subgoal.parent_goal_id sg
  /\ Subgoal.title sg' = Subgoal.title sg
  /\ Subgoal.level sg' = Subgoal.level sg
  /\ Subgoal.status sg' = Subgoal.status sg
  /\ exists t, Subgoal.tasks sg' = Subgoal.tasks sg ++ [t]
               /\ task_built (Subgoal.id sg) (Subgoal.parent_goal_id sg) task_data t.
Proof.
  unfold build_task. intros H.
  apply bind_inv in H as (td & w1 & Htd & H). apply lift_inv in Htd as [Htd ->].
  apply bind_inv in H as (em & w2 & Hem & H). apply lift_inv in Hem as [Hem ->].
  apply bind_inv in H as (added & w3 & Hadd & H).
  apply bind_inv in H as (raw & w4 & Hraw & H). apply lift_inv in Hraw as [Hraw ->].
  apply bind_inv in H as (descs & w5 & Hdescs & H). apply lift_inv in Hdescs as [Hdescs ->].
  apply bind_inv in H as (t' & w6 & Hfold & H). apply ret_inv in H as [-> ->].
  unfold Subgoal.add_task in Hadd.
  apply bind_inv in Hadd as (t0 & w7 & Hnew & Hadd). apply ret_inv in Hadd as [-> ->].
  apply task_new in Hnew as [-> ->].
  cbn [fst snd] in *.
  apply add_subtasks_built in Hfold as (Hhead & sts & Hsts & Hall).
  destruct Hhead as (A1 & A2 & A3 & A4 & A5 & A6 & A7 & A8 & A9).
  cbn in A1, A2, A3, A4, A5, A6, A7, A8, A9, Hsts, Hall.
  unfold with_last_task. cbn. rewrite removelast_last.
  do 5 (split; [reflexivity|]).
  exists t'. split; [reflexivity|].
  unfold task_built, task_data_subtasks.
  rewrite A1, A2, A3, A4, A5, A6, A7, A8, A9, Htd, Hem, Hraw, Hsts.
  repeat split; eauto.
Qed.

Lemma build_tasks_built (sg : Subgoal.t) (items : list pyval) (w : world) sg' w' :
  foldM build_task sg items w = (Ok sg', w') ->
  same_subgoal_head sg sg'
  /\ exists ts, Subgoal.tasks sg' = Subgoal.tasks sg ++ ts
                /\ Forall2 (task_built (Subgoal.id sg) (Subgoal.parent_goal_id sg)) items ts.
Proof.
  intros H.
  eapply (foldM_appends _ Subgoal.tasks (same_subgoal_head sg)
            (task_built (Subgoal.id sg) (Subgoal.parent_goal_id sg))); [| |exact H].
  - clear. intros acc x s acc' s' (A1 & A2 & A3 & A4 & A5) Hstep.
    apply build_task_built in Hstep as (H1 & H2 & H3 & H4 & H5 & t & Ht & Hb).
    split.
    + unfold same_subgoal_head. repeat split; congruence.
    + exists t. split; [exact Ht|]. now rewrite <- A1, <- A2.
  - unfold same_subgoal_head. repeat split.
Qed.

Lemma build_subgoal_built (state : DecompositionState) (g : Goal.t) (entry : nat * pyval)
    (w : world) g' w' :
  build_subgoal state g entry w = (Ok g', w') ->
  same_goal_head g g'
  /\ exists sg, Goal.subgoals g' = Goal.subgoals g ++ [sg]
                /\ subgoal_built state (Goal.id g) entry sg.
Proof.
  destruct entry as [i stub]. unfold build_subgoal. intros H.
  apply bind_inv in H as (ti & w1 & Hti & H). apply lift_inv in Hti as [Hti ->].
  apply bind_inv in H as (added & w2 & Hadd & H).
  apply bind_inv in H as (items & w3 & Hitems & H). apply lift_inv in Hitems as [Hitems ->].
  apply bind_inv in H as (sg' & w4 & Hfold & H). apply ret_inv in H as [-> ->].
  unfold Goal.add_subgoal in Hadd.
  apply bind_inv in Hadd as (sg0 & w5 & Hnew & Hadd). apply ret_inv in Hadd as [-> ->].
  apply subgoal_new in Hnew as [-> ->].
  cbn [fst snd] in *.
  apply build_tasks_built in Hfold as ((A1 & A2 & A3 & A4 & A5) & ts & Hts & Hall).
  cbn in A1, A2, A3, A4, A5, Hts, Hall.
  unfold with_last_subgoal, Goal.set_subgoals. cbn. rewrite removelast_last.
  split; [unfold same_goal_head; repeat split|].
  exists sg'. split; [reflexivity|].
  unfold subgoal_built, stored_tasks. cbn [fst snd].
  rewrite A1, A2, A3, A4, A5, Hti, Hts.
  repeat split; eauto.
Qed.
End FinalizeShape.

Lemma Forall2_right {A C} (Rel : A -> C -> Prop) (P : C -> Prop) (l : list A) (cs : list C) :
  Forall2 Rel l cs -> (forall x c, Rel x c -> P c) -> Forall P cs.
Proof. induction 1; intros HP; constructor; eauto. Qed.

Section FinalizeClaims.
Context {R : Runtime}.

Lemma goal_new ti de stt ca co ra (w : world) g w' :
  Goal.__init__ ti de None stt ca None PNone co ra w = (Ok g, w') ->
  g = Goal.mk R (PStr (uuid4 (uuid_calls w))) ti de [] stt ca (now (now_calls w)) co ra
  /\ w' = World (S (uuid_calls w)) (S (now_calls w)) (llm_calls w).
Proof.
  unfold Goal.__init__. intros H.
  apply bind_inv in H as (i & w1 & Hi & H).
  apply bind_inv in H as (c & w2 & Hc & H). apply ret_inv in H as [-> ->].
  apply id_or_fresh_none in Hi as [-> ->].
  unfold datetime_now in Hc. injection Hc as <- <-. auto.
Qed.

Lemma build_goal_built (state : DecompositionState) (w : world) g w' :
  build_goal state w = (Ok g, w') ->
  same_goal_head
    (Goal.mk R (PStr (uuid4 (uuid_calls w))) (parsed_goal_title state)
       (parsed_goal_description state) [] (PStr "active") (PStr (category state))
       (now (now_calls w)) (confidence state) (rationale state)) g
  /\ exists stubs,
       py_iter (subgoals_list state) = Ok stubs
       /\ Forall2 (subgoal_built state (Goal.id g)) (imap (fun i x => (i, x)) stubs)
                  (Goal.subgoals g).
Proof.
  unfold build_goal. intros H.
  apply bind_inv in H as (g0 & w1 & Hnew & H).
  apply bind_inv in H as (stubs & w2 & Hstubs & H). apply lift_inv in Hstubs as [Hstubs ->].
  apply goal_new in Hnew as [-> ->].
  eapply (foldM_appends (build_subgoal state) Goal.subgoals
            (same_goal_head _) (subgoal_built state _)) in H.
  - destruct H as (Hhead & sgs & Hsgs & Hall). split; [exact Hhead|].
    exists stubs. split; [exact Hstubs|].
    cbn in Hsgs. rewrite Hsgs.
    destruct Hhead as (-> & _). exact Hall.
  - intros acc x s acc' s' (A1 & A2 & A3 & A4 & A5 & A6 & A7 & A8) Hstep.
    apply build_subgoal_built in Hstep
      as ((B1 & B2 & B3 & B4 & B5 & B6 & B7 & B8) & sg & Hsg & Hb).
    split.
    + unfold same_goal_head. repeat split; congruence.
    + exists sg. split; [exact Hsg|]. now rewrite <- A1.
  - unfold same_goal_head. repeat split.
Qed.

(** X9. The goal that finalize assembles mirrors the pipeline state: title,
    description, category, confidence and rationale are the state's, the
    status is "active"; there is one subgoal per stub, in order, titled by the
    stub (or "Subgoal i+1" when the stub has no title), at level 1 and
    "active"; the subgoal of stub i has one task per entry stored under
    "subgoal_i" (none when nothing is stored), not started, not done, with
    the sentinel due label, the entry's text (or "Unnamed task") and minutes
    (or 10); each task has one open subtask per listed description. *)
Theorem built_goal_mirrors_state (state : DecompositionState) (w : world) g w' :
  build_goal state w = (Ok g, w') ->
  Goal.title g = parsed_goal_title state
  /\ Goal.description g = parsed_goal_description state
  /\ Goal.category g = PStr (category state)
  /\ Goal.confidence g = confidence state
  /\ Goal.rationale g = rationale state
  /\ Goal.status g = PStr "active"
  /\ Goal.created_at g = now (now_calls w)
  /\ exists stubs,
       py_iter (subgoals_list state) = Ok stubs
       /\ length (Goal.subgoals g) = length stubs
       /\ Forall2 (subgoal_built state (Goal.id g)) (imap (fun i x => (i, x)) stubs)
                  (Goal.subgoals g).
Proof.
  intros H. apply build_goal_built in H
    as ((_ & A2 & A3 & A4 & A5 & A6 & A7 & A8) & stubs & Hstubs & Hall).
  cbn in A2, A3, A4, A5, A6, A7, A8.
  do 7 (split; [assumption|]).
  exists stubs. split; [exact Hstubs|]. split; [|exact Hall].
  apply Forall2_length in Hall. rewrite length_imap in Hall. now symmetry.
Qed.

Lemma uuid_truthy (Hid : uuid_nonempty R) (v : pyval) :
  (exists k, v = PStr (uuid4 k)) -> truthy v = true.
Proof.
  intros [k ->]. simpl. destruct (String.eqb_spec (uuid4 k) ""); [|reflexivity].
  now destruct (Hid k).
Qed.

Lemma task_built_linked sgid gid td t :
  task_built sgid gid td t ->
  Task.parent_subgoal_id t = sgid /\ Task.parent_goal_id t = gid /\ task_linked t.
Proof.
  intros (H1 & H2 & _ & _ & _ & _ & _ & _ & _ & descs & _ & Hall).
  split; [exact H1|]. split; [exact H2|].
  unfold task_linked. eapply Forall2_right; [exact Hall|].
  intros d st (Hp & _). exact Hp.
Qed.

Lemma task_built_wf (Hid : uuid_nonempty R) sgid gid td t :
  task_built sgid gid td t -> task_wf t = true.
Proof.
  intros (_ & _ & _ & _ & Hdue & _ & _ & _ & Hk & descs & _ & Hall).
  unfold task_wf. rewrite (uuid_truthy Hid _ Hk), Hdue. cbn [truthy String.eqb negb andb].
  apply Forall_forallb. eapply Forall2_right; [exact Hall|].
  intros d st (_ & _ & _ & Hst). now apply uuid_truthy.
Qed.

(** X10. In the goal that finalize assembles every back-reference names
    the owner - a subgoal its goal, a task its subgoal and its goal, a
    subtask its task - and every entity is well-formed, so exporting the goal
    and importing it back returns it unchanged.  (The identifiers of the
    runtime are non-empty and its ISO-8601 codec reads back what it wrote.) *)
Theorem built_goal_linked_and_well_formed (Hid : uuid_nonempty R) (Hiso : iso_roundtrip R)
    (state : DecompositionState) (w : world) g w' :
  build_goal state w = (Ok g, w') ->
  goal_linked g
  /\ goal_wf g = true
  /\ forall w2, Goal.from_dict (Goal.to_dict g) w2 = (Ok g, w2).
Proof.
  intros H. apply build_goal_built in H as ((Hgid & _) & stubs & _ & Hall).
  cbn in Hgid.
  assert (Hlinked : goal_linked g).
  { unfold goal_linked. eapply Forall2_right; [exact Hall|].
    intros [i stub] sg (Hp & _ & _ & _ & _ & items & _ & Hts).
    split; [exact Hp|]. eapply Forall2_right; [exact Hts|].
    intros td t Ht. eapply task_built_linked, Ht. }
  assert (Hwf : goal_wf g = true).
  { unfold goal_wf. rewrite (uuid_truthy Hid) by eauto. cbn [andb].
    apply Forall_forallb. eapply Forall2_right; [exact Hall|].
    intros [i stub] sg (_ & _ & _ & _ & Hk & items & _ & Hts).
    unfold subgoal_wf. rewrite (uuid_truthy Hid _ Hk). cbn [andb].
    apply Forall_forallb. eapply Forall2_right; [exact Hts|].
    intros td t Ht. eapply task_built_wf; eauto. }
  split; [exact Hlinked|]. split; [exact Hwf|].
  intros w2. now apply goal_roundtrip.
Qed.
End FinalizeClaims.

(** ** The identifiers finalize draws *)

Section Ledger.
Context {R : Runtime}.

Lemma drew_nil (w : world) : drew w w [].
Proof. unfold drew. simpl. repeat split; lia. Qed.

Lemma drew_app (w w1 w' : world) (l1 l2 : list pyval) :
  drew w w1 l1 -> drew w1 w' l2 -> drew w w' (l1 ++ l2).
Proof.
  intros (H1 & U1 & N1 & L1) (H2 & U2 & N2 & L2). unfold drew.
  rewrite length_app. repeat split; try lia.
  unfold fresh_ids in *. rewrite seq_app, map_app, <- H1, <- U1, <- H2. reflexivity.
Qed.

Lemma drew_one (w : world) :
  drew w (World (S (uuid_calls w)) (now_calls w) (llm_calls w))
       [PStr (uuid4 (uuid_calls w))].
Proof. unfold drew. simpl. repeat split; lia. Qed.

Lemma foldM_drew {A B} (f : B -> A -> M B) (ids : B -> list pyval) :
  (forall acc x s acc' s',
      f acc x s = (Ok acc', s') -> exists l, ids acc' = ids acc ++ l /\ drew s s' l) ->
  forall xs acc s r s',
    foldM f acc xs s = (Ok r, s') -> exists l, ids r = ids acc ++ l /\ drew s s' l.
Proof.
  intros Hf. induction xs as [|x xs IH]; intros acc s r s' H; simpl in H.
  - apply ret_inv in H as [-> ->]. exists []. rewrite app_nil_r.
    split; [reflexivity | apply drew_nil].
  - apply bind_inv in H as (acc' & s1 & Hstep & H).
    destruct (Hf _ _ _ _ _ Hstep) as (l1 & E1 & D1).
    destruct (IH _ _ _ _ H) as (l2 & E2 & D2).
    exists (l1 ++ l2). split; [rewrite E2, E1, app_assoc; reflexivity|].
    eapply drew_app; eauto.
Qed.

Lemma add_subtasks_drew (t : Task.t) (descs : list pyval) (w : world) t' w' :
  foldM (fun tk d => let* added := Task.add_subtask tk d in ret (fst added)) t descs w
  = (Ok t', w') ->
  exists l, task_ids t' = task_ids t ++ l /\ drew w w' l.
Proof.
  apply (foldM_drew _ task_ids). clear.
  intros acc d s acc' s' Hstep.
  apply bind_inv in Hstep as (p & s1 & Hadd & Hret). apply ret_inv in Hret as [-> ->].
  unfold Task.add_subtask in Hadd.
  apply bind_inv in Hadd as (st & w1 & Hst & Hadd). apply ret_inv in Hadd as [-> ->].
  unfold Subtask.__init__ in Hst.
  apply bind_inv in Hst as (i & w2 & Hi & Hst). apply ret_inv in Hst as [-> ->].
  apply id_or_fresh_none in Hi as [-> ->].
  exists [PStr (uuid4 (uuid_calls s))]. split; [|apply drew_one].
  unfold task_ids. cbn. rewrite map_app. reflexivity.
Qed.

Lemma build_task_drew (sg : Subgoal.t) (task_data : pyval) (w : world) sg' w' :
  build_task sg task_data w = (Ok sg', w') ->
  exists l, subgoal_ids sg' = subgoal_ids sg ++ l /\ drew w w' l.
Proof.
  unfold build_task. intros H.
  apply bind_inv in H as (td & w1 & Htd & H). apply lift_inv in Htd as [Htd ->].
  apply bind_inv in H as (em & w2 & Hem & H). apply lift_inv in Hem as [Hem ->].
  apply bind_inv in H as (added & w3 & Hadd & H).
  apply bind_inv in H as (raw & w4 & Hraw & H). apply lift_inv in Hraw as [Hraw ->].
  apply bind_inv in H as (descs & w5 & Hdescs & H). apply lift_inv in Hdescs as [Hdescs ->].
  apply bind_inv in H as (t' & w6 & Hfold & H). apply ret_inv in H as [-> ->].
  unfold Subgoal.add_task in Hadd.
  apply bind_inv in Hadd as (t0 & w7 & Hnew & Hadd). apply ret_inv in Hadd as [-> ->].
  apply task_new in Hnew as [-> ->].
  cbn [fst snd] in *.
  apply add_subtasks_drew in Hfold as (l & Hl & Hd).
  exists (task_ids t'). split.
  - unfold subgoal_ids, with_last_task. cbn. rewrite removelast_last, map_app, concat_app.
    cbn. rewrite app_nil_r. reflexivity.
  - rewrite Hl. unfold task_ids at 1. cbn [Task.id Task.subtasks map].
    change (PStr (uuid4 (uuid_calls w)) :: [] ++ l)
      with ([PStr (uuid4 (uuid_calls w))] ++ l).
    eapply drew_app; [apply drew_one | exact Hd].
Qed.

Lemma build_subgoal_drew (state : DecompositionState) (g : Goal.t) (entry : nat * pyval)
    (w : world) g' w' :
  build_subgoal state g entry w = (Ok g', w') ->
  exists l, goal_ids g' = goal_ids g ++ l /\ drew w w' l.
Proof.
  destruct entry as [i stub]. unfold build_subgoal. intros H.
  apply bind_inv in H as (ti & w1 & Hti & H). apply lift_inv in Hti as [Hti ->].
  apply bind_inv in H as (added & w2 & Hadd & H).
  apply bind_inv in H as (items & w3 & Hitems & H). apply lift_inv in Hitems as [Hitems ->].
  apply bind_inv in H as (sg' & w4 & Hfold & H). apply ret_inv in H as [-> ->].
  unfold Goal.add_subgoal in Hadd.
  apply bind_inv in Hadd as (sg0 & w5 & Hnew & Hadd). apply ret_inv in Hadd as [-> ->].
  apply subgoal_new in Hnew as [-> ->].
  cbn [fst snd] in *.
  apply (foldM_drew build_task subgoal_ids build_task_drew) in Hfold as (l & Hl & Hd).
  exists (subgoal_ids sg'). split.
  - unfold goal_ids, with_last_subgoal, Goal.set_subgoals. cbn.
    rewrite removelast_last, map_app, concat_app. cbn. rewrite app_nil_r. reflexivity.
  - rewrite Hl. unfold subgoal_ids at 1. cbn [Subgoal.id Subgoal.tasks map concat].
    change (PStr (uuid4 (uuid_calls w)) :: [] ++ l)
      with ([PStr (uuid4 (uuid_calls w))] ++ l).
    eapply drew_app; [apply drew_one | exact Hd].
Qed.

Lemma task_ids_concat_length (ts : list Task.t) :
  length (concat (map task_ids ts))
  = length ts + length (concat (map Task.subtasks ts)).
Proof.
  induction ts as [|t ts IH]; [reflexivity|].
  cbn [map concat length]. rewrite !length_app, IH.
  unfold task_ids. cbn [length]. rewrite length_map. lia.
Qed.

Lemma subgoal_ids_concat_length (sgs : list Subgoal.t) :
  length (concat (map subgoal_ids sgs))
  = length sgs + length (concat (map Subgoal.tasks sgs))
    + length (concat (map Task.subtasks (concat (map Subgoal.tasks sgs)))).
Proof.
  induction sgs as [|sg sgs IH]; [reflexivity|].
  cbn [map concat length]. rewrite map_app, concat_app, !length_app, IH.
  unfold subgoal_ids. cbn [length]. rewrite task_ids_concat_length. lia.
Qed.

Lemma goal_ids_length (g : Goal.t) :
  length (goal_ids g)
  = 1 + length (Goal.subgoals g) + length (goal_tasks g)
    + length (concat (map Task.subtasks (goal_tasks g))).
Proof.
  unfold goal_ids, goal_tasks. cbn [length]. rewrite subgoal_ids_concat_length. lia.
Qed.

(** X11. Finalize draws one identifier per entity and nothing more: when
    it starts at call k of the identifier source, the identifiers of the
    assembled tree, read parents before children and in order, are exactly
    the identifiers of the calls k, k+1, ...; the clock is read once and the
    completion service not at all.  With a source that never repeats itself
    no two entities of the tree share an identifier. *)
Theorem built_goal_ids_are_fresh (state : DecompositionState) (w : world) g w' :
  build_goal state w = (Ok g, w') ->
  goal_ids g = fresh_ids (uuid_calls w) (length (goal_ids g))
  /\ uuid_calls w' = uuid_calls w + length (goal_ids g)
  /\ length (goal_ids g)
     = 1 + length (Goal.subgoals g) + length (goal_tasks g)
       + length (concat (map Task.subtasks (goal_tasks g)))
  /\ now_calls w' = S (now_calls w)
  /\ llm_calls w' = llm_calls w
  /\ ((forall a b, uuid4 a = uuid4 b -> a = b) -> NoDup (goal_ids g)).
Proof.
  unfold build_goal. intros H.
  apply bind_inv in H as (g0 & w1 & Hnew & H).
  apply bind_inv in H as (stubs & w2 & Hstubs & H). apply lift_inv in Hstubs as [Hstubs ->].
  apply goal_new in Hnew as [-> ->].
  apply (foldM_drew (build_subgoal state) goal_ids (build_subgoal_drew state)) in H
    as (l & Hl & (Hfresh & Hu & Hn & Hc)).
  cbn in Hl, Hfresh, Hu, Hn, Hc.
  assert (Hids : goal_ids g = fresh_ids (uuid_calls w) (length (goal_ids g))).
  { rewrite Hl. cbn [length]. unfold fresh_ids in *. cbn [seq map].
    now rewrite <- Hfresh. }
  split; [exact Hids|].
  split; [rewrite Hl; cbn [length]; lia|].
  split; [apply goal_ids_length|].
  split; [exact Hn|]. split; [exact Hc|].
  intros Hinj. rewrite Hids. unfold fresh_ids.
  apply NoDup_fmap_2; [|apply NoDup_seq].
  intros a b Hab. injection Hab as Hab. now apply Hinj.
Qed.
End Ledger.

(** ** When finalize yields a goal *)

Lemma foldM_is_ok {S A B} (f : B -> A -> ST S B) (ok : A -> bool) :
  (forall acc x s, is_ok (fst (f acc x s)) = ok x) ->
  forall l acc s, is_ok (fst (foldM f acc l s)) = forallb ok l.
Proof.
  intros Hf. induction l as [|x l IH]; intros acc s; [reflexivity|].
  simpl. rewrite is_ok_bind. specialize (Hf acc x s).
  destruct (f acc x s) as [[acc'|e] s1]; simpl in Hf; rewrite <- Hf; [|reflexivity].
  apply IH.
Qed.

Ltac ok_step := rewrite is_ok_bind; cbn [lift py_get py_getitem].

Section Assembly.
Context {R : Runtime}.

Lemma add_subtask_is_ok (t : Task.t) (d : pyval) (w : world) :
  is_ok (fst ((let* added := Task.add_subtask t d in ret (fst added)) w)) = true.
Proof.
  unfold Task.add_subtask, Subtask.__init__, id_or_fresh, fresh_uuid, bind, ret. reflexivity.
Qed.

Lemma build_task_is_ok (sg : Subgoal.t) (task_data : pyval) (w : world) :
  is_ok (fst (build_task sg task_data w)) = task_data_ok task_data.
Proof.
  unfold build_task, task_data_ok.
  destruct task_data as [| | | | | |d]; try reflexivity.
  do 2 ok_step.
  rewrite is_ok_bind.
  unfold Subgoal.add_task, Task.__init__, id_or_fresh, fresh_uuid.
  cbn [truthy bind ret]. cbn [fst snd].
  ok_step. rewrite is_ok_bind. unfold lift at 1.
  destruct (py_iter _) as [descs|e]; [|reflexivity].
  rewrite is_ok_bind.
  match goal with
  | |- context [foldM ?f ?t descs ?s] =>
      pose proof (foldM_is_ok f (fun _ => true) add_subtask_is_ok descs t s) as Hf;
      destruct (foldM f t descs s) as [[t'|e] s1]
  end; simpl in Hf.
  - reflexivity.
  - rewrite Hf. clear. induction descs; simpl; auto.
Qed.

Lemma build_subgoal_is_ok (state : DecompositionState) (g : Goal.t) (entry : nat * pyval)
    (w : world) :
  is_ok (fst (build_subgoal state g entry w)) = stub_ok state entry.
Proof.
  destruct entry as [i stub]. unfold build_subgoal, stub_ok, stored_tasks. cbn [fst snd].
  destruct stub as [| | | | | |d]; try reflexivity.
  ok_step. rewrite is_ok_bind.
  unfold Goal.add_subgoal, Subgoal.__init__, id_or_fresh, fresh_uuid.
  cbn [truthy bind ret]. cbn [fst snd is_dict andb].
  rewrite is_ok_bind. unfold lift at 1.
  destruct (py_iter _) as [items|e]; [|reflexivity].
  rewrite is_ok_bind.
  match goal with
  | |- context [foldM build_task ?sg items ?s] =>
      pose proof (foldM_is_ok build_task task_data_ok build_task_is_ok items sg s) as Hf;
      destruct (foldM build_task sg items s) as [[sg'|e] s1]
  end; simpl in Hf; rewrite <- Hf; reflexivity.
Qed.

Lemma build_goal_is_ok (state : DecompositionState) (w : world) :
  is_ok (fst (build_goal state w)) = state_ok state.
Proof.
  unfold build_goal, state_ok. rewrite is_ok_bind.
  unfold Goal.__init__, id_or_fresh, fresh_uuid, datetime_now.
  cbn [truthy bind ret]. cbn [fst snd].
  rewrite is_ok_bind. unfold lift at 1.
  destruct (py_iter (subgoals_list state)) as [stubs|e]; [|reflexivity].
  apply foldM_is_ok. intros. apply build_subgoal_is_ok.
Qed.

(** X12. Finalize never raises, and it yields a goal exactly when the
    state has the shape it needs: the stubs can be iterated and are objects,
    and what is stored for each can be iterated and holds objects whose
    "subtasks" can be iterated.  Then the goal is stored and the error
    note is left alone; otherwise the goal field is left as it was (null in
    a run) and the note becomes "Finalization error: ..." - no partly built
    goal is ever stored.  Every other field of the state stays. *)
Theorem finalize_yields_goal_iff_shape (s : DecompositionState) (w : world) :
  exists s' w',
    finalize_goal_node (s, w) = (Ok tt, (s', w'))
    /\ (if state_ok s
        then exists g, build_goal s w = (Ok g, w') /\ s' = set_final_goal (Some g) s
        else exists e, build_goal s w = (Raise e, w')
                       /\ s' = set_error ("Finalization error: " +:+ exn_str e) s).
Proof.
  destruct (finalize_outcome s w) as (s' & w' & Hrun & Hcase).
  exists s', w'. split; [exact Hrun|].
  pose proof (build_goal_is_ok s w) as Hok.
  destruct Hcase as [(g & Hg & ->) | (e & He & ->)].
  - rewrite Hg in Hok. simpl in Hok. rewrite <- Hok. eauto.
  - rewrite He in Hok. simpl in Hok. rewrite <- Hok. eauto.
Qed.
End Assembly.

Lemma sample_uuid_injective (replies : nat -> result string) (a b : nat) :
  @uuid4 (sample_runtime replies) a = @uuid4 (sample_runtime replies) b -> a = b.
Proof.
  simpl. intros H. apply (inj (String.app "uuid-")) in H. now apply (inj pretty) in H.
Qed.

Lemma built_goal_mirrors_state_witness :
  let R := sample_runtime good_replies in
  exists g w',
    build_goal (R := R) sample_final_state w0 = (Ok g, w')
    /\ Goal.title g = PStr "Prepare"
    /\ Goal.category g = PStr "Academics"
    /\ length (Goal.subgoals g) = 1.
Proof.
  intros R.
  destruct (build_goal (R := R) sample_final_state w0) as [[g|e] w'] eqn:E;
    [|vm_compute in E; discriminate].
  exists g, w'. split; [reflexivity|].
  destruct (built_goal_mirrors_state (R := R) _ _ _ _ E)
    as (H1 & _ & H3 & _ & _ & _ & _ & stubs & Hstubs & Hlen & _).
  split; [exact H1|]. split; [exact H3|].
  rewrite Hlen. cbn in Hstubs. injection Hstubs as <-. reflexivity.
Defined.

Lemma built_goal_linked_and_well_formed_witness :
  let R := sample_runtime good_replies in
  exists g w',
    build_goal (R := R) sample_final_state w0 = (Ok g, w')
    /\ goal_linked g
    /\ goal_wf g = true
    /\ Goal.from_dict (Goal.to_dict g) w0 = (Ok g, w0).
Proof.
  intros R.
  destruct (build_goal (R := R) sample_final_state w0) as [[g|e] w'] eqn:E;
    [|vm_compute in E; discriminate].
  exists g, w'. split; [reflexivity|].
  destruct (built_goal_linked_and_well_formed (R := R) (sample_uuid_nonempty good_replies)
              (fun d => eq_refl) _ _ _ _ E) as (H1 & H2 & H3).
  split; [exact H1|]. split; [exact H2 | apply H3].
Defined.

Lemma built_goal_ids_are_fresh_witness :
  let R := sample_runtime good_replies in
  exists g w',
    build_goal (R := R) sample_final_state w0 = (Ok g, w')
    /\ goal_ids g = fresh_ids 0 (length (goal_ids g))
    /\ uuid_calls w' = length (goal_ids g)
    /\ NoDup (goal_ids g).
Proof.
  intros R.
  destruct (build_goal (R := R) sample_final_state w0) as [[g|e] w'] eqn:E;
    [|vm_compute in E; discriminate].
  exists g, w'. split; [reflexivity|].
  destruct (built_goal_ids_are_fresh (R := R) _ _ _ _ E) as (H1 & H2 & _ & _ & _ & H6).
  split; [exact H1|]. split; [exact H2|].
  apply H6. apply sample_uuid_injective.
Defined.

(** * Further properties of the pipeline *)

Section Runs.
Context {R : Runtime}.

(** Node runs that precede a [graph.invoke] can be taken off its budget. *)
Lemma graph_invoke_steps (j : nat) :
  forall (n : node) (sw : DecompositionState * world) n1 sw1 (fuel : nat),
    graph_steps j n sw = (Ok n1, sw1) ->
    graph_invoke (j + fuel) n sw = graph_invoke fuel n1 sw1.
Proof.
  induction j as [|j IH]; intros n sw n1 sw1 fuel H.
  - simpl in H. injection H as <- <-. reflexivity.
  - cbn [graph_steps] in H. apply bind_inv in H as (n' & sw' & Hstep & H).
    destruct n; try (cbn [Nat.add graph_invoke]; rewrite Hstep; now apply IH).
    simpl in Hstep. injection Hstep as <- <-.
    assert (graph_steps j END sw = (Ok END, sw)) as E.
    { clear. induction j; [reflexivity|]. cbn [graph_steps]. unfold bind. simpl. exact IHj. }
    rewrite E in H. injection H as <- <-. destruct fuel; reflexivity.
Qed.

Lemma step_parse_exact (s : DecompositionState) (w : world) :
  graph_step parse_goal (s, w)
  = (Ok decompose_to_subgoals, (after_parse s (llm_calls w), after_calls 1 w)).
Proof.
  unfold graph_step. rewrite (bind_ok _ _ _ _ _ (parse_run s w)).
  unfold after_parse. destruct (stage_error (llm_calls w)); reflexivity.
Qed.

Lemma step_decompose_exact (s : DecompositionState) (w : world) :
  graph_step decompose_to_subgoals (s, w)
  = (Ok generate_tasks, (after_split s (llm_calls w), after_calls 1 w)).
Proof.
  unfold graph_step. rewrite (bind_ok _ _ _ _ _ (decompose_run s w)).
  unfold after_split. destruct (stage_error (llm_calls w)); reflexivity.
Qed.

Lemma first_two_stages (s : DecompositionState) (w : world) :
  graph_steps 2 parse_goal (s, w)
  = (Ok generate_tasks,
     (after_split (after_parse s (llm_calls w)) (llm_calls w + 1), after_calls 2 w)).
Proof.
  cbn [graph_steps].
  rewrite (bind_ok _ _ _ _ _ (step_parse_exact s w)).
  rewrite (bind_ok _ _ _ _ _ (step_decompose_exact _ (after_calls 1 w))).
  rewrite after_calls_add. reflexivity.
Qed.

(** X13. The state holds one error note, and the latest failure owns it:
    a failed split overwrites the note of a failed parse, a successful
    stage leaves the note of an earlier failure in place, and without a
    failure the note stays empty. *)
Theorem latest_error_note_wins (goal_text category : string) (user_feedback : list string)
    (w : world) :
  exists s2,
    graph_steps 2 parse_goal (initial_state goal_text category user_feedback, w)
    = (Ok generate_tasks, (s2, after_calls 2 w))
    /\ error s2
       = match stage_error (llm_calls w + 1), stage_error (llm_calls w) with
         | Some e2, _ => "Subgoal decomposition error: " +:+ exn_str e2
         | None, Some e1 => "Parse error: " +:+ exn_str e1
         | None, None => ""
         end.
Proof.
  eexists. split; [apply first_two_stages|].
  unfold after_split, after_parse.
  destruct (stage_error (llm_calls w + 1)), (stage_error (llm_calls w)); reflexivity.
Qed.

Lemma bind_assoc {S A B C} (m : ST S A) (f : A -> ST S B) (g : B -> ST S C) (s : S) :
  bind (bind m f) g s = bind m (fun x => bind (f x) g) s.
Proof. unfold bind. destruct (m s) as [[a|e] s1]; reflexivity. Qed.

Lemma bind_ext {S A B} (m : ST S A) (k k' : A -> ST S B) (s : S) :
  (forall a s1, k a s1 = k' a s1) -> bind m k s = bind m k' s.
Proof. intros H. unfold bind. destruct (m s) as [[a|e] s1]; [apply H | reflexivity]. Qed.

Lemma graph_steps_snoc (j : nat) :
  forall (n : node) (sw : DecompositionState * world),
    graph_steps (S j) n sw = bind (graph_steps j n) graph_step sw.
Proof.
  induction j as [|j IH]; intros n sw.
  - cbn [graph_steps]. unfold bind, ret.
    destruct (graph_step n sw) as [[n'|e] sw']; reflexivity.
  - change (graph_steps (S (S j)) n sw)
      with (bind (graph_step n) (graph_steps (S j)) sw).
    rewrite (bind_ext _ _ (fun n' => bind (graph_steps j n') graph_step) sw IH).
    rewrite <- bind_assoc. reflexivity.
Qed.

Lemma iterate_once_frame (s : DecompositionState) (k : nat) :
  subgoals_list (iterate_once s k) = subgoals_list s
  /\ current_subgoal_index (iterate_once s k)
     = current_subgoal_index s + match stage_error k with None => 1 | Some _ => 0 end.
Proof.
  unfold iterate_once. destruct (stage_error k); simpl; split; try reflexivity; lia.
Qed.

Lemma step_generate_exact (s : DecompositionState) (w : world) (stubs : list pyval) :
  subgoals_list s = PList stubs ->
  forallb is_dict stubs = true ->
  current_subgoal_index s < length stubs ->
  graph_step generate_tasks (s, w)
  = (Ok (if Nat.ltb (current_subgoal_index (iterate_once s (llm_calls w))) (length stubs)
         then generate_tasks else finalize),
     (iterate_once s (llm_calls w), after_calls 1 w)).
Proof.
  intros Hs Hall Hlt.
  destruct (stub_is_dict stubs _ Hall Hlt) as [sd Hsd].
  unfold iterate_once. destruct (stage_error (llm_calls w)) as [e|] eqn:E.
  - rewrite (step_generate_fail s w stubs sd e Hs Hsd E).
    cbn [task_failure current_subgoal_index set_error].
    destruct (Nat.ltb_spec (current_subgoal_index s) (length stubs)); [reflexivity | lia].
  - rewrite (step_generate_ok s w stubs sd Hs Hsd E). reflexivity.
Qed.

Lemma after_iterations_last (j : nat) (s : DecompositionState) (k : nat) :
  after_iterations (S j) s k = iterate_once (after_iterations j s k) (k + j).
Proof.
  revert s k. induction j as [|j IH]; intros s k.
  - simpl. now rewrite Nat.add_0_r.
  - change (after_iterations (S (S j)) s k)
      with (after_iterations (S j) (iterate_once s k) (S k)).
    rewrite IH. simpl. do 2 f_equal. lia.
Qed.

(** While fewer than the remaining stubs have succeeded, the loop goes on. *)
Lemma loop_goes_on (stubs : list pyval) :
  forallb is_dict stubs = true ->
  forall j (s : DecompositionState) (w : world),
    subgoals_list s = PList stubs ->
    current_subgoal_index s + successes (llm_calls w) j < length stubs ->
    graph_steps j generate_tasks (s, w)
    = (Ok generate_tasks, (after_iterations j s (llm_calls w), after_calls j w))
    /\ current_subgoal_index (after_iterations j s (llm_calls w))
       = current_subgoal_index s + successes (llm_calls w) j
    /\ subgoals_list (after_iterations j s (llm_calls w)) = PList stubs.
Proof.
  intros Hall. induction j as [|j IH]; intros s w Hs Hlt.
  - simpl. rewrite after_calls_0. repeat split; [lia | exact Hs].
  - cbn [successes] in Hlt.
    destruct (iterate_once_frame s (llm_calls w)) as [Hs' Hc'].
    change (graph_steps (S j) generate_tasks)
      with (bind (graph_step generate_tasks) (graph_steps j)).
    erewrite bind_ok by (apply (step_generate_exact s w stubs Hs Hall); lia).
    destruct (Nat.ltb_spec (current_subgoal_index (iterate_once s (llm_calls w)))
                (length stubs)) as [_ | Hge]; [|lia].
    destruct (IH (iterate_once s (llm_calls w)) (after_calls 1 w)) as (E & Hc & Hsl).
    + now rewrite Hs'.
    + cbn [after_calls llm_calls]. rewrite Nat.add_1_r. lia.
    + cbn [after_calls llm_calls] in E, Hc, Hsl. rewrite Nat.add_1_r in E, Hc, Hsl.
      rewrite E, after_calls_add. cbn [after_iterations successes].
      repeat split; [lia | exact Hsl].
Qed.

(** X14. The task-generation loop ends at the n-th success, whatever
    fails in between: while fewer calls have succeeded than stubs remain,
    the graph stays at the task-generation node with the cursor advanced
    by the number of successes so far; the iteration whose success moves the
    cursor onto the number of stubs hands over to finalize.  Each failure
    costs one more call and nothing else. *)
Theorem loop_ends_at_nth_success (stubs : list pyval) (s : DecompositionState) (w : world) :
  subgoals_list s = PList stubs ->
  forallb is_dict stubs = true ->
  (forall j,
      current_subgoal_index s + successes (llm_calls w) j < length stubs ->
      graph_steps j generate_tasks (s, w)
      = (Ok generate_tasks, (after_iterations j s (llm_calls w), after_calls j w))
      /\ current_subgoal_index (after_iterations j s (llm_calls w))
         = current_subgoal_index s + successes (llm_calls w) j)
  /\ (forall j,
        current_subgoal_index s + successes (llm_calls w) j + 1 = length stubs ->
        stage_error (llm_calls w + j) = None ->
        graph_steps (S j) generate_tasks (s, w)
        = (Ok finalize, (after_iterations (S j) s (llm_calls w), after_calls (S j) w))
        /\ current_subgoal_index (after_iterations (S j) s (llm_calls w)) = length stubs).
Proof.
  intros Hs Hall. split.
  - intros j Hlt. destruct (loop_goes_on stubs Hall j s w Hs Hlt) as (E & Hc & _). auto.
  - intros j Hlast Hok.
    destruct (loop_goes_on stubs Hall j s w Hs) as (E & Hc & Hsl); [lia|].
    rewrite graph_steps_snoc. rewrite (bind_ok _ _ _ _ _ E).
    rewrite (step_generate_exact _ _ stubs Hsl Hall) by lia.
    cbn [after_calls llm_calls]. rewrite after_iterations_last.
    destruct (iterate_once_frame (after_iterations j s (llm_calls w)) (llm_calls w + j))
      as [_ Hc'].
    rewrite Hok in Hc'.
    destruct (Nat.ltb_spec
                (current_subgoal_index
                   (iterate_once (after_iterations j s (llm_calls w)) (llm_calls w + j)))
                (length stubs)) as [Hlt | _]; [lia|].
    split; [|lia].
    unfold after_calls. cbn. do 3 f_equal. lia.
Qed.
End Runs.

Lemma loop_ends_at_nth_success_witness :
  let R := sample_runtime flaky_replies in
  let s2 := fst (sample_after_split (R := R)) in
  let w2 := snd (sample_after_split (R := R)) in
  graph_steps 5 generate_tasks (s2, w2)
  = (Ok finalize, (after_iterations 5 s2 (llm_calls w2), after_calls 5 w2))
  /\ current_subgoal_index (after_iterations 5 s2 (llm_calls w2)) = 3
  /\ graph_steps 4 generate_tasks (s2, w2)
     = (Ok generate_tasks, (after_iterations 4 s2 (llm_calls w2), after_calls 4 w2)).
Proof.
  intros R s2 w2.
  assert (Hs : subgoals_list s2 = PList sample_stubs) by (vm_compute; reflexivity).
  destruct (loop_ends_at_nth_success (R := R) sample_stubs s2 w2 Hs eq_refl) as [Hon Hend].
  destruct (Hend 4) as [H1 H2]; [vm_compute; reflexivity | vm_compute; reflexivity |].
  destruct (Hon 4) as [H3 _]; [vm_compute; lia|].
  split; [exact H1|]. split; [exact H2 | exact H3].
Defined.

Section Frames.
Context {R : Runtime}.

Lemma keeps_llm_ret {A} (a : A) : keeps_llm (ret a).
Proof. intros w. reflexivity. Qed.

Lemma keeps_llm_lift {A} (r : result A) : keeps_llm (lift r).
Proof. intros w. reflexivity. Qed.

Lemma keeps_llm_bind {A B} (m : M A) (k : A -> M B) :
  keeps_llm m -> (forall a, keeps_llm (k a)) -> keeps_llm (bind m k).
Proof.
  intros Hm Hk w. unfold bind. specialize (Hm w).
  destruct (m w) as [[a|e] w1]; [|exact Hm].
  rewrite (Hk a w1). exact Hm.
Qed.

Lemma keeps_llm_id (v : pyval) : keeps_llm (id_or_fresh v).
Proof. intros w. unfold id_or_fresh. destruct (truthy v); reflexivity. Qed.

Lemma keeps_llm_now : keeps_llm datetime_now.
Proof. intros w. reflexivity. Qed.

Lemma keeps_llm_foldM {A B} (f : B -> A -> M B) :
  (forall acc x, keeps_llm (f acc x)) -> forall l acc, keeps_llm (foldM f acc l).
Proof.
  intros Hf. induction l as [|x l IH]; intros acc; simpl.
  - apply keeps_llm_ret.
  - apply keeps_llm_bind; [apply Hf | intros; apply IH].
Qed.

Ltac keeps :=
  repeat first
    [ apply keeps_llm_bind | apply keeps_llm_ret | apply keeps_llm_lift
    | apply keeps_llm_id | apply keeps_llm_now | apply keeps_llm_foldM
    | match goal with |- keeps_llm (match ?o with Some _ => _ | None => _ end) =>
        destruct o end
    | intro ].

Lemma build_task_keeps_llm (sg : Subgoal.t) (td : pyval) : keeps_llm (build_task sg td).
Proof.
  unfold build_task, Subgoal.add_task, Task.__init__, Task.add_subtask, Subtask.__init__.
  keeps.
Qed.

Lemma build_goal_keeps_llm (state : DecompositionState) : keeps_llm (build_goal state).
Proof.
  unfold build_goal, Goal.__init__.
  apply keeps_llm_bind; [keeps|]. intros g.
  apply keeps_llm_bind; [keeps|]. intros stubs.
  apply keeps_llm_foldM. intros acc [i stub].
  unfold build_subgoal, Goal.add_subgoal, Subgoal.__init__.
  apply keeps_llm_bind; [keeps|]. intros ti.
  apply keeps_llm_bind; [keeps|]. intros added.
  apply keeps_llm_bind; [keeps|]. intros items.
  apply keeps_llm_bind; [|keeps].
  apply keeps_llm_foldM. intros. apply build_task_keeps_llm.
Qed.

(** Finalize calls the completion service on no input. *)
Lemma finalize_keeps_llm (s : DecompositionState) (w : world) :
  llm_calls (snd (snd (finalize_goal_node (s, w)))) = llm_calls w.
Proof.
  pose proof (build_goal_keeps_llm s w) as H.
  unfold finalize_goal_node, try_except, bind, get_state, in_world, modify. cbn [fst snd].
  destruct (build_goal s w) as [[g|e] w']; cbn [fst snd] in *; exact H.
Qed.

Lemma finalize_run (s : DecompositionState) (w : world) :
  finalize_goal_node (s, w) = (Ok tt, snd (finalize_goal_node (s, w))).
Proof.
  destruct (finalize_outcome s w) as (s' & w' & E & _). now rewrite E.
Qed.

(** From the loop's exit to the end of the run: two node runs. *)
Lemma graph_invoke_from_finalize (s : DecompositionState) (w : world) (fuel : nat) :
  graph_invoke (S fuel) finalize (s, w) = (Ok tt, snd (finalize_goal_node (s, w))).
Proof.
  cbn [graph_invoke]. unfold graph_step. rewrite (bind_ok _ _ _ _ _ (finalize_run s w)).
  unfold ret. destruct fuel; reflexivity.
Qed.

Lemma graph_steps_END (j : nat) (sw : DecompositionState * world) :
  graph_steps j END sw = (Ok END, sw).
Proof. induction j; [reflexivity|]. cbn [graph_steps]. unfold bind. simpl. exact IHj. Qed.

(** A run that is still under way after [j] node runs ends in the
    library's recursion error under any budget of at most [j]. *)
Lemma graph_invoke_short (j : nat) :
  forall (n : node) (sw : DecompositionState * world) n1 sw1 (budget : nat),
    graph_steps j n sw = (Ok n1, sw1) -> n1 <> END -> budget <= j ->
    fst (graph_invoke budget n sw) = Raise recursion_error.
Proof.
  induction j as [|j IH]; intros n sw n1 sw1 budget H Hne Hb.
  - simpl in H. injection H as <- <-. assert (budget = 0) as -> by lia.
    destruct n; try reflexivity. congruence.
  - cbn [graph_steps] in H. apply bind_inv in H as (n' & sw' & Hstep & H).
    assert (Hn : n <> END).
    { intros ->. simpl in Hstep. injection Hstep as <- <-.
      rewrite graph_steps_END in H. injection H as <- _. congruence. }
    destruct budget as [|budget]; [destruct n; try reflexivity; congruence|].
    destruct n; try congruence;
      cbn [graph_invoke]; rewrite Hstep; apply (IH _ _ _ _ _ H Hne); lia.
Qed.
End Frames.

Section WholeRun.
Context {R : Runtime}.

Lemma graph_steps_add (a b : nat) :
  forall (n : node) (sw : DecompositionState * world),
    graph_steps (a + b) n sw = bind (graph_steps a n) (graph_steps b) sw.
Proof.
  induction a as [|a IH]; intros n sw; [reflexivity|].
  change (graph_steps (S a + b) n sw) with (bind (graph_step n) (graph_steps (a + b)) sw).
  rewrite (bind_ext _ _ (fun n' => bind (graph_steps a n') (graph_steps b)) sw IH).
  rewrite <- bind_assoc. reflexivity.
Qed.

Lemma entry_cursor (goal_text category : string) (user_feedback : list string) (k k' : nat) :
  current_subgoal_index
    (after_split (after_parse (initial_state goal_text category user_feedback) k) k') = 0
  /\ final_goal
       (after_split (after_parse (initial_state goal_text category user_feedback) k) k')
     = None.
Proof.
  unfold after_split, after_parse.
  destruct (stage_error k), (stage_error k'); split; reflexivity.
Qed.

Lemma after_tasks_final_goal (j : nat) (s : DecompositionState) (k : nat) :
  final_goal (after_tasks j s k) = final_goal s.
Proof.
  revert s k. induction j as [|j IH]; intros s k; simpl; [reflexivity|]. now rewrite IH.
Qed.

(** All calls succeed: the loop takes [max 1 n] node runs. *)
Lemma loop_all_successes (stubs : list pyval) (s : DecompositionState) (w : world) :
  subgoals_list s = PList stubs ->
  forallb is_dict stubs = true ->
  current_subgoal_index s = 0 ->
  (forall i, i < length stubs -> stage_error (llm_calls w + i) = None) ->
  graph_steps (Nat.max 1 (length stubs)) generate_tasks (s, w)
  = (Ok finalize,
     (after_tasks (length stubs) s (llm_calls w), after_calls (length stubs) w)).
Proof.
  intros Hs Hall Hc Hok. destruct (length stubs) as [|n'] eqn:En.
  - cbn [Nat.max graph_steps after_tasks].
    erewrite bind_ok by (eapply step_generate_done; eauto; lia).
    rewrite after_calls_0. reflexivity.
  - replace (Nat.max 1 (S n')) with (S n') by lia.
    rewrite (loop_successes stubs Hall n' s w Hs); [| rewrite Hc; lia
                                                    | intros i Hi; apply Hok; lia].
    rewrite Hc. cbn [Nat.add].
    destruct (Nat.ltb_spec (S n') (length stubs)); [lia | reflexivity].
Qed.

(** The run from the entry to the end when the task calls all succeed. *)
Lemma run_after_successes (goal_text category : string) (user_feedback : list string)
    (w : world) (stubs : list pyval) :
  let k := llm_calls w in
  let s2 := after_split (after_parse (initial_state goal_text category user_feedback) k)
              (k + 1) in
  let n := length stubs in
  let s3 := after_tasks n s2 (k + 2) in
  let w3 := after_calls (2 + n) w in
  subgoals_list s2 = PList stubs ->
  forallb is_dict stubs = true ->
  (forall i, i < n -> stage_error (k + 2 + i) = None) ->
  graph_steps (2 + Nat.max 1 n) parse_goal
    (initial_state goal_text category user_feedback, w) = (Ok finalize, (s3, w3))
  /\ (forall fuel, Nat.max 1 n + 3 <= fuel ->
        graph_invoke fuel parse_goal (initial_state goal_text category user_feedback, w)
        = (Ok tt, snd (finalize_goal_node (s3, w3))))
  /\ (forall fuel, fuel < Nat.max 1 n + 3 ->
        fst (graph_invoke fuel parse_goal
               (initial_state goal_text category user_feedback, w))
        = Raise recursion_error).
Proof.
  intros k s2 n s3 w3 Hs Hall Hok. subst k s2 n s3 w3.
  assert (Hsteps : graph_steps (2 + Nat.max 1 (length stubs)) parse_goal
                     (initial_state goal_text category user_feedback, w)
                   = (Ok finalize,
                      (after_tasks (length stubs)
                         (after_split
                            (after_parse (initial_state goal_text category user_feedback)
                               (llm_calls w)) (llm_calls w + 1))
                         (llm_calls w + 2),
                       after_calls (2 + length stubs) w))).
  { rewrite graph_steps_add.
    rewrite (bind_ok _ _ _ _ _ (first_two_stages _ w)).
    rewrite (loop_all_successes stubs _ (after_calls 2 w) Hs Hall).
    - rewrite after_calls_add. reflexivity.
    - apply entry_cursor.
    - intros i Hi. cbn [after_calls llm_calls]. now apply Hok. }
  split; [exact Hsteps|]. split.
  - intros fuel Hfuel.
    replace fuel with ((2 + Nat.max 1 (length stubs))
                       + S (fuel - (Nat.max 1 (length stubs) + 3))) by lia.
    rewrite (graph_invoke_steps _ _ _ _ _ _ Hsteps).
    apply graph_invoke_from_finalize.
  - intros fuel Hfuel.
    apply (graph_invoke_short _ _ _ _ _ fuel Hsteps); [discriminate | lia].
Qed.

(** X15. A run whose split leaves [n] stubs and whose task calls all
    succeed ends after exactly [max 1 n + 3] node runs - under a smaller
    step budget the library ends it with its recursion error - and after
    exactly [n + 2] calls of the completion service; it returns what
    finalize stored: a goal with [n] subgoals when the stored task lists
    have the shape finalize needs, and null, without an exception, when
    they do not. *)
Theorem pipeline_returns_after_n_successes
    (goal_text category : string) (user_feedback : list string) (w : world)
    (stubs : list pyval) :
  let k := llm_calls w in
  let s2 := after_split (after_parse (initial_state goal_text category user_feedback) k)
              (k + 1) in
  let n := length stubs in
  let s3 := after_tasks n s2 (k + 2) in
  subgoals_list s2 = PList stubs ->
  forallb is_dict stubs = true ->
  (forall i, i < n -> stage_error (k + 2 + i) = None) ->
  exists s4 w4,
    finalize_goal_node (s3, after_calls (2 + n) w) = (Ok tt, (s4, w4))
    /\ llm_calls w4 = k + (2 + n)
    /\ (forall fuel, Nat.max 1 n + 3 <= fuel ->
          decompose_goal_with_langgraph fuel goal_text category user_feedback w
          = (Ok (final_goal s4), w4))
    /\ (forall fuel, fuel < Nat.max 1 n + 3 ->
          fst (decompose_goal_with_langgraph fuel goal_text category user_feedback w)
          = Raise recursion_error)
    /\ (if state_ok s3
        then exists g, final_goal s4 = Some g /\ length (Goal.subgoals g) = n
        else final_goal s4 = None).
Proof.
  intros k s2 n s3 Hs Hall Hok.
  destruct (run_after_successes goal_text category user_feedback w stubs Hs Hall Hok)
    as (_ & Hrun & Hshort).
  change (forall fuel, Nat.max 1 n + 3 <= fuel ->
            graph_invoke fuel parse_goal (initial_state goal_text category user_feedback, w)
            = (Ok tt, snd (finalize_goal_node (s3, after_calls (2 + n) w)))) in Hrun.
  change (forall fuel, fuel < Nat.max 1 n + 3 ->
            fst (graph_invoke fuel parse_goal
                   (initial_state goal_text category user_feedback, w))
            = Raise recursion_error) in Hshort.
  destruct (finalize_goal_node (s3, after_calls (2 + n) w)) as [r [s4 w4]] eqn:Efin.
  pose proof (finalize_run s3 (after_calls (2 + n) w)) as Hr. rewrite Efin in Hr.
  cbn [snd] in Hr. injection Hr as ->.
  exists s4, w4. split; [reflexivity|].
  split.
  { pose proof (finalize_keeps_llm s3 (after_calls (2 + n) w)) as Hl.
    rewrite Efin in Hl. exact Hl. }
  split.
  { intros fuel Hfuel. unfold decompose_goal_with_langgraph.
    rewrite (Hrun fuel Hfuel). reflexivity. }
  split.
  { intros fuel Hfuel. unfold decompose_goal_with_langgraph.
    specialize (Hshort fuel Hfuel).
    destruct (graph_invoke fuel parse_goal _) as [[u|e] [sx wx]]; cbn [fst] in Hshort;
      [discriminate | injection Hshort as ->; reflexivity]. }
  assert (Hnone : final_goal s3 = None).
  { unfold s3. rewrite after_tasks_final_goal. apply entry_cursor. }
  destruct (finalize_outcome s3 (after_calls (2 + n) w))
    as (s' & w' & E & [(g & Hg & Hs') | (e & He & Hs')]);
    rewrite Efin in E; injection E as <- <-;
    pose proof (build_goal_is_ok s3 (after_calls (2 + n) w)) as Hok';
    [rewrite Hg in Hok' | rewrite He in Hok']; simpl in Hok'; rewrite <- Hok'.
  - exists g. split; [rewrite Hs'; reflexivity|].
    apply build_goal_built in Hg as (_ & stubs' & Hstubs' & Hall').
    unfold s3 in Hstubs'. rewrite after_tasks_stubs, Hs in Hstubs'.
    cbn in Hstubs'. injection Hstubs' as <-.
    apply Forall2_length in Hall'. rewrite length_imap in Hall'. now symmetry.
  - rewrite Hs'. exact Hnone.
Qed.

(** The entry point on a service whose task calls all fail: once the split
    has left a first stub, no goal is returned under any step budget; the
    run ends in the library's recursion error. *)
Lemma failing_run_ends_in_recursion_error
    (goal_text category : string) (user_feedback : list string) (w : world)
    (stubs : list pyval) sd :
  subgoals_list
    (after_split (after_parse (initial_state goal_text category user_feedback)
                    (llm_calls w)) (llm_calls w + 1))
  = PList stubs ->
  stubs !! 0 = Some (PDict sd) ->
  (forall i, stage_error (llm_calls w + 2 + i) <> None) ->
  forall budget,
    fst (decompose_goal_with_langgraph budget goal_text category user_feedback w)
    = Raise recursion_error.
Proof.
  intros Hs Hstub Hfail budget.
  assert (Hsteps : exists sw,
             graph_steps (2 + budget) parse_goal
               (initial_state goal_text category user_feedback, w)
             = (Ok generate_tasks, sw)).
  { rewrite graph_steps_add.
    rewrite (bind_ok _ _ _ _ _ (first_two_stages _ w)).
    erewrite (loop_failures stubs sd budget); [eexists; reflexivity | exact Hs | |].
    - destruct (entry_cursor goal_text category user_feedback (llm_calls w)
                  (llm_calls w + 1)) as [-> _]. exact Hstub.
    - intros i _. cbn [after_calls llm_calls]. apply Hfail. }
  destruct Hsteps as [sw Hsteps].
  pose proof (graph_invoke_short _ _ _ _ _ budget Hsteps) as Hshort.
  unfold decompose_goal_with_langgraph.
  destruct (graph_invoke budget parse_goal _) as [[u|e] [sx wx]]; cbn [fst] in *.
  - assert (Ok u = Raise recursion_error) by (apply Hshort; [discriminate | lia]).
    discriminate.
  - f_equal. assert (Raise e = Raise recursion_error :> result unit) as He
      by (apply Hshort; [discriminate | lia]).
    now injection He.
Qed.
End WholeRun.

(** The sample service answers the first two stages and then only prose:
    the entry point raises the recursion error and returns no goal. *)
Example failing_service_run_raises :
  fst (decompose_goal_with_langgraph (R := sample_runtime failing_task_replies) 25
         "Prepare for Nov 2 exam" "Academics" [] w0)
  = Raise (Exn GraphRecursionError
             "Recursion limit reached without hitting a stop condition").
Proof. vm_compute. reflexivity. Qed.

Section ServiceDown.
Context {R : Runtime}.

(** X16. When the split call fails the run still returns a goal, not
    null: a goal without subgoals, carrying what the parse stage left.  When
    the parse call failed as well - the service is down - the goal is titled
    with the input text verbatim, has an empty description and keeps the
    initial confidence 5, so a caller that tests for a goal with positive
    confidence sees a success with nothing in it.  The run makes two calls
    and four node runs. *)
Theorem failed_split_yields_empty_goal
    (goal_text category : string) (user_feedback : list string) (w : world) (e2 : exn) :
  stage_error (llm_calls w + 1) = Some e2 ->
  exists g w',
    (forall fuel, 4 <= fuel ->
        decompose_goal_with_langgraph fuel goal_text category user_feedback w
        = (Ok (Some g), w'))
    /\ llm_calls w' = llm_calls w + 2
    /\ Goal.subgoals g = []
    /\ Goal.category g = PStr category
    /\ Goal.status g = PStr "active"
    /\ Goal.title g
       = parsed_goal_title
           (after_parse (initial_state goal_text category user_feedback) (llm_calls w))
    /\ Goal.confidence g
       = confidence
           (after_parse (initial_state goal_text category user_feedback) (llm_calls w))
    /\ (forall e1, stage_error (llm_calls w) = Some e1 ->
          Goal.title g = PStr goal_text
          /\ Goal.description g = PStr ""
          /\ Goal.confidence g = PInt 5
          /\ Goal.rationale g = PStr "").
Proof.
  intros Hsplit.
  set (s1 := after_parse (initial_state goal_text category user_feedback) (llm_calls w)).
  assert (Hs2 : after_split s1 (llm_calls w + 1) = split_fallback s1 e2).
  { unfold after_split. now rewrite Hsplit. }
  destruct (run_after_successes goal_text category user_feedback w [])
    as (_ & Hrun & _).
  { fold s1. rewrite Hs2. reflexivity. }
  { reflexivity. }
  { intros i Hi. simpl in Hi. lia. }
  cbn [length Nat.max after_tasks Nat.add] in Hrun. fold s1 in Hrun. rewrite Hs2 in Hrun.
  set (s2 := split_fallback s1 e2) in *.
  destruct (finalize_outcome s2 (after_calls 2 w))
    as (s' & w' & Efin & [(g & Hg & Hs') | (e & He & _)]).
  2:{ exfalso. pose proof (build_goal_is_ok s2 (after_calls 2 w)) as Hok.
      rewrite He in Hok. simpl in Hok. discriminate. }
  exists g, w'. split.
  { intros fuel Hfuel. unfold decompose_goal_with_langgraph.
    rewrite (Hrun fuel) by lia. rewrite Efin. cbn [snd]. rewrite Hs'. reflexivity. }
  split.
  { pose proof (build_goal_keeps_llm s2 (after_calls 2 w)) as Hl.
    rewrite Hg in Hl. exact Hl. }
  apply build_goal_built in Hg
    as ((_ & A2 & A3 & A4 & A5 & _ & A7 & A8) & stubs' & Hstubs' & Hall').
  cbn in A2, A3, A4, A5, A7, A8, Hstubs'. injection Hstubs' as <-.
  cbn in Hall'. apply Forall2_nil_inv_l in Hall'.
  split; [exact Hall'|].
  split.
  { rewrite A5. unfold s1, after_parse.
    destruct (stage_error (llm_calls w)); reflexivity. }
  split; [exact A4|]. split; [exact A2|]. split; [exact A7|].
  intros e1 He1. rewrite A2, A3, A7, A8. unfold s1, after_parse. rewrite He1.
  repeat split.
Qed.
End ServiceDown.

Lemma failed_split_yields_empty_goal_witness :
  let R := sample_runtime dead_replies in
  exists g w',
    decompose_goal_with_langgraph (R := R) 4 "Prepare for Nov 2 exam" "Academics" [] w0
    = (Ok (Some g), w')
    /\ Goal.title g = PStr "Prepare for Nov 2 exam"
    /\ Goal.subgoals g = []
    /\ Goal.confidence g = PInt 5
    /\ llm_calls w' = 2.
Proof.
  intros R.
  destruct (failed_split_yields_empty_goal (R := R) "Prepare for Nov 2 exam" "Academics"
              [] w0 (Exn ServiceError "connection refused") eq_refl)
    as (g & w' & Hrun & Hl & Hsg & _ & _ & _ & _ & Hdown).
  destruct (Hdown (Exn ServiceError "connection refused") eq_refl) as (Ht & _ & Hc & _).
  exists g, w'. split; [apply Hrun; lia|].
  split; [exact Ht|]. split; [exact Hsg|]. split; [exact Hc | exact Hl].
Defined.

Lemma pipeline_returns_after_n_successes_witness :
  let R := sample_runtime good_replies in
  exists g w',
    decompose_goal_with_langgraph (R := R) 6 "Prepare for Nov 2 exam" "Academics" [] w0
    = (Ok (Some g), w')
    /\ length (Goal.subgoals g) = 3
    /\ llm_calls w' = 5
    /\ fst (decompose_goal_with_langgraph (R := R) 5 "Prepare for Nov 2 exam" "Academics"
              [] w0)
       = Raise (Exn GraphRecursionError
                  "Recursion limit reached without hitting a stop condition").
Proof.
  intros R.
  assert (Hok : forall i, i < length sample_stubs ->
                  stage_error (R := R) (llm_calls w0 + 2 + i) = None).
  { intros i Hi. do 3 (destruct i as [|i]; [vm_compute; reflexivity|]).
    simpl in Hi. lia. }
  destruct (pipeline_returns_after_n_successes (R := R) "Prepare for Nov 2 exam"
              "Academics" [] w0 sample_stubs eq_refl eq_refl Hok)
    as (s4 & w4 & _ & Hl & Hrun & Hshort & Hshape).
  assert (Hst : state_ok
                  (after_tasks (length sample_stubs)
                     (after_split
                        (after_parse (initial_state "Prepare for Nov 2 exam" "Academics" [])
                           (llm_calls w0)) (llm_calls w0 + 1)) (llm_calls w0 + 2)) = true)
    by (vm_compute; reflexivity).
  rewrite Hst in Hshape. destruct Hshape as (g & Hg & Hlen).
  exists g, w4. split; [rewrite <- Hg; apply Hrun; simpl; lia|].
  split; [exact Hlen|]. split; [exact Hl|].
  apply Hshort. simpl. lia.
Defined.

Section SplitStage.
Context {R : Runtime}.

(** X17. When the subgoal-split stage fails - the call raises, a brace is
    missing, the cut does not parse - it returns normally with an empty stub
    list and the note "Subgoal decomposition error: ..."; title,
    description, confidence, rationale, cursor and stored task lists are as
    before.  The graph moves on to the task-generation node, which then
    calls nothing and hands over to finalize. *)
Theorem split_failure_falls_back (s : DecompositionState) (w : world) (e : exn) :
  stage_error (llm_calls w) = Some e ->
  exists s',
    decompose_to_subgoals_node (s, w) = (Ok tt, (s', after_calls 1 w))
    /\ subgoals_list s' = PList []
    /\ error s' = "Subgoal decomposition error: " +:+ exn_str e
    /\ parsed_goal_title s' = parsed_goal_title s
    /\ parsed_goal_description s' = parsed_goal_description s
    /\ confidence s' = confidence s
    /\ rationale s' = rationale s
    /\ current_subgoal_index s' = current_subgoal_index s
    /\ generated_tasks s' = generated_tasks s
    /\ graph_steps 2 decompose_to_subgoals (s, w) = (Ok finalize, (s', after_calls 1 w)).
Proof.
  intros Herr. exists (split_fallback s e).
  split; [rewrite decompose_run, Herr; reflexivity|].
  do 8 (split; [reflexivity|]).
  cbn [graph_steps].
  rewrite (bind_ok _ _ _ _ _ (step_decompose_exact s w)).
  unfold after_split. rewrite Herr.
  erewrite bind_ok by (apply (step_generate_done _ _ []); [reflexivity | simpl; lia]).
  reflexivity.
Qed.

Lemma after_tasks_confidence (j : nat) (s : DecompositionState) (k : nat) :
  confidence (after_tasks (S j) s k) = dict_get (reply_dict (k + j)) "confidence" (PInt 0)
  /\ rationale (after_tasks (S j) s k) = dict_get (reply_dict (k + j)) "rationale" (PStr "").
Proof. rewrite after_tasks_last. split; reflexivity. Qed.

(** X18. In a run with at least one stub whose task calls all succeed,
    the confidence and the rationale of the returned goal are those of the
    last task reply; a last reply that leaves the confidence out gives the
    goal confidence 0, whatever the earlier stages reported. *)
Theorem goal_confidence_is_last_reply
    (goal_text category : string) (user_feedback : list string) (w : world)
    (stubs : list pyval) (fuel : nat) g w' :
  let k := llm_calls w in
  let n := length stubs in
  subgoals_list
    (after_split (after_parse (initial_state goal_text category user_feedback) k) (k + 1))
  = PList stubs ->
  forallb is_dict stubs = true ->
  0 < n ->
  (forall i, i < n -> stage_error (k + 2 + i) = None) ->
  decompose_goal_with_langgraph fuel goal_text category user_feedback w
  = (Ok (Some g), w') ->
  Goal.confidence g = dict_get (reply_dict (k + 1 + n)) "confidence" (PInt 0)
  /\ Goal.rationale g = dict_get (reply_dict (k + 1 + n)) "rationale" (PStr "")
  /\ (assoc "confidence" (reply_dict (k + 1 + n)) = None -> Goal.confidence g = PInt 0).
Proof.
  intros k n Hs Hall Hn Hok Hrun.
  destruct (run_after_successes goal_text category user_feedback w stubs Hs Hall Hok)
    as (_ & Hlong & Hshort).
  unfold decompose_goal_with_langgraph in Hrun.
  destruct (Nat.le_gt_cases (Nat.max 1 (length stubs) + 3) fuel) as [Hge | Hlt].
  2:{ specialize (Hshort fuel Hlt).
      destruct (graph_invoke fuel parse_goal _) as [[u|e] [sx wx]]; cbn [fst] in Hshort;
        discriminate. }
  rewrite (Hlong fuel Hge) in Hrun.
  match type of Hrun with
  | context [finalize_goal_node (?s3, ?w3)] =>
      destruct (finalize_outcome s3 w3)
        as (s' & w4 & Efin & [(g' & Hg & Hs') | (e & He & Hs')]);
      rewrite Efin in Hrun; cbn [snd] in Hrun; rewrite Hs' in Hrun;
      cbn [final_goal set_final_goal set_error] in Hrun
  end.
  2:{ rewrite after_tasks_final_goal in Hrun.
      destruct (entry_cursor goal_text category user_feedback (llm_calls w)
                  (llm_calls w + 1)) as [_ Hnone].
      rewrite Hnone in Hrun. discriminate. }
  injection Hrun as -> _.
  apply build_goal_built in Hg as ((_ & _ & _ & _ & _ & _ & A7 & A8) & _).
  cbn in A7, A8.
  assert (Hconf : Goal.confidence g = dict_get (reply_dict (k + 1 + n)) "confidence" (PInt 0)
                  /\ Goal.rationale g
                     = dict_get (reply_dict (k + 1 + n)) "rationale" (PStr "")).
  { rewrite A7, A8. unfold n, k. destruct (length stubs) as [|m]; [simpl in Hn; lia|].
    destruct (after_tasks_confidence m
                (after_split
                   (after_parse (initial_state goal_text category user_feedback)
                      (llm_calls w)) (llm_calls w + 1)) (llm_calls w + 2)) as [-> ->].
    replace (llm_calls w + 2 + m) with (llm_calls w + 1 + S m) by lia. auto. }
  destruct Hconf as [Hc Hr]. split; [exact Hc|]. split; [exact Hr|].
  intros Hmiss. rewrite Hc. unfold dict_get. now rewrite Hmiss.
Qed.
End SplitStage.

Lemma split_failure_falls_back_witness :
  let R := sample_runtime prose_replies in
  exists s',
    graph_steps 2 decompose_to_subgoals (sample_entry (R := R))
    = (Ok finalize, (s', after_calls 1 w0))
    /\ subgoals_list s' = PList []
    /\ error s' = "Subgoal decomposition error: substring not found".
Proof.
  intros R.
  destruct (split_failure_falls_back (R := R) (fst (sample_entry (R := R))) w0
              substring_not_found eq_refl)
    as (s' & _ & H2 & H3 & _ & _ & _ & _ & _ & _ & H10).
  exists s'. split; [exact H10|]. split; [exact H2 | exact H3].
Defined.

Lemma goal_confidence_is_last_reply_witness :
  let R := sample_runtime good_replies in
  exists g w',
    decompose_goal_with_langgraph (R := R) 6 "Prepare for Nov 2 exam" "Academics" [] w0
    = (Ok (Some g), w')
    /\ Goal.confidence g = PInt 8.
Proof.
  intros R.
  destruct (decompose_goal_with_langgraph (R := R) 6 "Prepare for Nov 2 exam"
              "Academics" [] w0) as [[[g|]|e] w'] eqn:E;
    try (vm_compute in E; discriminate).
  exists g, w'. split; [reflexivity|].
  assert (Hok : forall i, i < length sample_stubs ->
                  stage_error (R := R) (llm_calls w0 + 2 + i) = None).
  { intros i Hi. do 3 (destruct i as [|i]; [vm_compute; reflexivity|]).
    simpl in Hi. lia. }
  destruct (goal_confidence_is_last_reply (R := R) "Prepare for Nov 2 exam" "Academics"
              [] w0 sample_stubs 6 g w' eq_refl eq_refl) as (Hc & _).
  - simpl. lia.
  - exact Hok.
  - exact E.
  - rewrite Hc. reflexivity.
Defined.

Lemma update_status_idempotent_witness :
  let sg := sample_subgoal "Review" [sample_task true []; sample_task false []] in
  let sg' := sample_subgoal "Review"
               [sample_task true [sample_subtask false];
                Task.mk (PStr "t") (PStr "sg") (PStr "g") (PStr "read chapter 2")
                  (PStr "None") (PBool true) (PBool false) [] (PBool false) (PInt 5)] in
  Subgoal.status (Subgoal.update_status sg') = Subgoal.status (Subgoal.update_status sg)
  /\ Goal.update_status (Goal.update_status (sample_goal "Academics" [sg; sg']))
     = Goal.update_status (sample_goal "Academics" [sg; sg']).
Proof.
  intros sg sg'.
  destruct (update_status_idempotent (sample_goal "Academics" [sg; sg']))
    as (H1 & _ & _ & _ & H5).
  split; [apply H5; reflexivity | exact H1].
Defined.

Lemma import_succeeds_iff_shape_witness :
  let R := sample_runtime good_replies in
  Subtask.from_dict (R := R) (PDict [("parent_task_id", PStr "t"); ("done", PBool true)]) w0
  = (Raise (Exn KeyError "'description'"), w0)
  /\ is_ok (fst (Goal.from_dict (R := R) sample_partial_goal_dict w0)) = true.
Proof.
  intros R.
  destruct (import_succeeds_iff_shape (R := R)) as (_ & _ & _ & H4 & H5).
  split; [apply H5; reflexivity|].
  rewrite H4. reflexivity.
Defined.
